(** * Sinkhole detection in a wireless sensor network by ant colony optimisation

    A shallow embedding of [network.py] (the sensor network and its behaviour
    snapshot) and of [aco_algorithm.py] (the ant colony: movement, suspicion
    heuristic, pheromone update, vote-based detection), followed by the
    properties of the specification that concern them.

    Numbers.  Node ids and packet counters are Python integers: [Z].  Counts
    of ants, iterations and votes are [nat].  Delivery ratio, energy and
    pheromone are Python floats and are modelled by exact rationals [Q].
    For the delivery ratio and the energy this changes no comparison of the
    code: a quotient of counters below 2^40 lies on the same side of the
    decimal thresholds 0.28, 0.38 and 0.4 before and after rounding, and a
    counter lies on the same side of [packets_sent * 0.3].  For the pheromone it leaves out the rounding of the products
    and sums.  The suspicion score is the one place where binary64 rounding
    decides a comparison of the code (0.4 + 0.2 + 0.1 evaluates to
    0.7000000000000001, which exceeds 0.7), so the score is accumulated in
    binary64 itself, with the kernel's primitive floats.  The exponents
    [alpha = 1.0] and [beta = 2.0] are integral and kept as integers.

    Errors.  A Python exception (KeyError on the node dictionary, IndexError
    on the pheromone array, ValueError of the random module) is [None].

    Randomness.  The pseudo random generator is an oracle handed to the run:
    [starts k] resolves the [random.randint] that places ant [k], and
    [choices it k] resolves the [np.random.choice] of ant [k] in iteration
    [it]. *)

From Stdlib Require Import ZArith QArith Qpower PrimFloat Lia Lqa.
From stdpp Require Import base option list gmap.

Set Warnings "-inexact-float".
Set Default Proof Using "Type".

Open Scope Z_scope.

(** ** Rational comparisons as booleans *)

Definition Qltb (a b : Q) : bool := negb (Qle_bool b a).
Definition Qleb (a b : Q) : bool := Qle_bool a b.

(** ** network.py *)

(** The dictionary returned by [get_node_behavior]. *)
Module Behavior.
Record t := mk {
  delivery_ratio : Q;
  packets_sent : Z;
  packets_received : Z;
  is_malicious : bool
}.
End Behavior.

(** The dataclass [SensorNode]. *)
Module SensorNode.
Record t := mk {
  node_id : Z;
  x : Q;
  y : Q;
  is_malicious : bool;
  energy : Q;
  packets_sent : Z;
  packets_received : Z;
  neighbors : list Z
}.
End SensorNode.

Module WirelessSensorNetwork.
Record t := mk {
  num_nodes : Z;
  network_size : Z * Z;
  nodes : gmap Z SensorNode.t;
  sinkhole_nodes : list Z;
  total_packets_sent : Z;
  total_packets_received : Z
}.

(** [node.packets_received / max(node.packets_sent, 1)]: the denominator
    is a positive integer, so the quotient is the fraction itself. *)
Definition get_node_behavior (self : t) (node_id : Z) : option Behavior.t :=
  node ← nodes self !! node_id;
  let delivery_ratio :=
    (SensorNode.packets_received node
       # Z.to_pos (Z.max (SensorNode.packets_sent node) 1))%Q in
  Some {| Behavior.delivery_ratio := delivery_ratio;
          Behavior.packets_sent := SensorNode.packets_sent node;
          Behavior.packets_received := SensorNode.packets_received node;
          Behavior.is_malicious := SensorNode.is_malicious node |}.

(** [self.nodes[i].neighbors.append(j)] *)
Definition add_neighbor (j : Z) (node : SensorNode.t) : SensorNode.t :=
  {| SensorNode.node_id := SensorNode.node_id node;
     SensorNode.x := SensorNode.x node;
     SensorNode.y := SensorNode.y node;
     SensorNode.is_malicious := SensorNode.is_malicious node;
     SensorNode.energy := SensorNode.energy node;
     SensorNode.packets_sent := SensorNode.packets_sent node;
     SensorNode.packets_received := SensorNode.packets_received node;
     SensorNode.neighbors := SensorNode.neighbors node ++ [j] |}.

Definition communication_range : Q := 20.

(** [np.sqrt(dx**2 + dy**2) <= communication_range], as a comparison of
    the squares. *)
Definition in_communication_range (a b : SensorNode.t) : bool :=
  Qle_bool
    ((SensorNode.x a - SensorNode.x b) ^ 2 + (SensorNode.y a - SensorNode.y b) ^ 2)
    (communication_range ^ 2).

(** The first loop of [_create_network], for the nodes numbered from [i]:
    [placement i] holds the three draws of [random.uniform] for node [i],
    its coordinates and its energy. *)
Fixpoint place_nodes (placement : nat → Q * Q * Q) (i count : nat)
    (nodes : gmap Z SensorNode.t) : gmap Z SensorNode.t :=
  match count with
  | O => nodes
  | S count' =>
      let '(x, y, energy) := placement i in
      place_nodes placement (S i) count'
        (<[Z.of_nat i :=
             SensorNode.mk (Z.of_nat i) x y false energy 0 0 []]> nodes)
  end.

(** The inner loop, [for j in range(i + 1, self.num_nodes)]. *)
Fixpoint link_row (nodes : gmap Z SensorNode.t) (i : Z) (js : list Z)
  : option (gmap Z SensorNode.t) :=
  match js with
  | [] => Some nodes
  | j :: rest =>
      node_i ← nodes !! i;
      node_j ← nodes !! j;
      link_row
        (if in_communication_range node_i node_j
         then alter (add_neighbor i) j (alter (add_neighbor j) i nodes)
         else nodes)
        i rest
  end.

(** The outer loop, [for i in range(self.num_nodes)]. *)
Fixpoint link_rows (nodes : gmap Z SensorNode.t) (num_nodes : Z) (rows : list Z)
  : option (gmap Z SensorNode.t) :=
  match rows with
  | [] => Some nodes
  | i :: rest =>
      nodes' ← link_row nodes i (seqZ (i + 1) (num_nodes - (i + 1)));
      link_rows nodes' num_nodes rest
  end.

Definition _create_network (self : t) (placement : nat → Q * Q * Q) : option t :=
  let placed :=
    place_nodes placement 0 (Z.to_nat (num_nodes self)) (nodes self) in
  linked ← link_rows placed (num_nodes self) (seqZ 0 (num_nodes self));
  Some {| num_nodes := num_nodes self;
          network_size := network_size self;
          nodes := linked;
          sinkhole_nodes := sinkhole_nodes self;
          total_packets_sent := total_packets_sent self;
          total_packets_received := total_packets_received self |}.
End WirelessSensorNetwork.

(** ** aco_algorithm.py *)

(** What [ACOAlgorithm] asks of the object it receives as [network]: the
    attribute [num_nodes], the dictionary [nodes] and the method
    [get_node_behavior]. *)
Class NetworkLike (N : Type) := {
  num_nodes : N → Z;
  nodes : N → gmap Z SensorNode.t;
  get_node_behavior : N → Z → option Behavior.t
}.

#[global] Instance WirelessSensorNetwork_NetworkLike :
  NetworkLike WirelessSensorNetwork.t := {|
  num_nodes := WirelessSensorNetwork.num_nodes;
  nodes := WirelessSensorNetwork.nodes;
  get_node_behavior := WirelessSensorNetwork.get_node_behavior
|}.

(** A graph provider that serves recorded behaviour snapshots: the second
    kind of object an [ACOAlgorithm] can be built on. *)
Module GraphProvider.
Record t := mk {
  node_count : Z;
  node_table : gmap Z SensorNode.t;
  behavior : gmap Z Behavior.t
}.
End GraphProvider.

#[global] Instance GraphProvider_NetworkLike : NetworkLike GraphProvider.t := {|
  num_nodes := GraphProvider.node_count;
  nodes := GraphProvider.node_table;
  get_node_behavior := λ g node_id, GraphProvider.behavior g !! node_id
|}.

Module Ant.
Record t := mk {
  current_node : Z;
  visited_nodes : list Z;
  suspicious_nodes : list Z
}.
End Ant.

Module ACOAlgorithm.
Record t (N : Type) := mk {
  network : N;
  num_ants : nat;
  ants : list Ant.t;
  pheromone_matrix : list (list Q);
  detected_attacks : list Z
}.
Arguments mk {N}.
Arguments network {N}.
Arguments num_ants {N}.
Arguments ants {N}.
Arguments pheromone_matrix {N}.
Arguments detected_attacks {N}.
End ACOAlgorithm.

(** The parameters set by [__init__]. *)
Definition alpha : Z := 1.
Definition beta : Z := 2.
Definition rho : Q := 0.1.
Definition Q_deposit : Z := 100.

(** *** numpy and random primitives *)

(** Indexing an axis of length [len] with integer [i]: negative indices
    count from the end, anything else out of range is an IndexError. *)
Definition np_index (len : nat) (i : Z) : option nat :=
  if (0 <=? i) && (i <? Z.of_nat len) then Some (Z.to_nat i)
  else if (- Z.of_nat len <=? i) && (i <? 0) then Some (Z.to_nat (Z.of_nat len + i))
  else None.

(** [matrix[i][j]] *)
Definition matrix_get (matrix : list (list Q)) (i j : Z) : option Q :=
  r ← np_index (length matrix) i;
  row ← matrix !! r;
  c ← np_index (length row) j;
  row !! c.

(** [matrix[i][j] += amount] *)
Definition matrix_add (matrix : list (list Q)) (i j : Z) (amount : Q)
  : option (list (list Q)) :=
  r ← np_index (length matrix) i;
  row ← matrix !! r;
  c ← np_index (length row) j;
  old ← row !! c;
  Some (<[r := <[c := (old + amount)%Q]> row]> matrix).

(** [np.max(row)]; an empty row is a ValueError. *)
Definition np_max (row : list Q) : option Q :=
  match row with
  | [] => None
  | q :: rest => Some (fold_left (λ m v, if Qltb m v then v else m) rest q)
  end.

(** [random.randint(lo, hi)], resolved by the raw draw [r]. *)
Definition randint (lo hi : Z) (r : nat) : option Z :=
  if lo <=? hi then Some (lo + Z.of_nat r mod (hi - lo + 1)) else None.

Definition Qsum (l : list Q) : Q := fold_left Qplus l 0%Q.

(** [np.random.choice(a, p=p)], resolved by the raw draw [r]: a negative
    probability is a ValueError, and the element returned is one of those
    with a positive probability. *)
Definition np_random_choice (a : list Z) (p : list Q) (r : nat) : option Z :=
  if forallb (λ q, Qleb 0 q) p then
    let support := (filter (λ e, Qltb 0 e.2 = true) (zip a p)).*1 in
    support !! (r `mod` length support)%nat
  else None.

(** [l[-n:]] *)
Definition last_n {A} (n : nat) (l : list A) : list A :=
  drop (length l - n) l.


(** *** The colony *)

Section ACO.
Context {N : Type} `{!NetworkLike N}.

(** [ACOAlgorithm.__init__]: [np.ones((n, n)) * 0.5] is a ValueError for a
    negative [n]. *)
Definition init (network : N) (num_ants : nat) : option (ACOAlgorithm.t N) :=
  let n := num_nodes network in
  if 0 <=? n then
    Some {| ACOAlgorithm.network := network;
            ACOAlgorithm.num_ants := num_ants;
            ACOAlgorithm.ants := [];
            ACOAlgorithm.pheromone_matrix :=
              replicate (Z.to_nat n) (replicate (Z.to_nat n) (1 * 0.5)%Q);
            ACOAlgorithm.detected_attacks := [] |}
  else None.

(** The loop of [create_ant_colony], for the ants numbered from [k]. *)
Fixpoint place_ants (network : N) (starts : nat → nat) (k count : nat)
  : option (list Ant.t) :=
  match count with
  | O => Some []
  | S count' =>
      start_node ← randint 0 (num_nodes network - 1) (starts k);
      rest ← place_ants network starts (S k) count';
      Some (Ant.mk start_node [] [] :: rest)
  end.

Definition create_ant_colony (self : ACOAlgorithm.t N) (starts : nat → nat)
  : option (ACOAlgorithm.t N) :=
  ants ← place_ants (ACOAlgorithm.network self) starts 0 (ACOAlgorithm.num_ants self);
  Some {| ACOAlgorithm.network := ACOAlgorithm.network self;
          ACOAlgorithm.num_ants := ACOAlgorithm.num_ants self;
          ACOAlgorithm.ants := ants;
          ACOAlgorithm.pheromone_matrix := ACOAlgorithm.pheromone_matrix self;
          ACOAlgorithm.detected_attacks := ACOAlgorithm.detected_attacks self |}.

(** [hasattr(node, 'energy')]: every [SensorNode] carries the field. *)
Definition hasattr_energy (node : SensorNode.t) : bool := true.

(** The suspicion heuristic of [ant_movement]: four terms added, in this
    order, to a score that starts at 0. *)
Definition suspiciousness_score (node_behavior : Behavior.t)
    (current_node_obj : SensorNode.t) : float :=
  let delivery_ratio := Behavior.delivery_ratio node_behavior in
  let packets_sent := Behavior.packets_sent node_behavior in
  let score := 0%float in
  let score :=
    if Qltb delivery_ratio 0.38 then (score + 0.4)%float else score in
  let score :=
    if (35 <? packets_sent) && Qltb delivery_ratio 0.28
    then (score + 0.3)%float else score in
  let score :=
    if hasattr_energy current_node_obj
    then if Qltb (SensorNode.energy current_node_obj) 40
         then (score + 0.2)%float else score
    else score in
  let score :=
    if (6 <? length (SensorNode.neighbors current_node_obj))%nat
    then (score + 0.1)%float else score in
  score.

(** [suspiciousness_score > 0.7] *)
Definition is_suspicious (node_behavior : Behavior.t)
    (current_node_obj : SensorNode.t) : bool :=
  PrimFloat.ltb 0.7 (suspiciousness_score node_behavior current_node_obj).

(** [[n for n in neighbors if n not in visited_nodes[-3:]]] *)
Definition available_nodes (current_node_obj : SensorNode.t)
    (visited_nodes : list Z) : list Z :=
  filter (λ n, n ∉ last_n 3 visited_nodes) (SensorNode.neighbors current_node_obj).

(** The transition weight of one candidate. *)
Definition transition_weight (network : N) (matrix : list (list Q))
    (current_node next_node : Z) : option Q :=
  pheromone ← matrix_get matrix current_node next_node;
  let distance := 1%Q in
  next_behavior ← get_node_behavior network next_node;
  let heuristic := (1 / (distance + 0.1))%Q in
  let heuristic :=
    if Qltb (Behavior.delivery_ratio next_behavior) 0.4
    then (heuristic * 2)%Q else heuristic in
  Some (pheromone ^ alpha * heuristic ^ beta)%Q.

Fixpoint transition_weights (network : N) (matrix : list (list Q))
    (current_node : Z) (candidates : list Z) : option (list Q) :=
  match candidates with
  | [] => Some []
  | next_node :: rest =>
      probability ← transition_weight network matrix current_node next_node;
      probabilities ← transition_weights network matrix current_node rest;
      Some (probability :: probabilities)
  end.

(** [ant_movement]: the ant is evaluated at its node and then moved; [r]
    resolves the random draw. *)
Definition ant_movement (self : ACOAlgorithm.t N) (r : nat) (ant : Ant.t)
  : option Ant.t :=
  let network := ACOAlgorithm.network self in
  let current_node := Ant.current_node ant in
  let visited_nodes := Ant.visited_nodes ant ++ [current_node] in
  node_behavior ← get_node_behavior network current_node;
  current_node_obj ← nodes network !! current_node;
  let suspicious_nodes :=
    if is_suspicious node_behavior current_node_obj
    then Ant.suspicious_nodes ant ++ [current_node]
    else Ant.suspicious_nodes ant in
  let available := available_nodes current_node_obj visited_nodes in
  match available with
  | [] => Some (Ant.mk current_node visited_nodes suspicious_nodes)
  | _ :: _ =>
      probabilities ←
        transition_weights network (ACOAlgorithm.pheromone_matrix self)
          current_node available;
      if Qltb 0 (Qsum probabilities) then
        let total_prob := Qsum probabilities in
        let probabilities := map (λ p, p / total_prob)%Q probabilities in
        next_node ← np_random_choice available probabilities r;
        Some (Ant.mk next_node visited_nodes suspicious_nodes)
      else Some (Ant.mk current_node visited_nodes suspicious_nodes)
  end.

(** [for ant in self.ants: self.ant_movement(ant)], ants numbered from [k]. *)
Fixpoint move_ants (self : ACOAlgorithm.t N) (draws : nat → nat) (k : nat)
    (ants : list Ant.t) : option (list Ant.t) :=
  match ants with
  | [] => Some []
  | ant :: rest =>
      ant' ← ant_movement self (draws k) ant;
      rest' ← move_ants self draws (S k) rest;
      Some (ant' :: rest')
  end.

(** Deposit on the trail: every step [current -> next_node] of the trail
    whose target is in the ant's suspicious list. *)
Fixpoint deposit_trail (matrix : list (list Q)) (visited_nodes suspicious_nodes : list Z)
    (pheromone_amount : Z) : option (list (list Q)) :=
  match visited_nodes with
  | current :: ((next_node :: _) as rest) =>
      matrix' ←
        (if bool_decide (next_node ∈ suspicious_nodes)
         then matrix_add matrix current next_node (inject_Z pheromone_amount)
         else Some matrix);
      deposit_trail matrix' rest suspicious_nodes pheromone_amount
  | _ => Some matrix
  end.

(** [for neighbor in obj.neighbors: matrix[node][neighbor] += amount * 0.5] *)
Fixpoint deposit_row (matrix : list (list Q)) (suspicious_node : Z)
    (neighbors : list Z) (pheromone_amount : Z) : option (list (list Q)) :=
  match neighbors with
  | [] => Some matrix
  | neighbor :: rest =>
      matrix' ← matrix_add matrix suspicious_node neighbor
                  (inject_Z pheromone_amount * 0.5)%Q;
      deposit_row matrix' suspicious_node rest pheromone_amount
  end.

Fixpoint deposit_neighbors (network : N) (matrix : list (list Q))
    (suspicious_nodes : list Z) (pheromone_amount : Z) : option (list (list Q)) :=
  match suspicious_nodes with
  | [] => Some matrix
  | suspicious_node :: rest =>
      suspicious_obj ← nodes network !! suspicious_node;
      matrix' ← deposit_row matrix suspicious_node
                  (SensorNode.neighbors suspicious_obj) pheromone_amount;
      deposit_neighbors network matrix' rest pheromone_amount
  end.

(** The deposit of one ant. *)
Definition deposit_ant (network : N) (matrix : list (list Q)) (ant : Ant.t)
  : option (list (list Q)) :=
  match Ant.suspicious_nodes ant with
  | [] => Some matrix
  | _ :: _ =>
      let pheromone_amount :=
        Q_deposit * Z.of_nat (length (Ant.suspicious_nodes ant)) in
      matrix' ← deposit_trail matrix (Ant.visited_nodes ant)
                  (Ant.suspicious_nodes ant) pheromone_amount;
      deposit_neighbors network matrix' (Ant.suspicious_nodes ant) pheromone_amount
  end.

Fixpoint deposit_ants (network : N) (matrix : list (list Q)) (ants : list Ant.t)
  : option (list (list Q)) :=
  match ants with
  | [] => Some matrix
  | ant :: rest =>
      matrix' ← deposit_ant network matrix ant;
      deposit_ants network matrix' rest
  end.

(** [self.pheromone_matrix *= (1 - self.rho)] *)
Definition evaporate (matrix : list (list Q)) : list (list Q) :=
  map (map (λ v, v * (1 - rho))%Q) matrix.

Definition update_pheromones (self : ACOAlgorithm.t N) : option (ACOAlgorithm.t N) :=
  matrix ← deposit_ants (ACOAlgorithm.network self)
              (evaporate (ACOAlgorithm.pheromone_matrix self))
              (ACOAlgorithm.ants self);
  Some {| ACOAlgorithm.network := ACOAlgorithm.network self;
          ACOAlgorithm.num_ants := ACOAlgorithm.num_ants self;
          ACOAlgorithm.ants := ACOAlgorithm.ants self;
          ACOAlgorithm.pheromone_matrix := matrix;
          ACOAlgorithm.detected_attacks := ACOAlgorithm.detected_attacks self |}.

(** [vote_count[node_id] = vote_count.get(node_id, 0) + 1] on a dictionary
    that keeps its keys in insertion order. *)
Fixpoint vote_add (vote_count : list (Z * nat)) (node_id : Z) : list (Z * nat) :=
  match vote_count with
  | [] => [(node_id, 0 + 1)%nat]
  | (key, votes) :: rest =>
      if bool_decide (key = node_id) then (key, votes + 1)%nat :: rest
      else (key, votes) :: vote_add rest node_id
  end.

Definition count_votes (all_suspicious : list Z) : list (Z * nat) :=
  fold_left vote_add all_suspicious [].

(** [all_suspicious]: the suspicious lists of all ants, one after the other. *)
Definition all_suspicious (ants : list Ant.t) : list Z :=
  concat (map Ant.suspicious_nodes ants).

Definition vote_threshold (self : ACOAlgorithm.t N) : nat :=
  Nat.max 2 (length (ACOAlgorithm.ants self) / 5).

Definition pheromone_threshold : Q := 7.0.

Definition behavior_score (node_behavior : Behavior.t) : nat :=
  let score := 0%nat in
  let score :=
    if Qltb (Behavior.delivery_ratio node_behavior) 0.4
    then (score + 1)%nat else score in
  let score :=
    if 30 <? Behavior.packets_sent node_behavior
    then (score + 1)%nat else score in
  let score :=
    if Qltb (inject_Z (Behavior.packets_received node_behavior))
            (inject_Z (Behavior.packets_sent node_behavior) * 0.3)
    then (score + 1)%nat else score in
  score.

(** The three tests of [detect_attacks] on one entry of the tally. *)
Definition consensus (self : ACOAlgorithm.t N) (node_id : Z) (votes : nat)
  : option bool :=
  r ← np_index (length (ACOAlgorithm.pheromone_matrix self)) node_id;
  row ← ACOAlgorithm.pheromone_matrix self !! r;
  max_pheromone ← np_max row;
  node_behavior ← get_node_behavior (ACOAlgorithm.network self) node_id;
  Some ((vote_threshold self <=? votes)%nat
        && Qleb pheromone_threshold max_pheromone
        && (2 <=? behavior_score node_behavior)%nat).

(** [for node_id, votes in vote_count.items(): ...] *)
Fixpoint detect_loop (self : ACOAlgorithm.t N) (items : list (Z * nat))
    (detected : list Z) : option (list Z) :=
  match items with
  | [] => Some detected
  | (node_id, votes) :: rest =>
      ok ← consensus self node_id votes;
      detect_loop self rest (if (ok : bool) then detected ++ [node_id] else detected)
  end.

Definition detect_attacks (self : ACOAlgorithm.t N)
  : option (list Z * ACOAlgorithm.t N) :=
  let vote_count := count_votes (all_suspicious (ACOAlgorithm.ants self)) in
  detected ← detect_loop self vote_count [];
  Some (detected,
        {| ACOAlgorithm.network := ACOAlgorithm.network self;
           ACOAlgorithm.num_ants := ACOAlgorithm.num_ants self;
           ACOAlgorithm.ants := ACOAlgorithm.ants self;
           ACOAlgorithm.pheromone_matrix := ACOAlgorithm.pheromone_matrix self;
           ACOAlgorithm.detected_attacks := detected |}).

(** One pass of the loop of [run_aco]: every ant moves on the matrix of the
    previous pass, then the matrix is updated. *)
Definition iteration_step (self : ACOAlgorithm.t N) (draws : nat → nat)
  : option (ACOAlgorithm.t N) :=
  ants ← move_ants self draws 0 (ACOAlgorithm.ants self);
  update_pheromones
    {| ACOAlgorithm.network := ACOAlgorithm.network self;
       ACOAlgorithm.num_ants := ACOAlgorithm.num_ants self;
       ACOAlgorithm.ants := ants;
       ACOAlgorithm.pheromone_matrix := ACOAlgorithm.pheromone_matrix self;
       ACOAlgorithm.detected_attacks := ACOAlgorithm.detected_attacks self |}.

(** [for iteration in range(iterations)], from pass [iteration] on. *)
Fixpoint run_iterations (self : ACOAlgorithm.t N) (choices : nat → nat → nat)
    (iteration remaining : nat) : option (ACOAlgorithm.t N) :=
  match remaining with
  | O => Some self
  | S remaining' =>
      self' ← iteration_step self (choices iteration);
      run_iterations self' choices (S iteration) remaining'
  end.

(** The colony after the loop of [run_aco], before detection. *)
Definition run_colony (self : ACOAlgorithm.t N) (starts : nat → nat)
    (choices : nat → nat → nat) (iterations : nat) : option (ACOAlgorithm.t N) :=
  self' ← create_ant_colony self starts;
  run_iterations self' choices 0 iterations.

Definition run_aco (self : ACOAlgorithm.t N) (starts : nat → nat)
    (choices : nat → nat → nat) (iterations : nat)
  : option (list Z * ACOAlgorithm.t N) :=
  self' ← run_colony self starts choices iterations;
  detect_attacks self'.

End ACO.

(** ** network.py: attacks and traffic

    The remaining methods of [WirelessSensorNetwork].  Each takes the raw
    draws of the random generator it consumes. *)

(** [random.random()]: a multiple of 2^-53 in [0, 1). *)
Definition random_random (r : nat) : Q :=
  (Z.of_nat r mod 2 ^ 53) # (2 ^ 53).

(** [random.uniform(lo, hi)], that is [lo + (hi - lo) * random()]. *)
Definition uniform (lo hi : Q) (r : nat) : Q :=
  (lo + (hi - lo) * random_random r)%Q.

(** [random.sample(population, k)]: [k] elements drawn without putting
    them back, [picks i] resolving the draw number [i]; a ValueError when
    the population has fewer than [k] elements. *)
Fixpoint random_sample (population : list Z) (k : nat) (picks : nat → nat) (i : nat)
  : option (list Z) :=
  match k with
  | O => Some []
  | S k' =>
      let position := (picks i `mod` length population)%nat in
      element ← population !! position;
      rest ← random_sample (delete position population) k' picks (S i);
      Some (element :: rest)
  end.

Module NetworkSimulation.

(** The four assignments of [_inject_sinkhole_attacks] to one node. *)
Definition attack (packets_sent packets_received : Z) (energy : Q)
    (node : SensorNode.t) : SensorNode.t :=
  {| SensorNode.node_id := SensorNode.node_id node;
     SensorNode.x := SensorNode.x node;
     SensorNode.y := SensorNode.y node;
     SensorNode.is_malicious := true;
     SensorNode.energy := energy;
     SensorNode.packets_sent := packets_sent;
     SensorNode.packets_received := packets_received;
     SensorNode.neighbors := SensorNode.neighbors node |}.

(** [for node_id in self.sinkhole_nodes: ...], [draws k] holding the three
    draws for the sinkhole number [k]. *)
Fixpoint attack_nodes (nodes : gmap Z SensorNode.t) (sinkhole_nodes : list Z)
    (draws : nat → nat * nat * nat) (k : nat) : option (gmap Z SensorNode.t) :=
  match sinkhole_nodes with
  | [] => Some nodes
  | node_id :: rest =>
      node ← nodes !! node_id;
      let '(d1, d2, d3) := draws k in
      packets_sent ← randint 80 120 d1;
      packets_received ← randint 5 25 d2;
      let energy := uniform 20 40 d3 in
      attack_nodes
        (<[node_id := attack packets_sent packets_received energy node]> nodes)
        rest draws (S k)
  end.

Definition _inject_sinkhole_attacks (self : WirelessSensorNetwork.t)
    (count_draw : nat) (picks : nat → nat) (draws : nat → nat * nat * nat)
  : option WirelessSensorNetwork.t :=
  num_attacks ← randint 5 10 count_draw;
  sinkhole_nodes ←
    random_sample (seqZ 0 (WirelessSensorNetwork.num_nodes self))
      (Z.to_nat num_attacks) picks 0;
  nodes ← attack_nodes (WirelessSensorNetwork.nodes self) sinkhole_nodes draws 0;
  Some {| WirelessSensorNetwork.num_nodes := WirelessSensorNetwork.num_nodes self;
          WirelessSensorNetwork.network_size := WirelessSensorNetwork.network_size self;
          WirelessSensorNetwork.nodes := nodes;
          WirelessSensorNetwork.sinkhole_nodes := sinkhole_nodes;
          WirelessSensorNetwork.total_packets_sent :=
            WirelessSensorNetwork.total_packets_sent self;
          WirelessSensorNetwork.total_packets_received :=
            WirelessSensorNetwork.total_packets_received self |}.

(** [WirelessSensorNetwork.__init__] *)
Definition init (num_nodes : Z) (network_size : Z * Z)
    (placement : nat → Q * Q * Q) (count_draw : nat) (picks : nat → nat)
    (draws : nat → nat * nat * nat) : option WirelessSensorNetwork.t :=
  let self :=
    {| WirelessSensorNetwork.num_nodes := num_nodes;
       WirelessSensorNetwork.network_size := network_size;
       WirelessSensorNetwork.nodes := ∅;
       WirelessSensorNetwork.sinkhole_nodes := [];
       WirelessSensorNetwork.total_packets_sent := 0;
       WirelessSensorNetwork.total_packets_received := 0 |} in
  self ← WirelessSensorNetwork._create_network self placement;
  _inject_sinkhole_attacks self count_draw picks draws.

(** [node.packets_sent += k] *)
Definition add_sent (k : Z) (node : SensorNode.t) : SensorNode.t :=
  {| SensorNode.node_id := SensorNode.node_id node;
     SensorNode.x := SensorNode.x node;
     SensorNode.y := SensorNode.y node;
     SensorNode.is_malicious := SensorNode.is_malicious node;
     SensorNode.energy := SensorNode.energy node;
     SensorNode.packets_sent := SensorNode.packets_sent node + k;
     SensorNode.packets_received := SensorNode.packets_received node;
     SensorNode.neighbors := SensorNode.neighbors node |}.

(** [node.packets_received += 1] *)
Definition add_received (node : SensorNode.t) : SensorNode.t :=
  {| SensorNode.node_id := SensorNode.node_id node;
     SensorNode.x := SensorNode.x node;
     SensorNode.y := SensorNode.y node;
     SensorNode.is_malicious := SensorNode.is_malicious node;
     SensorNode.energy := SensorNode.energy node;
     SensorNode.packets_sent := SensorNode.packets_sent node;
     SensorNode.packets_received := SensorNode.packets_received node + 1;
     SensorNode.neighbors := SensorNode.neighbors node |}.

(** One pass of the first loop of [simulate_traffic]; the three draws are
    those of the source, of the destination and of [random.random()]. *)
Definition traffic_round (self : WirelessSensorNetwork.t) (draw : nat * nat * nat)
  : option WirelessSensorNetwork.t :=
  let '(d1, d2, d3) := draw in
  source ← randint 0 (WirelessSensorNetwork.num_nodes self - 1) d1;
  destination ← randint 0 (WirelessSensorNetwork.num_nodes self - 1) d2;
  if bool_decide (source ≠ destination) then
    source_node ← WirelessSensorNetwork.nodes self !! source;
    let nodes := <[source := add_sent 1 source_node]> (WirelessSensorNetwork.nodes self) in
    let total_packets_sent := WirelessSensorNetwork.total_packets_sent self + 1 in
    let delivered :=
      if SensorNode.is_malicious source_node
      then Qltb (random_random d3) 0.45
      else Qltb (random_random d3) 0.85 in
    if delivered then
      destination_node ← nodes !! destination;
      Some {| WirelessSensorNetwork.num_nodes := WirelessSensorNetwork.num_nodes self;
              WirelessSensorNetwork.network_size :=
                WirelessSensorNetwork.network_size self;
              WirelessSensorNetwork.nodes :=
                <[destination := add_received destination_node]> nodes;
              WirelessSensorNetwork.sinkhole_nodes :=
                WirelessSensorNetwork.sinkhole_nodes self;
              WirelessSensorNetwork.total_packets_sent := total_packets_sent;
              WirelessSensorNetwork.total_packets_received :=
                WirelessSensorNetwork.total_packets_received self + 1 |}
    else
      Some {| WirelessSensorNetwork.num_nodes := WirelessSensorNetwork.num_nodes self;
              WirelessSensorNetwork.network_size :=
                WirelessSensorNetwork.network_size self;
              WirelessSensorNetwork.nodes := nodes;
              WirelessSensorNetwork.sinkhole_nodes :=
                WirelessSensorNetwork.sinkhole_nodes self;
              WirelessSensorNetwork.total_packets_sent := total_packets_sent;
              WirelessSensorNetwork.total_packets_received :=
                WirelessSensorNetwork.total_packets_received self |}
  else Some self.

(** [for _ in range(2000)], from pass [i] on. *)
Fixpoint traffic_rounds (self : WirelessSensorNetwork.t)
    (rounds : nat → nat * nat * nat) (i remaining : nat)
  : option WirelessSensorNetwork.t :=
  match remaining with
  | O => Some self
  | S remaining' =>
      self' ← traffic_round self (rounds i);
      traffic_rounds self' rounds (S i) remaining'
  end.

(** The second loop of [simulate_traffic], over the sinkholes that are
    left, [extras k] resolving the draw for the sinkhole number [k]. *)
Fixpoint extra_traffic (self : WirelessSensorNetwork.t) (sinkhole_nodes : list Z)
    (extras : nat → nat) (k : nat) : option WirelessSensorNetwork.t :=
  match sinkhole_nodes with
  | [] => Some self
  | node_id :: rest =>
      extra_packets ← randint 20 50 (extras k);
      node ← WirelessSensorNetwork.nodes self !! node_id;
      extra_traffic
        {| WirelessSensorNetwork.num_nodes := WirelessSensorNetwork.num_nodes self;
           WirelessSensorNetwork.network_size := WirelessSensorNetwork.network_size self;
           WirelessSensorNetwork.nodes :=
             <[node_id := add_sent extra_packets node]> (WirelessSensorNetwork.nodes self);
           WirelessSensorNetwork.sinkhole_nodes :=
             WirelessSensorNetwork.sinkhole_nodes self;
           WirelessSensorNetwork.total_packets_sent :=
             WirelessSensorNetwork.total_packets_sent self + extra_packets;
           WirelessSensorNetwork.total_packets_received :=
             WirelessSensorNetwork.total_packets_received self |}
        rest extras (S k)
  end.

Definition simulate_traffic (self : WirelessSensorNetwork.t)
    (rounds : nat → nat * nat * nat) (extras : nat → nat)
  : option WirelessSensorNetwork.t :=
  self' ← traffic_rounds self rounds 0 2000;
  extra_traffic self' (WirelessSensorNetwork.sinkhole_nodes self') extras 0.

End NetworkSimulation.

(** ** evaluation.py

    The counts are natural numbers.  The four rates are exact fractions
    times 100, where Python rounds the quotient and the product to
    binary64. *)

Module PerformanceEvaluator.
Record t := mk {
  network : WirelessSensorNetwork.t;
  detected_attacks : list Z;
  true_detections : nat;
  false_alarms : nat
}.

(** [__init__], with [_calculate_metrics]. *)
Definition init (network : WirelessSensorNetwork.t) (detected_attacks : list Z) : t :=
  {| network := network;
     detected_attacks := detected_attacks;
     true_detections :=
       length (filter (λ node, node ∈ WirelessSensorNetwork.sinkhole_nodes network)
                 detected_attacks);
     false_alarms :=
       length (filter (λ node, node ∉ WirelessSensorNetwork.sinkhole_nodes network)
                 detected_attacks) |}.

Definition Qnat (n : nat) : Q := inject_Z (Z.of_nat n).

Definition calculate_detection_rate (self : t) : Q :=
  if (length (WirelessSensorNetwork.sinkhole_nodes (network self)) =? 0)%nat then 0
  else (Qnat (true_detections self)
        / Qnat (length (WirelessSensorNetwork.sinkhole_nodes (network self)))
        * 100)%Q.

Definition calculate_false_alarm_rate (self : t) : Q :=
  if (length (detected_attacks self) =? 0)%nat then 0
  else (Qnat (false_alarms self) / Qnat (length (detected_attacks self)) * 100)%Q.

Definition calculate_packet_delivery_ratio (self : t) : Q :=
  if WirelessSensorNetwork.total_packets_sent (network self) =? 0 then 0
  else (inject_Z (WirelessSensorNetwork.total_packets_received (network self))
        / inject_Z (WirelessSensorNetwork.total_packets_sent (network self))
        * 100)%Q.

Definition calculate_message_drop (self : t) : Q :=
  if WirelessSensorNetwork.total_packets_sent (network self) =? 0 then 0
  else (inject_Z (WirelessSensorNetwork.total_packets_sent (network self)
                  - WirelessSensorNetwork.total_packets_received (network self))
        / inject_Z (WirelessSensorNetwork.total_packets_sent (network self))
        * 100)%Q.

(** The dictionary returned by [get_all_metrics]. *)
Record Metrics := mk_metrics {
  detection_rate : Q;
  false_alarm_rate : Q;
  packet_delivery_ratio : Q;
  message_drop : Q;
  metric_true_detections : nat;
  metric_false_alarms : nat;
  total_attacks : nat;
  metric_detected_attacks : nat
}.

Definition get_all_metrics (self : t) : Metrics :=
  {| detection_rate := calculate_detection_rate self;
     false_alarm_rate := calculate_false_alarm_rate self;
     packet_delivery_ratio := calculate_packet_delivery_ratio self;
     message_drop := calculate_message_drop self;
     metric_true_detections := true_detections self;
     metric_false_alarms := false_alarms self;
     total_attacks := length (WirelessSensorNetwork.sinkhole_nodes (network self));
     metric_detected_attacks := length (detected_attacks self) |}.
End PerformanceEvaluator.

(** ** main.py *)

(** The random draws of one execution of [main]. *)
Record Draws := mk_draws {
  placement : nat → Q * Q * Q;
  attack_count : nat;
  attack_picks : nat → nat;
  attack_draws : nat → nat * nat * nat;
  traffic_draws : nat → nat * nat * nat;
  extra_draws : nat → nat;
  ant_starts : nat → nat;
  ant_choices : nat → nat → nat
}.

(** [main] up to the metrics it prints; plotting is left out. *)
Definition main (draws : Draws)
  : option (WirelessSensorNetwork.t * list Z * PerformanceEvaluator.Metrics) :=
  network ← NetworkSimulation.init 100 (100, 100) (placement draws)
               (attack_count draws) (attack_picks draws) (attack_draws draws);
  network ← NetworkSimulation.simulate_traffic network
               (traffic_draws draws) (extra_draws draws);
  aco ← init network 20;
  run ← run_aco aco (ant_starts draws) (ant_choices draws) 50;
  let detected_attacks := run.1 in
  let evaluator := PerformanceEvaluator.init network detected_attacks in
  Some (network, detected_attacks, PerformanceEvaluator.get_all_metrics evaluator).

(** ** Sample networks *)

Definition isolated_node (node_id : Z) (x y : Q) (malicious : bool) : SensorNode.t :=
  if malicious
  then SensorNode.mk node_id x y true 30 100 10 []
  else SensorNode.mk node_id x y false 90 0 0 [].

(** Ten nodes more than 20 apart from each other, the first five of them
    sinkholes, as the constructor of the network leaves them. *)
Definition scattered_network : WirelessSensorNetwork.t :=
  {| WirelessSensorNetwork.num_nodes := 10;
     WirelessSensorNetwork.network_size := (100, 100);
     WirelessSensorNetwork.nodes :=
       list_to_map
         [(0, isolated_node 0 10 10 true); (1, isolated_node 1 40 10 true);
          (2, isolated_node 2 70 10 true); (3, isolated_node 3 95 10 true);
          (4, isolated_node 4 10 40 true); (5, isolated_node 5 40 40 false);
          (6, isolated_node 6 70 40 false); (7, isolated_node 7 95 40 false);
          (8, isolated_node 8 10 70 false); (9, isolated_node 9 40 70 false)];
     WirelessSensorNetwork.sinkhole_nodes := [0; 1; 2; 3; 4];
     WirelessSensorNetwork.total_packets_sent := 0;
     WirelessSensorNetwork.total_packets_received := 0 |}.

(** The colony that [ACOAlgorithm(scattered_network, num_ants)] builds. *)
Definition scattered_colony (num_ants : nat) : ACOAlgorithm.t WirelessSensorNetwork.t :=
  {| ACOAlgorithm.network := scattered_network;
     ACOAlgorithm.num_ants := num_ants;
     ACOAlgorithm.ants := [];
     ACOAlgorithm.pheromone_matrix := replicate 10 (replicate 10 (1 * 0.5)%Q);
     ACOAlgorithm.detected_attacks := [] |}.

(** Ten nodes again, with nodes 5, 6 and 7 in a row in which each is in
    range of the next one only, and with a few packets exchanged among them:
    node 5 has received packets and sent none. *)
Definition relay_network : WirelessSensorNetwork.t :=
  {| WirelessSensorNetwork.num_nodes := 10;
     WirelessSensorNetwork.network_size := (100, 100);
     WirelessSensorNetwork.nodes :=
       list_to_map
         [(0, isolated_node 0 10 10 true); (1, isolated_node 1 40 10 true);
          (2, isolated_node 2 70 10 true); (3, isolated_node 3 95 10 true);
          (4, isolated_node 4 10 40 true);
          (5, SensorNode.mk 5 40 40 false 90 0 5 [6]);
          (6, SensorNode.mk 6 55 40 false 85 12 4 [5; 7]);
          (7, SensorNode.mk 7 70 40 false 95 3 3 [6]);
          (8, isolated_node 8 10 70 false); (9, isolated_node 9 40 70 false)];
     WirelessSensorNetwork.sinkhole_nodes := [0; 1; 2; 3; 4];
     WirelessSensorNetwork.total_packets_sent := 15;
     WirelessSensorNetwork.total_packets_received := 12 |}.

Definition relay_colony (num_ants : nat) : ACOAlgorithm.t WirelessSensorNetwork.t :=
  {| ACOAlgorithm.network := relay_network;
     ACOAlgorithm.num_ants := num_ants;
     ACOAlgorithm.ants := [];
     ACOAlgorithm.pheromone_matrix := replicate 10 (replicate 10 (1 * 0.5)%Q);
     ACOAlgorithm.detected_attacks := [] |}.

(** A provider whose node 0 reports a delivery ratio of 0.95 for 10 packets
    sent, with little energy left. *)
Definition healthy_provider : GraphProvider.t :=
  {| GraphProvider.node_count := 2;
     GraphProvider.node_table :=
       list_to_map
         [(0, SensorNode.mk 0 10 10 false 30 10 9 [1]);
          (1, SensorNode.mk 1 25 10 false 90 0 0 [0])];
     GraphProvider.behavior :=
       list_to_map
         [(0, Behavior.mk 0.95 10 9 false); (1, Behavior.mk 0 0 0 false)] |}.

Definition healthy_colony : ACOAlgorithm.t GraphProvider.t :=
  {| ACOAlgorithm.network := healthy_provider;
     ACOAlgorithm.num_ants := 2;
     ACOAlgorithm.ants := [];
     ACOAlgorithm.pheromone_matrix := replicate 2 (replicate 2 (1 * 0.5)%Q);
     ACOAlgorithm.detected_attacks := [] |}.

(** Draws that place node [i] at [(10 i, 10)] with energy 90. *)
Definition row_placement (i : nat) : Q * Q * Q :=
  (inject_Z (10 * Z.of_nat i), 10%Q, 90%Q).

Definition empty_network (num_nodes : Z) : WirelessSensorNetwork.t :=
  {| WirelessSensorNetwork.num_nodes := num_nodes;
     WirelessSensorNetwork.network_size := (100, 100);
     WirelessSensorNetwork.nodes := ∅;
     WirelessSensorNetwork.sinkhole_nodes := [];
     WirelessSensorNetwork.total_packets_sent := 0;
     WirelessSensorNetwork.total_packets_received := 0 |}.

Definition always_zero (k : nat) : nat := 0%nat.
Definition always_five (k : nat) : nat := 5%nat.
Definition no_choice (iteration k : nat) : nat := 0%nat.

(** ** Vocabulary of the properties *)

(** Number of occurrences of [n] in [l]. *)
Definition count_in (n : Z) (l : list Z) : nat :=
  length (filter (λ m, m = n) l).

(** [vote_count.get(node_id, 0)] *)
Fixpoint vote_get (vote_count : list (Z * nat)) (node_id : Z) : nat :=
  match vote_count with
  | [] => 0%nat
  | (key, votes) :: rest =>
      if bool_decide (key = node_id) then votes else vote_get rest node_id
  end.

(** The colony with another list in [detected_attacks]. *)
Definition with_detected {N} (detected : list Z) (self : ACOAlgorithm.t N)
  : ACOAlgorithm.t N :=
  {| ACOAlgorithm.network := ACOAlgorithm.network self;
     ACOAlgorithm.num_ants := ACOAlgorithm.num_ants self;
     ACOAlgorithm.ants := ACOAlgorithm.ants self;
     ACOAlgorithm.pheromone_matrix := ACOAlgorithm.pheromone_matrix self;
     ACOAlgorithm.detected_attacks := detected |}.

(** The colony on another network. *)
Definition with_network {N} (network : N) (self : ACOAlgorithm.t N)
  : ACOAlgorithm.t N :=
  {| ACOAlgorithm.network := network;
     ACOAlgorithm.num_ants := ACOAlgorithm.num_ants self;
     ACOAlgorithm.ants := ACOAlgorithm.ants self;
     ACOAlgorithm.pheromone_matrix := ACOAlgorithm.pheromone_matrix self;
     ACOAlgorithm.detected_attacks := ACOAlgorithm.detected_attacks self |}.

(** An ant as [Ant(current_node=start_node)] builds it. *)
Definition fresh_ant (ant : Ant.t) : Prop :=
  Ant.visited_nodes ant = [] ∧ Ant.suspicious_nodes ant = [].

Definition matrix_nonneg (matrix : list (list Q)) : Prop :=
  Forall (Forall (λ v, (0 <= v)%Q)) matrix.

(** [v] is [u] itself or one of the neighbours of [u]. *)
Definition linked {N} `{!NetworkLike N} (network : N) (u v : Z) : Prop :=
  v = u ∨ ∃ node, nodes network !! u = Some node ∧ v ∈ SensorNode.neighbors node.

Definition trail_adjacent {N} `{!NetworkLike N} (network : N) (trail : list Z) : Prop :=
  ∀ i u v, trail !! i = Some u → trail !! S i = Some v → linked network u v.

(** The heuristic flags node [n]: its score exceeds 0.7. *)
Definition flagged_by_heuristic {N} `{!NetworkLike N} (network : N) (n : Z) : Prop :=
  ∃ node_behavior node,
    get_node_behavior network n = Some node_behavior
    ∧ nodes network !! n = Some node
    ∧ is_suspicious node_behavior node = true.

(** The node dictionary has no key outside [range(num_nodes)]. *)
Definition keys_in_range {N} `{!NetworkLike N} (network : N) : Prop :=
  ∀ node_id, is_Some (nodes network !! node_id) → 0 <= node_id < num_nodes network.

(** Every id in a neighbour list is in [range(num_nodes)]. *)
Definition neighbors_in_range {N} `{!NetworkLike N} (network : N) : Prop :=
  ∀ node_id node n,
    nodes network !! node_id = Some node →
    n ∈ SensorNode.neighbors node → 0 <= n < num_nodes network.

(** The same two conditions on a bare node dictionary. *)
Definition nodes_in_range (num_nodes : Z) (nodes : gmap Z SensorNode.t) : Prop :=
  ∀ node_id node,
    nodes !! node_id = Some node →
    0 <= node_id < num_nodes
    ∧ ∀ n, n ∈ SensorNode.neighbors node → 0 <= n < num_nodes.

(** What a node shows apart from its ground-truth label. *)
Definition node_agree (n1 n2 : SensorNode.t) : Prop :=
  SensorNode.neighbors n1 = SensorNode.neighbors n2
  ∧ SensorNode.energy n1 = SensorNode.energy n2
  ∧ SensorNode.packets_sent n1 = SensorNode.packets_sent n2
  ∧ SensorNode.packets_received n1 = SensorNode.packets_received n2.

(** What a snapshot shows apart from the ground-truth label. *)
Definition behavior_agree (b1 b2 : Behavior.t) : Prop :=
  Behavior.delivery_ratio b1 = Behavior.delivery_ratio b2
  ∧ Behavior.packets_sent b1 = Behavior.packets_sent b2
  ∧ Behavior.packets_received b1 = Behavior.packets_received b2.

Definition networks_agree {N} `{!NetworkLike N} (n1 n2 : N) : Prop :=
  num_nodes n1 = num_nodes n2
  ∧ (∀ node_id, option_Forall2 node_agree (nodes n1 !! node_id) (nodes n2 !! node_id))
  ∧ (∀ node_id, option_Forall2 behavior_agree
                  (get_node_behavior n1 node_id) (get_node_behavior n2 node_id)).

(** The network with every ground-truth label erased. *)
Definition forget_labels (w : WirelessSensorNetwork.t) : WirelessSensorNetwork.t :=
  {| WirelessSensorNetwork.num_nodes := WirelessSensorNetwork.num_nodes w;
     WirelessSensorNetwork.network_size := WirelessSensorNetwork.network_size w;
     WirelessSensorNetwork.nodes :=
       (λ node, SensorNode.mk (SensorNode.node_id node) (SensorNode.x node)
                  (SensorNode.y node) false (SensorNode.energy node)
                  (SensorNode.packets_sent node) (SensorNode.packets_received node)
                  (SensorNode.neighbors node))
       <$> WirelessSensorNetwork.nodes w;
     WirelessSensorNetwork.sinkhole_nodes := [];
     WirelessSensorNetwork.total_packets_sent := WirelessSensorNetwork.total_packets_sent w;
     WirelessSensorNetwork.total_packets_received :=
       WirelessSensorNetwork.total_packets_received w |}.

(** Two networks that differ at most in the labels [is_malicious] and in the
    list [sinkhole_nodes] (and in what the colony never looks at: positions,
    sizes, totals). *)
Definition same_observations (w1 w2 : WirelessSensorNetwork.t) : Prop :=
  WirelessSensorNetwork.num_nodes w1 = WirelessSensorNetwork.num_nodes w2
  ∧ ∀ node_id,
      option_Forall2 node_agree
        (WirelessSensorNetwork.nodes w1 !! node_id)
        (WirelessSensorNetwork.nodes w2 !! node_id).

(** A matrix of [n] rows of [n] entries. *)
Definition matrix_square (n : nat) (matrix : list (list Q)) : Prop :=
  length matrix = n ∧ Forall (λ row, length row = n) matrix.

(** The node ids of the network are exactly [range(num_nodes)], every node
    has a behaviour snapshot, and the neighbour lists hold node ids. *)
Definition well_formed {N} `{!NetworkLike N} (network : N) : Prop :=
  (∀ node_id, 0 <= node_id < num_nodes network ↔ is_Some (nodes network !! node_id))
  ∧ (∀ node_id, is_Some (nodes network !! node_id) →
                is_Some (get_node_behavior network node_id))
  ∧ neighbors_in_range network.

(** An ant that has only been on nodes of the network. *)
Definition ant_in_range {N} `{!NetworkLike N} (network : N) (ant : Ant.t) : Prop :=
  0 <= Ant.current_node ant < num_nodes network
  ∧ Forall (λ n, 0 <= n < num_nodes network) (Ant.visited_nodes ant)
  ∧ Forall (λ n, 0 <= n < num_nodes network) (Ant.suspicious_nodes ant).


(** The node that the first loop of [_create_network] stores under [i]. *)
Definition placed_node (placement : nat → Q * Q * Q) (i : nat) : SensorNode.t :=
  let '(x, y, energy) := placement i in
  SensorNode.mk (Z.of_nat i) x y false energy 0 0 [].

(** Two nodes that differ at most in their packet counters, which have not
    decreased from the first to the second. *)
Definition counters_grew (node node' : SensorNode.t) : Prop :=
  SensorNode.node_id node' = SensorNode.node_id node
  ∧ SensorNode.x node' = SensorNode.x node
  ∧ SensorNode.y node' = SensorNode.y node
  ∧ SensorNode.is_malicious node' = SensorNode.is_malicious node
  ∧ SensorNode.energy node' = SensorNode.energy node
  ∧ SensorNode.neighbors node' = SensorNode.neighbors node
  ∧ SensorNode.packets_sent node <= SensorNode.packets_sent node'
  ∧ SensorNode.packets_received node <= SensorNode.packets_received node'.

(** A node as [_inject_sinkhole_attacks] leaves a sinkhole. *)
Definition attacked (node node' : SensorNode.t) : Prop :=
  SensorNode.node_id node' = SensorNode.node_id node
  ∧ SensorNode.x node' = SensorNode.x node
  ∧ SensorNode.y node' = SensorNode.y node
  ∧ SensorNode.neighbors node' = SensorNode.neighbors node
  ∧ SensorNode.is_malicious node' = true
  ∧ 80 <= SensorNode.packets_sent node' <= 120
  ∧ 5 <= SensorNode.packets_received node' <= 25
  ∧ (20 <= SensorNode.energy node' <= 40)%Q.

(** [b] is in the neighbour list of node [a]. *)
Definition neighbor_of (nodes : gmap Z SensorNode.t) (a b : Z) : Prop :=
  ∃ node, nodes !! a = Some node ∧ b ∈ SensorNode.neighbors node.

(** The places drawn for nodes [a] and [b] are at most 20 apart. *)
Definition in_reach (placement : nat → Q * Q * Q) (a b : Z) : Prop :=
  WirelessSensorNetwork.in_communication_range
    (placed_node placement (Z.to_nat a)) (placed_node placement (Z.to_nat b)) = true.

(** Every node of the dictionary lies where [placement] put it. *)
Definition places_kept (placement : nat → Q * Q * Q) (nodes : gmap Z SensorNode.t)
  : Prop :=
  ∀ a node, nodes !! a = Some node →
    0 <= a
    ∧ SensorNode.x node = SensorNode.x (placed_node placement (Z.to_nat a))
    ∧ SensorNode.y node = SensorNode.y (placed_node placement (Z.to_nat a)).

(** Every node of the dictionary is stored under its own id, with the
    label and the packet counters that [SensorNode] starts with. *)
Definition pristine (nodes : gmap Z SensorNode.t) : Prop :=
  ∀ a node, nodes !! a = Some node →
    SensorNode.node_id node = a
    ∧ SensorNode.is_malicious node = false
    ∧ SensorNode.packets_sent node = 0
    ∧ SensorNode.packets_received node = 0.

(** The node dictionary after an attack on [sinkhole_nodes]: the same keys,
    the sinkholes [attacked], every other node as it was. *)
Definition attack_outcome (sinkhole_nodes : list Z)
    (nodes nodes' : gmap Z SensorNode.t) : Prop :=
  ∀ a,
    option_Forall2
      (λ node node',
         if decide (a ∈ sinkhole_nodes) then attacked node node' else node' = node)
      (nodes !! a) (nodes' !! a).

(** What the traffic simulation keeps of a network and what it lets grow:
    the same nodes with counters that have not decreased, totals that have
    not decreased, and no more packets received than sent in between. *)
Definition traffic_frame (self self' : WirelessSensorNetwork.t) : Prop :=
  WirelessSensorNetwork.num_nodes self' = WirelessSensorNetwork.num_nodes self
  ∧ WirelessSensorNetwork.network_size self' = WirelessSensorNetwork.network_size self
  ∧ WirelessSensorNetwork.sinkhole_nodes self'
    = WirelessSensorNetwork.sinkhole_nodes self
  ∧ (∀ node_id,
       option_Forall2 counters_grew
         (WirelessSensorNetwork.nodes self !! node_id)
         (WirelessSensorNetwork.nodes self' !! node_id))
  ∧ 0 <= WirelessSensorNetwork.total_packets_received self'
         - WirelessSensorNetwork.total_packets_received self
      <= WirelessSensorNetwork.total_packets_sent self'
         - WirelessSensorNetwork.total_packets_sent self.

(** The sum of a counter over the nodes of a dictionary. *)
Definition counter_sum (counter : SensorNode.t → Z) (nodes : gmap Z SensorNode.t) : Z :=
  map_fold (λ _ node total, counter node + total) 0 nodes.

(** The totals of the network have moved by as much as the counters of its
    nodes taken together. *)
Definition accounted (self self' : WirelessSensorNetwork.t) : Prop :=
  WirelessSensorNetwork.total_packets_sent self'
    - WirelessSensorNetwork.total_packets_sent self
  = counter_sum SensorNode.packets_sent (WirelessSensorNetwork.nodes self')
    - counter_sum SensorNode.packets_sent (WirelessSensorNetwork.nodes self)
  ∧ WirelessSensorNetwork.total_packets_received self'
      - WirelessSensorNetwork.total_packets_received self
    = counter_sum SensorNode.packets_received (WirelessSensorNetwork.nodes self')
      - counter_sum SensorNode.packets_received (WirelessSensorNetwork.nodes self).

(** The sinkholes named by the network are nodes of it. *)
Definition sinkholes_in_range (self : WirelessSensorNetwork.t) : Prop :=
  Forall (λ s, 0 <= s < WirelessSensorNetwork.num_nodes self)
    (WirelessSensorNetwork.sinkhole_nodes self).

(** ** Lemmas on the primitives *)

Lemma Qltb_ge a b : Qltb a b = false ↔ (b <= a)%Q.
Proof.
  unfold Qltb. rewrite negb_false_iff. apply Qle_bool_iff.
Qed.

#[global] Instance Qltb_proper : Proper (Qeq ==> Qeq ==> eq) Qltb.
Proof. intros a a' Ha b b' Hb. unfold Qltb. by rewrite Ha, Hb. Qed.

Lemma randint_range lo hi r v : randint lo hi r = Some v → lo <= v <= hi.
Proof.
  unfold randint. case_match; [|done]. intros [= <-].
  assert (0 <= Z.of_nat r `mod` (hi - lo + 1) < hi - lo + 1) by (apply Z.mod_pos_bound; lia).
  lia.
Qed.

Lemma np_random_choice_elem a p r v :
  np_random_choice a p r = Some v → v ∈ a.
Proof.
  unfold np_random_choice. case_match; [|done]. intros Hl.
  apply list_elem_of_lookup_2 in Hl.
  apply list_elem_of_fmap in Hl as [[v' q] [-> Hin]].
  apply list_elem_of_filter in Hin as [_ Hin].
  by apply elem_of_zip_l in Hin.
Qed.

(** Case analysis on the steps of a computation that succeeded. *)
Ltac bind_cases H :=
  simpl in H;
  repeat match type of H with
    | mbind _ ?m = Some _ =>
        let E := fresh "E" in
        destruct m eqn:E; simpl in H; [|discriminate H]
    end.

(** *** The pheromone matrix *)

Lemma matrix_add_nonneg matrix i j amount matrix' :
  matrix_add matrix i j amount = Some matrix' →
  (0 <= amount)%Q → matrix_nonneg matrix → matrix_nonneg matrix'.
Proof.
  unfold matrix_add, matrix_nonneg. intros Ha Hamount Hm. bind_cases Ha.
  simplify_eq. apply Forall_insert; [done|].
  rewrite Forall_lookup in Hm. specialize (Hm _ _ E0).
  apply Forall_insert; [done|].
  rewrite Forall_lookup in Hm. specialize (Hm _ _ E2). simpl in Hm. lra.
Qed.

Lemma evaporate_nonneg matrix : matrix_nonneg matrix → matrix_nonneg (evaporate matrix).
Proof.
  unfold matrix_nonneg, evaporate. intros Hm.
  apply Forall_fmap. eapply Forall_impl; [exact Hm|]. intros row Hrow. simpl.
  apply Forall_fmap. eapply Forall_impl; [exact Hrow|]. intros v Hv. simpl in *.
  unfold rho. lra.
Qed.

Lemma matrix_get_evaporate matrix i j :
  matrix_get (evaporate matrix) i j = (λ v, v * (1 - rho))%Q <$> matrix_get matrix i j.
Proof.
  unfold matrix_get, evaporate. rewrite length_map.
  destruct (np_index (length matrix) i) as [r|]; [|done]. simpl.
  rewrite list_lookup_fmap. destruct (matrix !! r) as [row|]; [|done]. simpl.
  rewrite length_map. destruct (np_index (length row) j) as [c|]; [|done]. simpl.
  by rewrite list_lookup_fmap.
Qed.

Lemma matrix_get_iter_evaporate k matrix i j v' :
  matrix_get (Nat.iter k evaporate matrix) i j = Some v' →
  ∃ v, matrix_get matrix i j = Some v ∧ (v' == v * (1 - rho) ^ Z.of_nat k)%Q.
Proof.
  revert v'. induction k as [|k IH]; intros v' Hget.
  - exists v'. split; [done|]. simpl. lra.
  - rewrite Nat.iter_succ, matrix_get_evaporate in Hget.
    destruct (matrix_get (Nat.iter k evaporate matrix) i j) as [w|] eqn:Hw; [|done].
    simpl in Hget. simplify_eq. destruct (IH w eq_refl) as (v & Hv & Heq).
    exists v. split; [done|]. rewrite Heq, Nat2Z.inj_succ, <- Z.add_1_r.
    rewrite Qpower_plus; [|unfold rho; intros H; discriminate H].
    simpl. unfold rho. ring.
Qed.

Lemma deposit_trail_nonneg matrix visited suspicious amount matrix' :
  deposit_trail matrix visited suspicious amount = Some matrix' →
  0 <= amount → matrix_nonneg matrix → matrix_nonneg matrix'.
Proof.
  intros Hd Hamount. revert matrix Hd.
  induction visited as [|current [|next_node rest] IH]; intros matrix Hd Hm;
    [by simplify_eq/=..|].
  cbn [deposit_trail] in Hd.
  destruct (bool_decide (next_node ∈ suspicious)).
  - destruct (matrix_add _ _ _ _) as [m1|] eqn:Hadd; simpl in Hd; [|done].
    apply (IH m1 Hd). eapply matrix_add_nonneg; [exact Hadd| |done].
    change 0%Q with (inject_Z 0). by rewrite <- Zle_Qle.
  - simpl in Hd. by apply (IH matrix Hd).
Qed.

Lemma deposit_row_nonneg matrix node neighbors amount matrix' :
  deposit_row matrix node neighbors amount = Some matrix' →
  0 <= amount → matrix_nonneg matrix → matrix_nonneg matrix'.
Proof.
  intros Hd Hamount. revert matrix Hd.
  induction neighbors as [|neighbor rest IH]; intros matrix Hd Hm; [by simplify_eq/=|].
  simpl in Hd.
  destruct (matrix_add _ _ _ _) as [m1|] eqn:Hadd; simpl in Hd; [|done].
  apply (IH m1 Hd). eapply matrix_add_nonneg; [exact Hadd| |done].
  assert (0 <= inject_Z amount)%Q
    by (change 0%Q with (inject_Z 0); by rewrite <- Zle_Qle).
  lra.
Qed.

(** *** The vote tally *)

Lemma count_in_app n l k : count_in n (l ++ k) = (count_in n l + count_in n k)%nat.
Proof. unfold count_in. by rewrite filter_app, length_app. Qed.

Lemma count_in_le_length n l : (count_in n l <= length l)%nat.
Proof. apply length_filter. Qed.

Lemma count_in_pos n l : (0 < count_in n l)%nat → n ∈ l.
Proof.
  unfold count_in. intros Hpos.
  destruct (filter (λ m, m = n) l) as [|m rest] eqn:Hf; [simpl in Hpos; lia|].
  assert (m ∈ filter (λ m, m = n) l) as Hin by (rewrite Hf; apply list_elem_of_here).
  apply list_elem_of_filter in Hin as [-> Hin]. done.
Qed.

Lemma vote_get_add vote_count node_id n :
  vote_get (vote_add vote_count node_id) n
  = (vote_get vote_count n + (if bool_decide (node_id = n) then 1 else 0))%nat.
Proof.
  induction vote_count as [|[key votes] rest IH]; simpl.
  - repeat case_bool_decide; simplify_eq; lia.
  - repeat case_bool_decide; simplify_eq; simpl;
      repeat case_bool_decide; simplify_eq; try lia.
Qed.

Lemma vote_add_keys vote_count node_id :
  (vote_add vote_count node_id).*1
  = if bool_decide (node_id ∈ vote_count.*1) then vote_count.*1
    else vote_count.*1 ++ [node_id].
Proof.
  induction vote_count as [|[key votes] rest IH]; [done|].
  cbn [vote_add]. destruct (decide (key = node_id)) as [->|Hk].
  - rewrite bool_decide_true by done. rewrite fmap_cons. simpl.
    rewrite bool_decide_true; [done|apply list_elem_of_here].
  - rewrite (bool_decide_false (key = node_id)) by done.
    rewrite !fmap_cons, IH. simpl.
    destruct (decide (node_id ∈ rest.*1)) as [Hin|Hin].
    + rewrite !bool_decide_true; [done|by apply list_elem_of_further|done].
    + rewrite !bool_decide_false; [done| |done].
      intros [?|?]%elem_of_cons; by simplify_eq.
Qed.

Lemma vote_add_NoDup vote_count node_id :
  NoDup vote_count.*1 → NoDup (vote_add vote_count node_id).*1.
Proof.
  intros Hnd. rewrite vote_add_keys. case_bool_decide as Hin; [done|].
  apply NoDup_app. split_and!; [done| |apply NoDup_singleton].
  intros k Hk Hk'. apply list_elem_of_singleton in Hk'. by subst.
Qed.

Lemma vote_get_elem vote_count n votes :
  NoDup vote_count.*1 → (n, votes) ∈ vote_count → vote_get vote_count n = votes.
Proof.
  induction vote_count as [|[key v] rest IH]; intros Hnd Hin.
  - by apply elem_of_nil in Hin.
  - simpl in *. apply NoDup_cons in Hnd as [Hnot Hnd].
    apply elem_of_cons in Hin as [Heq|Hin].
    + simplify_eq. by rewrite bool_decide_true.
    + rewrite bool_decide_false; [by apply IH|]. intros ->.
      apply Hnot. apply list_elem_of_fmap. by exists (n, votes).
Qed.

Lemma fold_vote_add_spec l vote_count :
  NoDup vote_count.*1 →
  NoDup (fold_left vote_add l vote_count).*1
  ∧ ∀ n, vote_get (fold_left vote_add l vote_count) n
         = (vote_get vote_count n + count_in n l)%nat.
Proof.
  revert vote_count. induction l as [|m l IH]; intros vote_count Hnd; simpl.
  - split; [done|]. intros n. unfold count_in. simpl. lia.
  - destruct (IH (vote_add vote_count m) (vote_add_NoDup _ _ Hnd)) as [Hnd' Hget].
    split; [done|]. intros n. rewrite Hget, vote_get_add.
    change (m :: l) with ([m] ++ l). rewrite count_in_app.
    unfold count_in at 2. simpl. rewrite filter_cons, filter_nil.
    case_bool_decide; case_decide; simplify_eq; simpl; lia.
Qed.

(** An entry of the tally holds the number of times the node occurs in the
    suspicious lists. *)
Lemma count_votes_elem l n votes :
  (n, votes) ∈ count_votes l → votes = count_in n l.
Proof.
  intros Hin. unfold count_votes in *.
  destruct (fold_vote_add_spec l [] (NoDup_nil_2)) as [Hnd Hget].
  rewrite <- (vote_get_elem _ _ _ Hnd Hin), Hget. simpl. lia.
Qed.

Section ACO_lemmas.
Context {N : Type} `{!NetworkLike N}.
Implicit Types (self : ACOAlgorithm.t N) (ant : Ant.t) (network : N).

(** *** One movement *)

Lemma available_nodes_neighbors node visited v :
  v ∈ available_nodes node visited → v ∈ SensorNode.neighbors node.
Proof. unfold available_nodes. rewrite list_elem_of_filter. tauto. Qed.

(** What a successful [ant_movement] did. *)
Lemma ant_movement_inv self r ant ant' :
  ant_movement self r ant = Some ant' →
  ∃ node_behavior node,
    get_node_behavior (ACOAlgorithm.network self) (Ant.current_node ant) = Some node_behavior
    ∧ nodes (ACOAlgorithm.network self) !! Ant.current_node ant = Some node
    ∧ Ant.visited_nodes ant' = Ant.visited_nodes ant ++ [Ant.current_node ant]
    ∧ Ant.suspicious_nodes ant' =
        (if is_suspicious node_behavior node
         then Ant.suspicious_nodes ant ++ [Ant.current_node ant]
         else Ant.suspicious_nodes ant)
    ∧ (Ant.current_node ant' = Ant.current_node ant
       ∨ Ant.current_node ant' ∈ available_nodes node (Ant.visited_nodes ant')).
Proof.
  unfold ant_movement. intros Hm.
  destruct (get_node_behavior _ _) as [b|] eqn:Hb; [|done].
  destruct (nodes _ !! _) as [node|] eqn:Hn; [|done].
  simpl in Hm.
  assert (∃ c, ant' = Ant.mk c (Ant.visited_nodes ant ++ [Ant.current_node ant])
                        (if is_suspicious b node
                         then Ant.suspicious_nodes ant ++ [Ant.current_node ant]
                         else Ant.suspicious_nodes ant)
               ∧ (c = Ant.current_node ant
                  ∨ c ∈ available_nodes node
                          (Ant.visited_nodes ant ++ [Ant.current_node ant])))
    as (c & -> & Hc).
  { destruct (available_nodes _ _) as [|c0 cs] eqn:Ha.
    - simplify_eq. eexists; split; [done|by left].
    - destruct (transition_weights _ _ _ _); [|done]. simpl in Hm.
      case_match.
      + destruct (np_random_choice _ _ _) as [v|] eqn:Hv; simpl in Hm; [|done].
        simplify_eq. eexists; split; [done|]. right.
        by eapply np_random_choice_elem.
      + simplify_eq. eexists; split; [done|by left]. }
  by exists b, node.
Qed.

Lemma move_ants_Forall2 self draws k ants ants' :
  move_ants self draws k ants = Some ants' →
  Forall2 (λ ant ant', ∃ r, ant_movement self r ant = Some ant') ants ants'.
Proof.
  revert k ants'. induction ants as [|ant rest IH]; intros k ants' Hm; simpl in Hm.
  - simplify_eq. constructor.
  - bind_cases Hm. simplify_eq. constructor; eauto.
Qed.

Lemma place_ants_spec network starts k count ants :
  place_ants network starts k count = Some ants →
  length ants = count
  ∧ Forall (λ ant, fresh_ant ant
                   ∧ 0 <= Ant.current_node ant <= num_nodes network - 1) ants.
Proof.
  revert k ants. induction count as [|count IH]; intros k ants Hp; simpl in Hp.
  - by simplify_eq.
  - bind_cases Hp. simplify_eq.
    destruct (IH _ _ E0) as [Hlen Hall]. split; [simpl; by f_equal|].
    constructor; [|done]. split; [done|]. simpl. by eapply randint_range.
Qed.

Lemma update_pheromones_frame self self' :
  update_pheromones self = Some self' →
  ACOAlgorithm.network self' = ACOAlgorithm.network self
  ∧ ACOAlgorithm.num_ants self' = ACOAlgorithm.num_ants self
  ∧ ACOAlgorithm.ants self' = ACOAlgorithm.ants self.
Proof.
  unfold update_pheromones. intros Hu. bind_cases Hu. by simplify_eq.
Qed.

Lemma iteration_step_inv self draws self' :
  iteration_step self draws = Some self' →
  ACOAlgorithm.network self' = ACOAlgorithm.network self
  ∧ ACOAlgorithm.num_ants self' = ACOAlgorithm.num_ants self
  ∧ Forall2 (λ ant ant', ∃ r, ant_movement self r ant = Some ant')
      (ACOAlgorithm.ants self) (ACOAlgorithm.ants self').
Proof.
  unfold iteration_step. intros Hs.
  destruct (move_ants _ _ _ _) as [ants1|] eqn:Hm; simpl in Hs; [|done].
  apply update_pheromones_frame in Hs as (-> & -> & ->). simpl.
  split_and!; [done..|].
  apply move_ants_Forall2 in Hm.
  eapply Forall2_impl; [exact Hm|]. intros a a' [r Hr]. exists r.
  by destruct self.
Qed.

(** *** Invariants of the ants over a run

    A property of single ants that holds of a fresh ant placed in range and
    that every movement keeps holds of every ant after the loop. *)
Lemma run_iterations_ants_ind (P : Ant.t → Prop) network :
  (∀ self r ant ant',
      ACOAlgorithm.network self = network →
      ant_movement self r ant = Some ant' → P ant → P ant') →
  ∀ remaining self choices iteration self',
    ACOAlgorithm.network self = network →
    Forall P (ACOAlgorithm.ants self) →
    run_iterations self choices iteration remaining = Some self' →
    ACOAlgorithm.network self' = network ∧ Forall P (ACOAlgorithm.ants self').
Proof.
  intros Hstep. induction remaining as [|n IH]; intros self choices it self' Hnet HP Hrun;
    simpl in Hrun.
  - by simplify_eq.
  - destruct (iteration_step _ _) as [self1|] eqn:H1; simpl in Hrun; [|done].
    apply iteration_step_inv in H1 as (Hn1 & _ & Hall).
    eapply IH; [| |exact Hrun]; [congruence|].
    clear -Hstep Hnet HP Hall.
    induction Hall as [|a a' l l' [r Hr] _ IHl]; [constructor|].
    inversion HP; subst. constructor; eauto.
Qed.

Lemma run_colony_ants_ind (P : Ant.t → Prop) self starts choices iterations self' :
  (∀ ant, fresh_ant ant →
          0 <= Ant.current_node ant <= num_nodes (ACOAlgorithm.network self) - 1 →
          P ant) →
  (∀ s r ant ant',
      ACOAlgorithm.network s = ACOAlgorithm.network self →
      ant_movement s r ant = Some ant' → P ant → P ant') →
  run_colony self starts choices iterations = Some self' →
  ACOAlgorithm.network self' = ACOAlgorithm.network self
  ∧ Forall P (ACOAlgorithm.ants self').
Proof.
  intros Hinit Hstep. unfold run_colony, create_ant_colony. intros Hrun.
  destruct (place_ants _ _ _ _) as [ants0|] eqn:Hp; simpl in Hrun; [|done].
  eapply run_iterations_ants_ind in Hrun; [exact Hrun|exact Hstep|done|].
  simpl. apply place_ants_spec in Hp as [_ Hall].
  eapply Forall_impl; [exact Hall|]. intros a [? ?]. by apply Hinit.
Qed.

(** *** Trails *)

Lemma trail_adjacent_prefix network (l k : list Z) :
  trail_adjacent network (l ++ k) → trail_adjacent network l.
Proof.
  intros Hadj i u v Hu Hv. apply (Hadj i); by apply lookup_app_l_Some.
Qed.

Lemma trail_adjacent_snoc network (l : list Z) u v :
  trail_adjacent network (l ++ [u]) → linked network u v →
  trail_adjacent network ((l ++ [u]) ++ [v]).
Proof.
  intros Hadj Hlink i a b Ha Hb.
  destruct (decide (S i < length (l ++ [u]))%nat) as [Hlt|Hge].
  - rewrite lookup_app_l in Ha by lia. rewrite lookup_app_l in Hb by lia.
    by apply (Hadj i).
  - assert (S i = length (l ++ [u])) as Hi.
    { apply lookup_lt_Some in Hb. rewrite length_app in Hb. simpl in Hb. lia. }
    rewrite lookup_app_r in Hb by lia.
    rewrite Hi, Nat.sub_diag in Hb. simpl in Hb. simplify_eq.
    rewrite lookup_app_l in Ha by lia.
    rewrite length_app in Hi. simpl in Hi.
    rewrite lookup_app_r in Ha by lia.
    replace (i - length l)%nat with 0%nat in Ha by lia. simpl in Ha.
    by simplify_eq.
Qed.

Lemma ant_movement_trail self r ant ant' :
  ant_movement self r ant = Some ant' →
  trail_adjacent (ACOAlgorithm.network self)
    (Ant.visited_nodes ant ++ [Ant.current_node ant]) →
  trail_adjacent (ACOAlgorithm.network self)
    (Ant.visited_nodes ant' ++ [Ant.current_node ant']).
Proof.
  intros Hm Hadj.
  apply ant_movement_inv in Hm as (b & node & _ & Hnode & Hvis & _ & Hcur).
  rewrite Hvis. apply trail_adjacent_snoc; [done|].
  destruct Hcur as [->|Hin]; [by left|]. right. exists node. split; [done|].
  by eapply available_nodes_neighbors.
Qed.

(** *** Suspicious lists *)

Lemma ant_movement_suspicious self r ant ant' n :
  ant_movement self r ant = Some ant' →
  n ∈ Ant.suspicious_nodes ant' →
  n ∈ Ant.suspicious_nodes ant
  ∨ (n = Ant.current_node ant ∧ flagged_by_heuristic (ACOAlgorithm.network self) n).
Proof.
  intros Hm Hin.
  apply ant_movement_inv in Hm as (b & node & Hb & Hnode & _ & Hsus & _).
  rewrite Hsus in Hin. destruct (is_suspicious b node) eqn:Hflag; [|by left].
  apply elem_of_app in Hin as [Hin|Hin]; [by left|].
  apply list_elem_of_singleton in Hin as ->. right. split; [done|].
  by exists b, node.
Qed.

(** Every entry of a suspicious list was put there by the heuristic. *)
Lemma run_colony_suspicious_sound self starts choices iterations self' ant n :
  run_colony self starts choices iterations = Some self' →
  ant ∈ ACOAlgorithm.ants self' →
  n ∈ Ant.suspicious_nodes ant →
  flagged_by_heuristic (ACOAlgorithm.network self) n.
Proof.
  intros Hrun Hant Hn.
  apply (run_colony_ants_ind
           (λ a, ∀ m, m ∈ Ant.suspicious_nodes a →
                      flagged_by_heuristic (ACOAlgorithm.network self) m)) in Hrun
    as [_ Hall].
  - rewrite Forall_forall in Hall. by apply (Hall ant).
  - intros a [_ Hs] _ m Hm. rewrite Hs in Hm. by apply elem_of_nil in Hm.
  - intros s r a a' Hs Hm IH m Hin.
    destruct (ant_movement_suspicious _ _ _ _ _ Hm Hin) as [?|[_ ?]]; [by apply IH|].
    by rewrite <- Hs.
Qed.

(** *** Detection *)

Lemma detect_loop_elem self items detected result n :
  detect_loop self items detected = Some result →
  n ∈ result →
  n ∈ detected ∨ ∃ votes, (n, votes) ∈ items ∧ consensus self n votes = Some true.
Proof.
  revert detected. induction items as [|[node_id votes] rest IH]; intros detected Hd Hin;
    simpl in Hd.
  - simplify_eq. by left.
  - destruct (consensus self node_id votes) as [ok|] eqn:Hc; simpl in Hd; [|done].
    destruct (IH _ Hd Hin) as [Hacc|(v & Hv & Hcv)].
    + destruct ok.
      * apply elem_of_app in Hacc as [?|Hn]; [by left|].
        apply list_elem_of_singleton in Hn as ->. right. exists votes.
        split; [apply list_elem_of_here|done].
      * by left.
    + right. exists v. split; [by apply list_elem_of_further|done].
Qed.

Lemma consensus_true self node_id votes :
  consensus self node_id votes = Some true →
  (vote_threshold self <= votes)%nat
  ∧ is_Some (get_node_behavior (ACOAlgorithm.network self) node_id)
  ∧ is_Some (np_index (length (ACOAlgorithm.pheromone_matrix self)) node_id).
Proof.
  unfold consensus. intros Hc. bind_cases Hc. simplify_eq.
  apply andb_prop in Hc as [Hc _]. apply andb_prop in Hc as [Hc _].
  apply Nat.leb_le in Hc. eauto.
Qed.

(** What it takes for a node to be detected. *)
Lemma detect_attacks_inv self detected self' n :
  detect_attacks self = Some (detected, self') →
  n ∈ detected →
  ACOAlgorithm.ants self' = ACOAlgorithm.ants self
  ∧ (vote_threshold self <= count_in n (all_suspicious (ACOAlgorithm.ants self)))%nat
  ∧ is_Some (get_node_behavior (ACOAlgorithm.network self) n)
  ∧ is_Some (np_index (length (ACOAlgorithm.pheromone_matrix self)) n).
Proof.
  unfold detect_attacks. intros Hd Hin. bind_cases Hd. simplify_eq.
  split; [done|].
  destruct (detect_loop_elem _ _ _ _ _ E Hin) as [Hnil|(votes & Hv & Hc)];
    [by apply elem_of_nil in Hnil|].
  apply consensus_true in Hc as (Hvotes & Hb & Hi).
  apply count_votes_elem in Hv as ->. done.
Qed.

(** *** Sizes over a run *)

Lemma run_iterations_sizes remaining self choices iteration self' bound :
  Forall (λ ant, (length (Ant.suspicious_nodes ant) <= bound)%nat)
    (ACOAlgorithm.ants self) →
  run_iterations self choices iteration remaining = Some self' →
  length (ACOAlgorithm.ants self') = length (ACOAlgorithm.ants self)
  ∧ Forall (λ ant, (length (Ant.suspicious_nodes ant) <= bound + remaining)%nat)
      (ACOAlgorithm.ants self').
Proof.
  revert self iteration bound.
  induction remaining as [|n IH]; intros self it bound Hb Hrun; simpl in Hrun.
  - simplify_eq. split; [done|].
    eapply Forall_impl; [exact Hb|]. intros a Ha. simpl in Ha. lia.
  - destruct (iteration_step _ _) as [self1|] eqn:H1; simpl in Hrun; [|done].
    apply iteration_step_inv in H1 as (_ & _ & Hall).
    destruct (IH self1 (S it) (S bound)) as [Hlen Hres]; [|exact Hrun|].
    + clear -Hb Hall.
      induction Hall as [|a a' l l' [r Hr] _ IHl]; [constructor|].
      inversion Hb; subst. constructor; [|by apply IHl].
      apply ant_movement_inv in Hr as (b & node & _ & _ & _ & Hs & _).
      rewrite Hs. destruct (is_suspicious b node); [|lia].
      rewrite length_app. simpl. lia.
    + split; [rewrite Hlen; symmetry; by eapply Forall2_length|].
      eapply Forall_impl; [exact Hres|]. intros a Ha. simpl in Ha. lia.
Qed.

Lemma run_colony_sizes self starts choices iterations self' :
  run_colony self starts choices iterations = Some self' →
  length (ACOAlgorithm.ants self') = ACOAlgorithm.num_ants self
  ∧ Forall (λ ant, (length (Ant.suspicious_nodes ant) <= iterations)%nat)
      (ACOAlgorithm.ants self').
Proof.
  unfold run_colony, create_ant_colony. intros Hrun.
  destruct (place_ants _ _ _ _) as [ants0|] eqn:Hp; simpl in Hrun; [|done].
  apply place_ants_spec in Hp as [Hlen Hfresh].
  apply (run_iterations_sizes _ _ _ _ _ 0%nat) in Hrun as [Hl Hb]; simpl in *.
  - split; [congruence|done].
  - eapply Forall_impl; [exact Hfresh|]. intros a [[_ ->] _]. simpl. lia.
Qed.

(** *** Pheromone updates *)

Lemma deposit_neighbors_nonneg network matrix suspicious amount matrix' :
  deposit_neighbors network matrix suspicious amount = Some matrix' →
  0 <= amount → matrix_nonneg matrix → matrix_nonneg matrix'.
Proof.
  intros Hd Hamount. revert matrix Hd.
  induction suspicious as [|node rest IH]; intros matrix Hd Hm; [by simplify_eq/=|].
  simpl in Hd. destruct (nodes network !! node) as [obj|]; simpl in Hd; [|done].
  destruct (deposit_row _ _ _ _) as [m1|] eqn:Hrow; simpl in Hd; [|done].
  apply (IH m1 Hd). by eapply deposit_row_nonneg.
Qed.

Lemma deposit_ants_nonneg network matrix ants matrix' :
  deposit_ants network matrix ants = Some matrix' →
  matrix_nonneg matrix → matrix_nonneg matrix'.
Proof.
  revert matrix. induction ants as [|ant rest IH]; intros matrix Hd Hm; [by simplify_eq/=|].
  simpl in Hd. destruct (deposit_ant network matrix ant) as [m1|] eqn:Hant;
    simpl in Hd; [|done].
  apply (IH m1 Hd). unfold deposit_ant in Hant.
  destruct (Ant.suspicious_nodes ant) as [|s l] eqn:Hs; [by simplify_eq|].
  destruct (deposit_trail _ _ _ _) as [m2|] eqn:Htrail; [|done].
  change (deposit_neighbors network m2 (s :: l)
            (Q_deposit * Z.of_nat (length (s :: l))) = Some m1) in Hant.
  assert (0 <= Q_deposit * Z.of_nat (length (s :: l))) by (unfold Q_deposit; lia).
  eapply deposit_neighbors_nonneg; [exact Hant|done|].
  by eapply deposit_trail_nonneg.
Qed.

Lemma update_pheromones_nonneg self self' :
  update_pheromones self = Some self' →
  matrix_nonneg (ACOAlgorithm.pheromone_matrix self) →
  matrix_nonneg (ACOAlgorithm.pheromone_matrix self').
Proof.
  unfold update_pheromones. intros Hu Hm. bind_cases Hu. simplify_eq. simpl.
  eapply deposit_ants_nonneg; [exact E|]. by apply evaporate_nonneg.
Qed.

(** Without a suspicious node there is no deposit. *)
Lemma deposit_ants_none network matrix ants :
  Forall (λ ant, Ant.suspicious_nodes ant = []) ants →
  deposit_ants network matrix ants = Some matrix.
Proof.
  induction 1 as [|ant rest Hant _ IH]; [done|].
  simpl. unfold deposit_ant. rewrite Hant. simpl. exact IH.
Qed.

Lemma iteration_step_nonneg self draws self' :
  iteration_step self draws = Some self' →
  matrix_nonneg (ACOAlgorithm.pheromone_matrix self) →
  matrix_nonneg (ACOAlgorithm.pheromone_matrix self').
Proof.
  unfold iteration_step. intros Hs Hm.
  destruct (move_ants _ _ _ _) as [ants1|]; simpl in Hs; [|done].
  by apply update_pheromones_nonneg in Hs.
Qed.

Lemma run_iterations_nonneg remaining self choices iteration self' :
  run_iterations self choices iteration remaining = Some self' →
  matrix_nonneg (ACOAlgorithm.pheromone_matrix self) →
  matrix_nonneg (ACOAlgorithm.pheromone_matrix self').
Proof.
  revert self iteration. induction remaining as [|n IH]; intros self it Hrun Hm;
    simpl in Hrun; [by simplify_eq|].
  destruct (iteration_step _ _) as [self1|] eqn:H1; simpl in Hrun; [|done].
  eapply IH; [exact Hrun|]. by eapply iteration_step_nonneg.
Qed.

(** If no ant holds a suspicious node at the end, none ever did, and the
    matrix was only evaporated. *)
Lemma run_iterations_evaporation remaining self choices iteration self' :
  run_iterations self choices iteration remaining = Some self' →
  Forall (λ ant, Ant.suspicious_nodes ant = []) (ACOAlgorithm.ants self') →
  Forall (λ ant, Ant.suspicious_nodes ant = []) (ACOAlgorithm.ants self)
  ∧ ACOAlgorithm.pheromone_matrix self'
    = Nat.iter remaining evaporate (ACOAlgorithm.pheromone_matrix self).
Proof.
  revert self iteration. induction remaining as [|n IH]; intros self it Hrun Hend;
    simpl in Hrun; [by simplify_eq|].
  destruct (iteration_step _ _) as [self1|] eqn:H1; simpl in Hrun; [|done].
  destruct (IH _ _ Hrun Hend) as [Hmid Hmat].
  pose proof (iteration_step_inv _ _ _ H1) as (_ & _ & Hall).
  unfold iteration_step in H1.
  destruct (move_ants _ _ _ _) as [ants1|] eqn:Hmove; simpl in H1; [|done].
  unfold update_pheromones in H1. simpl in H1.
  assert (ACOAlgorithm.ants self1 = ants1) as Hants1.
  { destruct (deposit_ants _ _ _); simpl in H1; by simplify_eq. }
  rewrite Hants1 in Hmid, Hall. rewrite deposit_ants_none in H1 by done.
  simpl in H1. simplify_eq. split.
  - clear -Hmid Hall. induction Hall as [|a a' l l' [r Hr] _ IHl]; [constructor|].
    inversion Hmid as [|? ? Hnil Hrest]; subst. constructor; [|by apply IHl].
    apply ant_movement_inv in Hr as (b & node & _ & _ & _ & Hs & _).
    rewrite Hnil in Hs. destruct (is_suspicious b node); [|done].
    by destruct (Ant.suspicious_nodes a).
  - rewrite Nat.iter_succ_r, Hmat. by rewrite <- H1.
Qed.

Lemma detect_attacks_frame self detected self' :
  detect_attacks self = Some (detected, self') →
  ACOAlgorithm.network self' = ACOAlgorithm.network self
  ∧ ACOAlgorithm.ants self' = ACOAlgorithm.ants self
  ∧ ACOAlgorithm.pheromone_matrix self' = ACOAlgorithm.pheromone_matrix self
  ∧ ACOAlgorithm.detected_attacks self' = detected.
Proof.
  unfold detect_attacks. intros Hd. bind_cases Hd. by simplify_eq.
Qed.

(** *** The list [detected_attacks] is write-only *)

Lemma move_ants_with_detected d self draws k ants :
  move_ants (with_detected d self) draws k ants = move_ants self draws k ants.
Proof.
  revert k. induction ants as [|ant rest IH]; intros k; [done|].
  simpl. by rewrite IH.
Qed.

Lemma iteration_step_with_detected d self draws :
  iteration_step (with_detected d self) draws
  = with_detected d <$> iteration_step self draws.
Proof.
  unfold iteration_step. rewrite move_ants_with_detected.
  destruct (move_ants _ _ _ _) as [ants1|]; [|done]. simpl.
  unfold update_pheromones. simpl.
  by destruct (deposit_ants _ _ _).
Qed.

Lemma run_iterations_with_detected d remaining self choices iteration :
  run_iterations (with_detected d self) choices iteration remaining
  = with_detected d <$> run_iterations self choices iteration remaining.
Proof.
  revert self iteration. induction remaining as [|n IH]; intros self it; [done|].
  simpl. rewrite iteration_step_with_detected.
  destruct (iteration_step self (choices it)) as [self1|]; [|done]. simpl.
  apply IH.
Qed.

Lemma detect_loop_with_detected d self items detected :
  detect_loop (with_detected d self) items detected = detect_loop self items detected.
Proof.
  revert detected. induction items as [|[node_id votes] rest IH]; intros detected; [done|].
  simpl. change (consensus (with_detected d self) node_id votes)
    with (consensus self node_id votes).
  destruct (consensus self node_id votes); [|done]. simpl. apply IH.
Qed.

Lemma detect_attacks_with_detected d self :
  detect_attacks (with_detected d self) = detect_attacks self.
Proof.
  unfold detect_attacks. simpl. rewrite detect_loop_with_detected.
  by destruct (detect_loop _ _ _).
Qed.

(** A run reads the network, the colony size and the matrix, nothing else. *)
Lemma run_aco_reads self1 self2 starts choices iterations :
  ACOAlgorithm.network self1 = ACOAlgorithm.network self2 →
  ACOAlgorithm.num_ants self1 = ACOAlgorithm.num_ants self2 →
  ACOAlgorithm.pheromone_matrix self1 = ACOAlgorithm.pheromone_matrix self2 →
  run_aco self1 starts choices iterations = run_aco self2 starts choices iterations.
Proof.
  intros Hnet Hnum Hmat. unfold run_aco, run_colony, create_ant_colony.
  rewrite Hnet, Hnum, Hmat.
  destruct (place_ants _ _ _ _) as [ants0|]; [|done]. simpl.
  match goal with
  | |- run_iterations ?c1 _ _ _ ≫= _ = run_iterations ?c2 _ _ _ ≫= _ =>
      change c1 with (with_detected (ACOAlgorithm.detected_attacks self1) c2)
  end.
  rewrite run_iterations_with_detected.
  destruct (run_iterations _ _ _ _) as [s|]; [|done]. simpl.
  apply detect_attacks_with_detected.
Qed.

(** *** The colony reads no label *)

Lemma is_suspicious_agree b1 b2 node1 node2 :
  behavior_agree b1 b2 → node_agree node1 node2 →
  is_suspicious b1 node1 = is_suspicious b2 node2.
Proof.
  intros (Hr & Hs & _) (Hn & He & _).
  unfold is_suspicious, suspiciousness_score, hasattr_energy.
  by rewrite Hr, Hs, Hn, He.
Qed.

Lemma transition_weight_agree n1 n2 matrix current next_node :
  networks_agree n1 n2 →
  transition_weight n1 matrix current next_node
  = transition_weight n2 matrix current next_node.
Proof.
  intros (_ & _ & Hb). unfold transition_weight.
  destruct (matrix_get matrix current next_node); [|done]. simpl.
  destruct (Hb next_node) as [b1 b2 (Hr & _)|]; [|done]. simpl. by rewrite Hr.
Qed.

Lemma transition_weights_agree n1 n2 matrix current candidates :
  networks_agree n1 n2 →
  transition_weights n1 matrix current candidates
  = transition_weights n2 matrix current candidates.
Proof.
  intros Hagree. induction candidates as [|c rest IH]; [done|].
  simpl. by rewrite IH, (transition_weight_agree n1 n2).
Qed.

Lemma ant_movement_agree self n2 r ant :
  networks_agree (ACOAlgorithm.network self) n2 →
  ant_movement (with_network n2 self) r ant = ant_movement self r ant.
Proof.
  intros Hagree. pose proof Hagree as (_ & Hn & Hb). unfold ant_movement. simpl.
  destruct (Hb (Ant.current_node ant)) as [b1 b2 Hbb|]; [|done]. simpl.
  destruct (Hn (Ant.current_node ant)) as [node1 node2 Hnn|]; [|done]. simpl.
  rewrite (is_suspicious_agree _ _ _ _ Hbb Hnn).
  unfold available_nodes. destruct Hnn as (Hnb & _). rewrite Hnb.
  by rewrite (transition_weights_agree _ _ _ _ _ Hagree).
Qed.

Lemma move_ants_agree self n2 draws k ants :
  networks_agree (ACOAlgorithm.network self) n2 →
  move_ants (with_network n2 self) draws k ants = move_ants self draws k ants.
Proof.
  intros Hagree. revert k. induction ants as [|ant rest IH]; intros k; [done|].
  simpl. by rewrite IH, ant_movement_agree.
Qed.

Lemma deposit_neighbors_agree n1 n2 matrix suspicious amount :
  networks_agree n1 n2 →
  deposit_neighbors n1 matrix suspicious amount
  = deposit_neighbors n2 matrix suspicious amount.
Proof.
  intros (_ & Hn & _). revert matrix.
  induction suspicious as [|node rest IH]; intros matrix; [done|].
  simpl. destruct (Hn node) as [node1 node2 (Hnb & _)|]; [|done]. simpl.
  rewrite Hnb. destruct (deposit_row _ _ _ _); [|done]. simpl. apply IH.
Qed.

Lemma deposit_ants_agree n1 n2 matrix ants :
  networks_agree n1 n2 →
  deposit_ants n1 matrix ants = deposit_ants n2 matrix ants.
Proof.
  intros Hagree. revert matrix. induction ants as [|ant rest IH]; intros matrix; [done|].
  simpl.
  assert (deposit_ant n1 matrix ant = deposit_ant n2 matrix ant) as ->.
  { unfold deposit_ant. destruct (Ant.suspicious_nodes ant) as [|s l]; [done|].
    destruct (deposit_trail _ _ _ _) as [m|]; [|done].
    exact (deposit_neighbors_agree n1 n2 m (s :: l) _ Hagree). }
  destruct (deposit_ant n2 matrix ant); [|done]. simpl. apply IH.
Qed.

Lemma iteration_step_agree self n2 draws :
  networks_agree (ACOAlgorithm.network self) n2 →
  iteration_step (with_network n2 self) draws
  = with_network n2 <$> iteration_step self draws.
Proof.
  intros Hagree. unfold iteration_step. rewrite move_ants_agree by done.
  destruct (move_ants _ _ _ _) as [ants1|]; [|done]. simpl.
  unfold update_pheromones. simpl.
  rewrite <- (deposit_ants_agree _ _ _ _ Hagree).
  by destruct (deposit_ants _ _ _).
Qed.

Lemma run_iterations_agree remaining self n2 choices iteration :
  networks_agree (ACOAlgorithm.network self) n2 →
  run_iterations (with_network n2 self) choices iteration remaining
  = with_network n2 <$> run_iterations self choices iteration remaining.
Proof.
  revert self iteration. induction remaining as [|n IH]; intros self it Hagree; [done|].
  simpl. rewrite iteration_step_agree by done.
  destruct (iteration_step self (choices it)) as [self1|] eqn:H1; [|done]. simpl.
  apply IH. apply iteration_step_inv in H1 as (-> & _). done.
Qed.

Lemma place_ants_agree n1 n2 starts k count :
  networks_agree n1 n2 →
  place_ants n1 starts k count = place_ants n2 starts k count.
Proof.
  intros (Hnum & _). revert k. induction count as [|c IH]; intros k; [done|].
  simpl. by rewrite Hnum, IH.
Qed.

Lemma run_colony_agree self n2 starts choices iterations :
  networks_agree (ACOAlgorithm.network self) n2 →
  run_colony (with_network n2 self) starts choices iterations
  = with_network n2 <$> run_colony self starts choices iterations.
Proof.
  intros Hagree. unfold run_colony, create_ant_colony. simpl.
  rewrite <- (place_ants_agree _ _ _ _ _ Hagree).
  destruct (place_ants _ _ _ _) as [ants0|]; [|done]. simpl.
  match goal with
  | |- run_iterations ?c1 _ _ _ = _ <$> run_iterations ?c2 _ _ _ =>
      change c1 with (with_network n2 c2)
  end.
  by apply run_iterations_agree.
Qed.

Lemma consensus_agree self n2 node_id votes :
  networks_agree (ACOAlgorithm.network self) n2 →
  consensus (with_network n2 self) node_id votes = consensus self node_id votes.
Proof.
  intros (_ & _ & Hb). unfold consensus. simpl.
  destruct (np_index _ _) as [r|]; [|done]. simpl.
  destruct (_ !! r) as [row|]; [|done]. simpl.
  destruct (np_max row); [|done]. simpl.
  destruct (Hb node_id) as [b1 b2 (Hr & Hs & Hrecv)|]; [|done]. simpl.
  unfold vote_threshold, behavior_score. simpl. by rewrite Hr, Hs, Hrecv.
Qed.

Lemma detect_loop_agree self n2 items detected :
  networks_agree (ACOAlgorithm.network self) n2 →
  detect_loop (with_network n2 self) items detected = detect_loop self items detected.
Proof.
  intros Hagree. revert detected.
  induction items as [|[node_id votes] rest IH]; intros detected; [done|].
  simpl. rewrite consensus_agree by done.
  destruct (consensus self node_id votes); [|done]. simpl. apply IH.
Qed.

(** On two networks that agree the same draws give the same detections. *)
Lemma run_aco_agree self n2 starts choices iterations :
  networks_agree (ACOAlgorithm.network self) n2 →
  fst <$> run_aco (with_network n2 self) starts choices iterations
  = fst <$> run_aco self starts choices iterations.
Proof.
  intros Hagree. unfold run_aco. rewrite run_colony_agree by done.
  destruct (run_colony self starts choices iterations) as [colony|] eqn:Hcol; [|done].
  simpl. unfold detect_attacks. simpl.
  rewrite detect_loop_agree; [by destruct (detect_loop _ _ _)|].
  apply (run_colony_ants_ind (λ _, True)) in Hcol as [-> _]; done.
Qed.

Lemma elem_of_all_suspicious ants n :
  n ∈ all_suspicious ants → ∃ ant, ant ∈ ants ∧ n ∈ Ant.suspicious_nodes ant.
Proof.
  unfold all_suspicious. intros Hin. apply list_elem_of_In, in_concat in Hin
    as (l & Hl & Hn).
  apply in_map_iff in Hl as (ant & <- & Hant).
  exists ant. split; by apply list_elem_of_In.
Qed.

(** A detected node was flagged by the heuristic during the run. *)
Lemma run_aco_detected_flagged self starts choices iterations detected self' n :
  run_aco self starts choices iterations = Some (detected, self') →
  n ∈ detected →
  flagged_by_heuristic (ACOAlgorithm.network self) n.
Proof.
  unfold run_aco. intros Hrun Hn.
  destruct (run_colony _ _ _ _) as [colony|] eqn:Hcol; simpl in Hrun; [|done].
  apply (detect_attacks_inv _ _ _ n) in Hrun as (_ & Hvotes & _); [|done].
  assert (0 < count_in n (all_suspicious (ACOAlgorithm.ants colony)))%nat as Hpos
    by (unfold vote_threshold in Hvotes; lia).
  apply count_in_pos, elem_of_all_suspicious in Hpos as (ant & Hant & Hsus).
  by eapply run_colony_suspicious_sound.
Qed.

End ACO_lemmas.

(** *** The network built by [_create_network] *)

Lemma place_nodes_lookup placement i count nodes node_id node :
  WirelessSensorNetwork.place_nodes placement i count nodes !! node_id = Some node →
  (Z.of_nat i <= node_id < Z.of_nat (i + count) ∧ SensorNode.neighbors node = [])
  ∨ nodes !! node_id = Some node.
Proof.
  revert i nodes. induction count as [|count IH]; intros i nodes Hl; simpl in Hl.
  - by right.
  - destruct (placement i) as [[x y] energy].
    apply IH in Hl as [[Hrange Hnil]|Hl]; [left; split; [lia|done]|].
    destruct (decide (Z.of_nat i = node_id)) as [<-|Hne].
    + rewrite lookup_insert_eq in Hl. simplify_eq. left. split; [lia|done].
    + rewrite lookup_insert_ne in Hl by done. by right.
Qed.

Lemma add_neighbor_in_range num_nodes nodes i j :
  nodes_in_range num_nodes nodes → 0 <= j < num_nodes →
  nodes_in_range num_nodes (alter (WirelessSensorNetwork.add_neighbor j) i nodes).
Proof.
  intros Hinv Hj node_id node Hl. rewrite lookup_alter in Hl.
  destruct (decide (i = node_id)) as [->|Hne]; [|by apply Hinv].
  destruct (nodes !! node_id) as [node0|] eqn:H0; simpl in Hl; [|done].
  simplify_eq. destruct (Hinv _ _ H0) as [Hid Hnb]. split; [done|].
  simpl. intros n [Hn|Hn]%elem_of_app; [by apply Hnb|].
  apply list_elem_of_singleton in Hn. by subst.
Qed.

Lemma link_row_in_range num_nodes nodes i js nodes' :
  WirelessSensorNetwork.link_row nodes i js = Some nodes' →
  nodes_in_range num_nodes nodes → nodes_in_range num_nodes nodes'.
Proof.
  revert nodes. induction js as [|j rest IH]; intros nodes Hl Hinv; simpl in Hl.
  - by simplify_eq.
  - destruct (nodes !! i) as [node_i|] eqn:Hi; simpl in Hl; [|done].
    destruct (nodes !! j) as [node_j|] eqn:Hj; simpl in Hl; [|done].
    apply (IH _ Hl).
    destruct (WirelessSensorNetwork.in_communication_range node_i node_j); [|done].
    destruct (Hinv _ _ Hi) as [Hri _]. destruct (Hinv _ _ Hj) as [Hrj _].
    by do 2 (apply add_neighbor_in_range; [|done]).
Qed.

Lemma link_rows_in_range num_nodes nodes rows nodes' :
  WirelessSensorNetwork.link_rows nodes num_nodes rows = Some nodes' →
  nodes_in_range num_nodes nodes → nodes_in_range num_nodes nodes'.
Proof.
  revert nodes. induction rows as [|i rest IH]; intros nodes Hl Hinv; simpl in Hl.
  - by simplify_eq.
  - destruct (WirelessSensorNetwork.link_row _ _ _) as [nodes1|] eqn:Hrow;
      simpl in Hl; [|done].
    apply (IH _ Hl). by eapply link_row_in_range.
Qed.

(** A network filled by [_create_network] has its keys, and the ids in its
    neighbour lists, in [range(num_nodes)]. *)
Lemma create_network_keys_in_range self placement network :
  WirelessSensorNetwork.nodes self = ∅ →
  WirelessSensorNetwork._create_network self placement = Some network →
  keys_in_range network ∧ neighbors_in_range network.
Proof.
  unfold WirelessSensorNetwork._create_network. intros Hempty Hc.
  destruct (WirelessSensorNetwork.link_rows _ _ _) as [linked|] eqn:Hl;
    simpl in Hc; [|done].
  simplify_eq.
  assert (nodes_in_range (WirelessSensorNetwork.num_nodes self) linked) as Hinv.
  { eapply link_rows_in_range; [exact Hl|]. intros node_id node Hn.
    apply place_nodes_lookup in Hn as [[Hrange Hnil]|Hn].
    - split; [lia|]. rewrite Hnil. by intros n ?%elem_of_nil.
    - by rewrite Hempty, lookup_empty in Hn. }
  split.
  - intros node_id [node Hn]. simpl in Hn. exact (proj1 (Hinv _ _ Hn)).
  - intros node_id node n Hn Hin. simpl in Hn. exact (proj2 (Hinv _ _ Hn) n Hin).
Qed.

Lemma create_network_sample :
  (λ w, SensorNode.neighbors <$> WirelessSensorNetwork.nodes w !! 1)
    <$> WirelessSensorNetwork._create_network (empty_network 10) row_placement
  = Some (Some [0; 2; 3]).
Proof. vm_compute. reflexivity. Qed.

Lemma same_observations_agree w1 w2 :
  same_observations w1 w2 → networks_agree w1 w2.
Proof.
  intros [Hnum Hnodes]. split_and!; [done..|].
  intros node_id. simpl. unfold WirelessSensorNetwork.get_node_behavior.
  destruct (Hnodes node_id) as [node1 node2 (_ & _ & Hs & Hr)|]; [|constructor].
  simpl. constructor. unfold behavior_agree. simpl. by rewrite Hs, Hr.
Qed.

Lemma forget_labels_same_observations w : same_observations w (forget_labels w).
Proof.
  split; [done|]. intros node_id. simpl. rewrite lookup_fmap.
  destruct (WirelessSensorNetwork.nodes w !! node_id); by constructor.
Qed.

(** * Properties of the specification *)

Section Properties.
Context {N : Type} `{!NetworkLike N}.
Implicit Types (self : ACOAlgorithm.t N) (ant : Ant.t) (network : N).

(** C1 (amended).  With a single ant the vote threshold is
    [max(2, 0) = 2].  The tally counts occurrences in the suspicious lists,
    to which an ant adds its node in every iteration that flags it: a node
    is detected in a single-ant run only if the ant flagged it at least
    twice, and a single-ant run of at most one iteration detects nothing. *)
Theorem C1_single_ant_needs_two_flags self starts choices iterations detected self' :
  ACOAlgorithm.num_ants self = 1%nat →
  run_aco self starts choices iterations = Some (detected, self') →
  ∃ ant,
    ACOAlgorithm.ants self' = [ant]
    ∧ vote_threshold self' = 2%nat
    ∧ (∀ n, n ∈ detected → (2 <= count_in n (Ant.suspicious_nodes ant))%nat)
    ∧ ((iterations <= 1)%nat → detected = []).
Proof.
  intros Hone Hrun. unfold run_aco in Hrun.
  destruct (run_colony _ _ _ _) as [colony|] eqn:Hcol; simpl in Hrun; [|done].
  apply run_colony_sizes in Hcol as [Hlen Hsizes]. rewrite Hone in Hlen.
  destruct (ACOAlgorithm.ants colony) as [|ant [|? ?]] eqn:Hants; simplify_eq/=.
  pose proof (detect_attacks_frame _ _ _ Hrun) as (_ & Hants' & _).
  rewrite Hants in Hants'.
  assert (∀ n, n ∈ detected → (2 <= count_in n (Ant.suspicious_nodes ant))%nat)
    as Htwo.
  { intros n Hn.
    apply (detect_attacks_inv _ _ _ n) in Hrun as (_ & Hvotes & _); [|done].
    unfold vote_threshold, all_suspicious in Hvotes. rewrite Hants in Hvotes.
    simpl in Hvotes. by rewrite app_nil_r in Hvotes. }
  exists ant. split_and!; [done|by unfold vote_threshold; rewrite Hants'|done|].
  intros Hit. apply elem_of_nil_inv. intros n Hn.
  apply Htwo in Hn. apply Forall_inv in Hsizes.
  pose proof (count_in_le_length n (Ant.suspicious_nodes ant)). lia.
Qed.

(** C2 (amended).  The constructor sets every pheromone entry to 0.5 and
    leaves the colony without ants.  [run_aco] re-creates the ants, with
    empty trails and empty suspicious lists, and overwrites the detected
    list, but it goes on from the matrix it finds: the outcome of a call is
    determined by the network, the colony size and the matrix at the time of
    the call, whatever ants and detections an earlier call left. *)
Theorem C2_run_reads_only_the_matrix self1 self2 starts choices iterations :
  ACOAlgorithm.network self1 = ACOAlgorithm.network self2 →
  ACOAlgorithm.num_ants self1 = ACOAlgorithm.num_ants self2 →
  ACOAlgorithm.pheromone_matrix self1 = ACOAlgorithm.pheromone_matrix self2 →
  run_aco self1 starts choices iterations = run_aco self2 starts choices iterations
  ∧ (∀ colony, create_ant_colony self1 starts = Some colony →
       ACOAlgorithm.pheromone_matrix colony = ACOAlgorithm.pheromone_matrix self1
       ∧ Forall fresh_ant (ACOAlgorithm.ants colony))
  ∧ (∀ num_ants new, init (ACOAlgorithm.network self1) num_ants = Some new →
       ACOAlgorithm.ants new = []
       ∧ ACOAlgorithm.pheromone_matrix new
         = replicate (Z.to_nat (num_nodes (ACOAlgorithm.network self1)))
             (replicate (Z.to_nat (num_nodes (ACOAlgorithm.network self1))) (1 * 0.5)%Q)).
Proof.
  intros Hnet Hnum Hmat. split_and!.
  - by apply run_aco_reads.
  - unfold create_ant_colony. intros colony Hc. bind_cases Hc. simplify_eq.
    split; [done|]. simpl. apply place_ants_spec in E as [_ Hall].
    eapply Forall_impl; [exact Hall|]. by intros a [? _].
  - unfold init. intros num_ants new Hi. case_match; by simplify_eq.
Qed.

(** C4 (amended).  With a delivery ratio of 0.95 and 10 packets sent the
    delivery and traffic terms add nothing: the score is 0, 0.1, 0.2 or
    0.30000000000000004 according to energy and neighbour count (0 when the
    energy is at least 40 and there are at most 6 neighbours), it never
    exceeds 0.7, and the node is in no suspicious list after any run. *)
Theorem C4_healthy_node_never_flagged network node_id node_behavior node :
  get_node_behavior network node_id = Some node_behavior →
  nodes network !! node_id = Some node →
  (Behavior.delivery_ratio node_behavior == 0.95)%Q →
  Behavior.packets_sent node_behavior = 10 →
  suspiciousness_score node_behavior node
  = (if Qltb (SensorNode.energy node) 40
     then if (6 <? length (SensorNode.neighbors node))%nat
          then 0.30000000000000004 else 0.2
     else if (6 <? length (SensorNode.neighbors node))%nat
          then 0.1 else 0)%float
  ∧ ((40 <= SensorNode.energy node)%Q →
     (length (SensorNode.neighbors node) <= 6)%nat →
     suspiciousness_score node_behavior node = 0%float)
  ∧ is_suspicious node_behavior node = false
  ∧ ∀ self starts choices iterations self' ant,
      ACOAlgorithm.network self = network →
      run_colony self starts choices iterations = Some self' →
      ant ∈ ACOAlgorithm.ants self' →
      node_id ∉ Ant.suspicious_nodes ant.
Proof.
  intros Hb Hnode Hratio Hsent.
  assert (Qltb (Behavior.delivery_ratio node_behavior) 0.38 = false) as H1
    by (by rewrite Hratio).
  assert (Qltb (Behavior.delivery_ratio node_behavior) 0.28 = false) as H2
    by (by rewrite Hratio).
  assert (is_suspicious node_behavior node = false) as Hflag.
  { unfold is_suspicious, suspiciousness_score, hasattr_energy.
    rewrite H1, H2, andb_false_r.
    destruct (Qltb (SensorNode.energy node) 40),
      (6 <? length (SensorNode.neighbors node))%nat; reflexivity. }
  split_and!.
  - unfold suspiciousness_score, hasattr_energy. rewrite H1, H2, andb_false_r.
    destruct (Qltb (SensorNode.energy node) 40),
      (6 <? length (SensorNode.neighbors node))%nat; reflexivity.
  - intros Henergy Hneigh.
    unfold suspiciousness_score, hasattr_energy. rewrite H1, H2, andb_false_r.
    apply Qltb_ge in Henergy. rewrite Henergy.
    apply Nat.ltb_ge in Hneigh. by rewrite Hneigh.
  - done.
  - intros self starts choices iterations self' ant Hnet Hrun Hant Hin.
    destruct (run_colony_suspicious_sound _ _ _ _ _ _ _ Hrun Hant Hin)
      as (b' & node' & Hb' & Hnode' & Hflag').
    rewrite Hnet in Hb', Hnode'. simplify_eq. congruence.
Qed.

(** C5.  With a delivery ratio of 0 and more than 35 packets sent, the
    low-delivery test and the high-traffic test both succeed and the score,
    a function of the snapshot and the node alone, is at least 0.7. *)
Theorem C5_zero_delivery_high_traffic (node_behavior : Behavior.t) (node : SensorNode.t) :
  (Behavior.delivery_ratio node_behavior == 0)%Q →
  35 < Behavior.packets_sent node_behavior →
  Qltb (Behavior.delivery_ratio node_behavior) 0.38 = true
  ∧ ((35 <? Behavior.packets_sent node_behavior)
      && Qltb (Behavior.delivery_ratio node_behavior) 0.28) = true
  ∧ PrimFloat.leb 0.7 (suspiciousness_score node_behavior node) = true.
Proof.
  intros Hratio Hsent.
  assert (Qltb (Behavior.delivery_ratio node_behavior) 0.38 = true) as H1
    by (by rewrite Hratio).
  assert (Qltb (Behavior.delivery_ratio node_behavior) 0.28 = true) as H2
    by (by rewrite Hratio).
  assert ((35 <? Behavior.packets_sent node_behavior) = true) as H3
    by (by apply Z.ltb_lt).
  split_and!; [done|by rewrite H2, H3|].
  unfold suspiciousness_score, hasattr_energy. rewrite H1, H2, H3. simpl.
  destruct (Qltb (SensorNode.energy node) 40),
    (6 <? length (SensorNode.neighbors node))%nat; reflexivity.
Qed.

(** C6.  The constructor sets every entry of the matrix to 0.5; along a
    run, and across any [update_pheromones] on a matrix without negative
    entry, no entry is negative.  When no ant holds a suspicious node,
    [update_pheromones] is the evaporation alone: every entry [v] becomes
    [v * (1 - rho)] with [rho = 0.1], which lies between 0 and [v]; after
    [iterations] such updates every entry is [0.5 * (1 - rho) ^ iterations]. *)
Theorem C6_pheromone_nonnegative network num_ants new starts choices iterations colony :
  init network num_ants = Some new →
  run_colony new starts choices iterations = Some colony →
  (∀ i j v, matrix_get (ACOAlgorithm.pheromone_matrix new) i j = Some v →
            (v == 0.5)%Q)
  ∧ matrix_nonneg (ACOAlgorithm.pheromone_matrix colony)
  ∧ (∀ self next,
       matrix_nonneg (ACOAlgorithm.pheromone_matrix self) →
       update_pheromones self = Some next →
       matrix_nonneg (ACOAlgorithm.pheromone_matrix next))
  ∧ (∀ self,
       Forall (λ ant, Ant.suspicious_nodes ant = []) (ACOAlgorithm.ants self) →
       ∃ next,
         update_pheromones self = Some next
         ∧ ACOAlgorithm.pheromone_matrix next
           = evaporate (ACOAlgorithm.pheromone_matrix self)
         ∧ ∀ i j v,
             matrix_get (ACOAlgorithm.pheromone_matrix self) i j = Some v →
             ∃ v', matrix_get (ACOAlgorithm.pheromone_matrix next) i j = Some v'
                   ∧ v' = (v * (1 - rho))%Q
                   ∧ ((0 <= v)%Q → (0 <= v')%Q ∧ (v' <= v)%Q))
  ∧ (Forall (λ ant, Ant.suspicious_nodes ant = []) (ACOAlgorithm.ants colony) →
     ∀ i j v,
       matrix_get (ACOAlgorithm.pheromone_matrix colony) i j = Some v →
       (v == 0.5 * (1 - rho) ^ Z.of_nat iterations)%Q).
Proof.
  intros Hinit Hrun. unfold init in Hinit. case_match; [|done]. simplify_eq.
  assert (∀ i j v,
            matrix_get (replicate (Z.to_nat (num_nodes network))
                          (replicate (Z.to_nat (num_nodes network)) (1 * 0.5)%Q))
              i j = Some v → (v == 0.5)%Q) as Hhalf.
  { intros i j v Hget. unfold matrix_get in Hget. bind_cases Hget.
    apply lookup_replicate_1 in E0 as [-> _].
    apply lookup_replicate_1 in Hget as [-> _]. reflexivity. }
  unfold run_colony, create_ant_colony in Hrun. simpl in Hrun.
  destruct (place_ants _ _ _ _) as [ants0|]; simpl in Hrun; [|done].
  split_and!.
  - exact Hhalf.
  - eapply run_iterations_nonneg; [exact Hrun|]. simpl.
    apply Forall_replicate, Forall_replicate. lra.
  - intros self next Hm Hu. by eapply update_pheromones_nonneg.
  - intros self Hnone. unfold update_pheromones.
    rewrite deposit_ants_none by done. simpl. eexists. split_and!; [done..|].
    simpl. intros i j v Hget. rewrite matrix_get_evaporate, Hget. simpl.
    eexists. split_and!; [done..|]. unfold rho. intros Hv. split; lra.
  - intros Hnone i j v Hget.
    apply run_iterations_evaporation in Hrun as [_ Hmat]; [|done].
    rewrite Hmat in Hget. simpl in Hget.
    apply matrix_get_iter_evaporate in Hget as (v0 & Hv0 & Hv).
    rewrite Hv. by rewrite (Hhalf _ _ _ Hv0).
Qed.

(** C7.  An ant none of whose neighbours is a candidate (each of them is
    among the last three entries of the trail, the current node included)
    is moved without error and keeps its current node. *)
Theorem C7_no_candidate_stays_put self r ant node_behavior node :
  get_node_behavior (ACOAlgorithm.network self) (Ant.current_node ant) = Some node_behavior →
  nodes (ACOAlgorithm.network self) !! Ant.current_node ant = Some node →
  (∀ n, n ∈ SensorNode.neighbors node →
        n ∈ last_n 3 (Ant.visited_nodes ant ++ [Ant.current_node ant])) →
  available_nodes node (Ant.visited_nodes ant ++ [Ant.current_node ant]) = []
  ∧ ∃ ant', ant_movement self r ant = Some ant'
            ∧ Ant.current_node ant' = Ant.current_node ant.
Proof.
  intros Hb Hn Hall.
  assert (available_nodes node (Ant.visited_nodes ant ++ [Ant.current_node ant]) = [])
    as Hnil.
  { unfold available_nodes. apply elem_of_nil_inv. intros n Hin.
    apply list_elem_of_filter in Hin as [Hnot Hin]. by apply Hnot, Hall. }
  split; [done|]. unfold ant_movement. rewrite Hb, Hn. simpl. rewrite Hnil.
  by eexists.
Qed.

(** C10.  After any number of iterations every two consecutive entries
    [u], [v] of the trail of every ant satisfy [v = u] or [v] is a neighbour
    of [u]; the same holds of the trail extended by the current node, hence
    of the trail an ant has after its next movement within an iteration. *)
Theorem C10_trail_adjacency self starts choices iterations self' ant :
  run_colony self starts choices iterations = Some self' →
  ant ∈ ACOAlgorithm.ants self' →
  trail_adjacent (ACOAlgorithm.network self) (Ant.visited_nodes ant)
  ∧ trail_adjacent (ACOAlgorithm.network self)
      (Ant.visited_nodes ant ++ [Ant.current_node ant])
  ∧ ∀ r ant', ant_movement self' r ant = Some ant' →
              trail_adjacent (ACOAlgorithm.network self) (Ant.visited_nodes ant').
Proof.
  intros Hrun Hin.
  apply (run_colony_ants_ind
           (λ a, trail_adjacent (ACOAlgorithm.network self)
                   (Ant.visited_nodes a ++ [Ant.current_node a]))) in Hrun
    as [Hnet Hall].
  - rewrite Forall_forall in Hall. specialize (Hall _ Hin).
    split_and!; [by eapply trail_adjacent_prefix|done|].
    intros r ant' Hm. pose proof (ant_movement_trail _ _ _ _ Hm) as Ht.
    rewrite Hnet in Ht. eapply trail_adjacent_prefix. by apply Ht.
  - intros a [-> _] _ i u v Hu Hv. simpl in *. by destruct i.
  - intros s r a a' Hs Hm. rewrite <- Hs. by apply (ant_movement_trail s r).
Qed.

End Properties.

(** C3 (amended).  For a node that has sent no packet the denominator is
    [max(0, 1) = 1]: [get_node_behavior] returns a snapshot, no exception,
    and its delivery ratio is the number of packets received, which is 0
    exactly when the node has received none. *)
Theorem C3_zero_sent_denominator (self : WirelessSensorNetwork.t) node_id node :
  WirelessSensorNetwork.nodes self !! node_id = Some node →
  SensorNode.packets_sent node = 0 →
  ∃ node_behavior,
    WirelessSensorNetwork.get_node_behavior self node_id = Some node_behavior
    ∧ Behavior.delivery_ratio node_behavior = inject_Z (SensorNode.packets_received node)
    ∧ ((Behavior.delivery_ratio node_behavior == 0)%Q
       ↔ SensorNode.packets_received node = 0).
Proof.
  intros Hnode Hsent. unfold WirelessSensorNetwork.get_node_behavior.
  rewrite Hnode. simpl. rewrite Hsent. eexists. split_and!; [done..|]. simpl.
  unfold Qeq. simpl. lia.
Qed.

(** C8.  On a network whose node dictionary has its keys in
    [range(num_nodes)], as [_create_network] fills it, every node id
    returned by [detect_attacks], and hence by [run_aco], is an integer [n]
    with [0 <= n < num_nodes]. *)
Theorem C8_detected_in_range (self : ACOAlgorithm.t WirelessSensorNetwork.t)
    detected self' :
  keys_in_range (ACOAlgorithm.network self) →
  (detect_attacks self = Some (detected, self')
   ∨ ∃ starts choices iterations,
       run_aco self starts choices iterations = Some (detected, self')) →
  ∀ n, n ∈ detected →
       0 <= n < WirelessSensorNetwork.num_nodes (ACOAlgorithm.network self).
Proof.
  intros Hkeys Hcall n Hn.
  assert (∃ colony, ACOAlgorithm.network colony = ACOAlgorithm.network self
                    ∧ detect_attacks colony = Some (detected, self'))
    as (colony & Hnet & Hdetect).
  { destruct Hcall as [Hd|(starts & choices & iterations & Hrun)]; [by exists self|].
    unfold run_aco in Hrun.
    destruct (run_colony _ _ _ _) as [colony|] eqn:Hcol; simpl in Hrun; [|done].
    exists colony. split; [|done].
    by apply (run_colony_ants_ind (λ _, True)) in Hcol as [-> _]. }
  apply (detect_attacks_inv _ _ _ n) in Hdetect as (_ & _ & Hb & _); [|done].
  rewrite Hnet in Hb. apply Hkeys. simpl in *.
  unfold WirelessSensorNetwork.get_node_behavior in Hb.
  destruct (WirelessSensorNetwork.nodes _ !! n); [done|].
  by destruct Hb.
Qed.

(** C9.  Two networks that agree on the node count and, node by node, on
    neighbours, energy and the two packet counters, and that differ only in
    the labels [is_malicious] and in [sinkhole_nodes], give the same
    detections under the same random draws, from the same colony state and
    so also from a newly built colony. *)
Theorem C9_labels_never_read (self : ACOAlgorithm.t WirelessSensorNetwork.t)
    (relabelled : WirelessSensorNetwork.t) starts choices iterations :
  same_observations (ACOAlgorithm.network self) relabelled →
  fst <$> run_aco (with_network relabelled self) starts choices iterations
  = fst <$> run_aco self starts choices iterations
  ∧ ∀ num_ants,
      init relabelled num_ants ≫= (λ colony, fst <$> run_aco colony starts choices iterations)
      = init (ACOAlgorithm.network self) num_ants
          ≫= (λ colony, fst <$> run_aco colony starts choices iterations).
Proof.
  intros Hsame. pose proof (same_observations_agree _ _ Hsame) as Hagree.
  split; [by apply run_aco_agree|].
  intros num_ants. unfold init. destruct Hagree as [Hnum Hrest]. rewrite <- Hnum.
  case_match; [|done]. simpl.
  match goal with
  | |- fst <$> run_aco ?c1 _ _ _ = fst <$> run_aco ?c2 _ _ _ =>
      change c1 with (with_network relabelled c2)
  end.
  by apply run_aco_agree.
Qed.

(** ** The properties on the sample networks *)

(** C1 on [scattered_network]: the node detected by the single ant was
    flagged twice. *)
Lemma C1_witness :
  ∃ ant self',
    run_aco (scattered_colony 1) always_zero no_choice 2 = Some ([0], self')
    ∧ ACOAlgorithm.ants self' = [ant]
    ∧ (2 <= count_in 0 (Ant.suspicious_nodes ant))%nat.
Proof.
  destruct (run_aco (scattered_colony 1) always_zero no_choice 2)
    as [[detected self']|] eqn:Hrun; [|vm_compute in Hrun; discriminate Hrun].
  destruct (C1_single_ant_needs_two_flags (scattered_colony 1) always_zero no_choice 2
              detected self' eq_refl Hrun) as (ant & Hants & _ & Htwo & _).
  assert (detected = [0]) as ->.
  { vm_compute in Hrun. by injection Hrun as <- _. }
  exists ant, self'. split_and!; [done..|]. apply Htwo, list_elem_of_here.
Defined.

(** C1 as stated fails: a single ant placed on the isolated sinkhole 0 of
    [scattered_network] flags it in both iterations of a two-iteration run,
    and node 0 is detected. *)
Lemma C1_counterexample :
  init scattered_network 1 = Some (scattered_colony 1)
  ∧ fst <$> run_aco (scattered_colony 1) always_zero no_choice 2 = Some [0]
  ∧ fst <$> run_aco (scattered_colony 1) always_zero no_choice 2 ≠ Some [].
Proof.
  split_and!; [vm_compute; reflexivity..|].
  vm_compute. intros H. discriminate H.
Qed.

(** C2 on [scattered_network]: a stale detected list does not change the
    outcome of a call. *)
Lemma C2_witness :
  run_aco (with_detected [7] (scattered_colony 2)) always_zero no_choice 1
  = run_aco (scattered_colony 2) always_zero no_choice 1.
Proof.
  refine (proj1 (C2_run_reads_only_the_matrix
                   (with_detected [7] (scattered_colony 2)) (scattered_colony 2)
                   always_zero no_choice 1 _ _ _)); reflexivity.
Defined.

(** C2 as stated fails: after a first call of two iterations the entry
    [0][0] of the matrix is not 0.5, and a second call of one iteration
    detects node 0 where the same call on a new instance detects nothing. *)
Lemma C2_counterexample :
  ∃ used,
    init scattered_network 2 = Some (scattered_colony 2)
    ∧ snd <$> run_aco (scattered_colony 2) always_zero no_choice 2 = Some used
    ∧ (∃ v, matrix_get (ACOAlgorithm.pheromone_matrix used) 0 0 = Some v
            ∧ ¬ (v == 0.5)%Q)
    ∧ fst <$> run_aco (scattered_colony 2) always_zero no_choice 1 = Some []
    ∧ fst <$> run_aco used always_zero no_choice 1 = Some [0].
Proof.
  eexists. split_and!.
  - vm_compute. reflexivity.
  - vm_compute. reflexivity.
  - eexists. split; [vm_compute; reflexivity|]. intros H. discriminate H.
  - vm_compute. reflexivity.
  - vm_compute. reflexivity.
Qed.

(** C3 on node 5 of [relay_network]. *)
Lemma C3_witness :
  ∃ node_behavior,
    WirelessSensorNetwork.get_node_behavior relay_network 5 = Some node_behavior
    ∧ Behavior.delivery_ratio node_behavior = inject_Z 5.
Proof.
  destruct (C3_zero_sent_denominator relay_network 5
              (SensorNode.mk 5 40 40 false 90 0 5 [6]) eq_refl eq_refl)
    as (b & Hb & Hratio & _).
  exists b. split; [exact Hb|exact Hratio].
Defined.

(** C3 as stated fails: node 5 of [relay_network] has sent nothing and
    received 5 packets, and its delivery ratio is 5, not 0. *)
Lemma C3_counterexample :
  SensorNode.packets_sent <$> WirelessSensorNetwork.nodes relay_network !! 5 = Some 0
  ∧ ∃ node_behavior,
      WirelessSensorNetwork.get_node_behavior relay_network 5 = Some node_behavior
      ∧ Behavior.delivery_ratio node_behavior = 5%Q
      ∧ ¬ (Behavior.delivery_ratio node_behavior == 0)%Q.
Proof.
  split; [reflexivity|]. eexists. split_and!; [reflexivity..|].
  simpl. intros H. discriminate H.
Qed.

(** C4 on [healthy_provider]: node 0 is in no suspicious list after three
    iterations of two ants. *)
Lemma C4_witness :
  is_suspicious (Behavior.mk 0.95 10 9 false)
    (SensorNode.mk 0 10 10 false 30 10 9 [1]) = false
  ∧ ∃ colony,
      run_colony healthy_colony always_zero no_choice 3 = Some colony
      ∧ Forall (λ ant, 0 ∉ Ant.suspicious_nodes ant) (ACOAlgorithm.ants colony).
Proof.
  assert (get_node_behavior healthy_provider 0 = Some (Behavior.mk 0.95 10 9 false))
    as Hb by reflexivity.
  assert (nodes healthy_provider !! 0
          = Some (SensorNode.mk 0 10 10 false 30 10 9 [1])) as Hnode by reflexivity.
  destruct (C4_healthy_node_never_flagged healthy_provider 0
              (Behavior.mk 0.95 10 9 false)
              (SensorNode.mk 0 10 10 false 30 10 9 [1])
              Hb Hnode eq_refl eq_refl)
    as (_ & _ & Hflag & Hrun).
  split; [exact Hflag|].
  destruct (run_colony healthy_colony always_zero no_choice 3)
    as [colony|] eqn:Hcol; [|vm_compute in Hcol; discriminate Hcol].
  exists colony. split; [done|]. apply Forall_forall. intros ant Hant.
  by apply (Hrun healthy_colony always_zero no_choice 3%nat colony ant).
Defined.

(** C4 as stated fails: at 0.95 and 10 packets a node with energy 30 scores
    0.2, not 0. *)
Lemma C4_counterexample :
  (Behavior.delivery_ratio (Behavior.mk 0.95 10 9 false) == 0.95)%Q
  ∧ Behavior.packets_sent (Behavior.mk 0.95 10 9 false) = 10
  ∧ suspiciousness_score (Behavior.mk 0.95 10 9 false)
      (SensorNode.mk 0 10 10 false 30 10 9 [1]) = 0.2%float
  ∧ suspiciousness_score (Behavior.mk 0.95 10 9 false)
      (SensorNode.mk 0 10 10 false 30 10 9 [1]) ≠ 0%float.
Proof.
  split_and!; [reflexivity..|].
  intros H. apply (f_equal (λ f, PrimFloat.eqb f 0)) in H.
  vm_compute in H. discriminate H.
Qed.

(** C5 on a snapshot with no delivery and 100 packets sent. *)
Lemma C5_witness :
  PrimFloat.leb 0.7
    (suspiciousness_score (Behavior.mk 0 100 0 true)
       (SensorNode.mk 0 10 10 true 90 100 0 [])) = true.
Proof.
  refine (proj2 (proj2 (C5_zero_delivery_high_traffic (Behavior.mk 0 100 0 true)
                   (SensorNode.mk 0 10 10 true 90 100 0 []) _ _))).
  - reflexivity.
  - reflexivity.
Defined.

(** C6 on [scattered_network]: an ant on the healthy node 5 flags nothing,
    and two updates leave [0.5 * 0.9 ^ 2] everywhere. *)
Lemma C6_witness :
  ∃ colony,
    run_colony (scattered_colony 1) always_five no_choice 2 = Some colony
    ∧ matrix_nonneg (ACOAlgorithm.pheromone_matrix colony)
    ∧ ∀ i j v,
        matrix_get (ACOAlgorithm.pheromone_matrix colony) i j = Some v →
        (v == 0.5 * (1 - rho) ^ 2)%Q.
Proof.
  destruct (run_colony (scattered_colony 1) always_five no_choice 2)
    as [colony|] eqn:Hrun; [|vm_compute in Hrun; discriminate Hrun].
  assert (init scattered_network 1 = Some (scattered_colony 1)) as Hinit
    by (vm_compute; reflexivity).
  destruct (C6_pheromone_nonnegative scattered_network 1 (scattered_colony 1)
              always_five no_choice 2 colony Hinit Hrun)
    as (_ & Hnonneg & _ & _ & Hdecay).
  exists colony. split_and!; [done..|]. apply Hdecay.
  vm_compute in Hrun. injection Hrun as <-. repeat constructor.
Defined.

(** C7 on [relay_network]: an ant that came from node 6 to node 5, whose
    only neighbour is node 6, stays on node 5. *)
Lemma C7_witness :
  ∃ ant', ant_movement (relay_colony 1) 0 (Ant.mk 5 [6] []) = Some ant'
          ∧ Ant.current_node ant' = 5.
Proof.
  eapply (C7_no_candidate_stays_put (relay_colony 1) 0%nat (Ant.mk 5 [6] [])).
  - reflexivity.
  - reflexivity.
  - vm_compute. intros n Hn. apply list_elem_of_In in Hn. apply list_elem_of_In.
    simpl in *. tauto.
Defined.

(** C8 on [scattered_network]: the detected node 0 is in range. *)
Lemma C8_witness :
  0 <= 0 < WirelessSensorNetwork.num_nodes scattered_network.
Proof.
  refine (C8_detected_in_range (scattered_colony 1) [0] _ _ _ 0 (list_elem_of_here _ _)).
  - intros node_id [node Hnode]. change (0 <= node_id < 10).
    destruct (decide (0 <= node_id < 10)) as [?|Hout]; [done|].
    exfalso.
    assert (WirelessSensorNetwork.nodes scattered_network !! node_id = None)
      as Hnone.
    { unfold scattered_network. simpl.
      repeat (rewrite lookup_insert_ne by lia). apply lookup_empty. }
    change (WirelessSensorNetwork.nodes scattered_network !! node_id = Some node)
      in Hnode.
    rewrite Hnone in Hnode. discriminate Hnode.
  - right. exists always_zero, no_choice, 2%nat. vm_compute. reflexivity.
Defined.

(** C9 on [scattered_network] and its copy without labels. *)
Lemma C9_witness :
  fst <$> run_aco (with_network (forget_labels scattered_network) (scattered_colony 1))
            always_zero no_choice 2
  = Some [0].
Proof.
  rewrite (proj1 (C9_labels_never_read (scattered_colony 1)
                    (forget_labels scattered_network) always_zero no_choice 2
                    (forget_labels_same_observations scattered_network))).
  vm_compute. reflexivity.
Defined.

(** C10 on [relay_network]: the trail 5, 6, 7. *)
Lemma C10_witness :
  ∃ self' ant,
    run_colony (relay_colony 1) always_five no_choice 3 = Some self'
    ∧ ACOAlgorithm.ants self' = [ant]
    ∧ Ant.visited_nodes ant = [5; 6; 7]
    ∧ trail_adjacent relay_network (Ant.visited_nodes ant).
Proof.
  eexists _, _. split_and!; [vm_compute; reflexivity|reflexivity..|].
  refine (proj1 (C10_trail_adjacency (relay_colony 1) always_five no_choice 3 _ _ _ _)).
  - vm_compute. reflexivity.
  - apply list_elem_of_here.
Defined.

(** * Further properties of the colony *)

(** ** The heuristic *)

(** The score lies between 0 and 1, and it exceeds 0.7 exactly when the
    delivery ratio is below 0.38 and, besides, either the high-traffic test
    succeeds together with one of the energy and neighbour tests, or the
    energy and neighbour tests both succeed. *)
Theorem is_suspicious_cases (node_behavior : Behavior.t) (node : SensorNode.t) :
  let low_delivery := Qltb (Behavior.delivery_ratio node_behavior) 0.38 in
  let high_traffic :=
    (35 <? Behavior.packets_sent node_behavior)
    && Qltb (Behavior.delivery_ratio node_behavior) 0.28 in
  let low_energy := Qltb (SensorNode.energy node) 40 in
  let many_neighbors := (6 <? length (SensorNode.neighbors node))%nat in
  is_suspicious node_behavior node
  = low_delivery
    && ((high_traffic && (low_energy || many_neighbors))
        || (low_energy && many_neighbors))
  ∧ PrimFloat.leb 0 (suspiciousness_score node_behavior node) = true
  ∧ PrimFloat.leb (suspiciousness_score node_behavior node) 1 = true.
Proof.
  unfold is_suspicious, suspiciousness_score, hasattr_energy. simpl.
  destruct (Qltb (Behavior.delivery_ratio node_behavior) 0.38),
    ((35 <? Behavior.packets_sent node_behavior)
     && Qltb (Behavior.delivery_ratio node_behavior) 0.28),
    (Qltb (SensorNode.energy node) 40),
    (6 <? length (SensorNode.neighbors node))%nat;
    split_and!; reflexivity.
Qed.

(** ** The tally and the detection *)

Lemma count_in_elem n l : n ∈ l → (0 < count_in n l)%nat.
Proof.
  unfold count_in. intros Hin.
  assert (n ∈ filter (λ m, m = n) l) as Hf by (by apply list_elem_of_filter).
  destruct (filter (λ m, m = n) l); [by apply elem_of_nil in Hf|simpl; lia].
Qed.

Lemma vote_get_pos_elem vote_count n :
  (0 < vote_get vote_count n)%nat → (n, vote_get vote_count n) ∈ vote_count.
Proof.
  induction vote_count as [|[key votes] rest IH]; simpl; [lia|].
  case_bool_decide as Hk.
  - subst. intros _. apply list_elem_of_here.
  - intros Hpos. apply list_elem_of_further. by apply IH.
Qed.

Lemma count_votes_complete l n :
  n ∈ l → (n, count_in n l) ∈ count_votes l.
Proof.
  intros Hin. unfold count_votes.
  destruct (fold_vote_add_spec l [] (NoDup_nil_2)) as [_ Hget].
  specialize (Hget n). simpl in Hget. rewrite <- Hget.
  apply vote_get_pos_elem. rewrite Hget. by apply count_in_elem.
Qed.

Lemma count_votes_NoDup l : NoDup (count_votes l).*1.
Proof. apply (fold_vote_add_spec l []), NoDup_nil_2. Qed.

Section Detection.
Context {N : Type} `{!NetworkLike N}.
Implicit Types (self : ACOAlgorithm.t N) (ant : Ant.t) (network : N).

Lemma detect_loop_complete self items detected result :
  detect_loop self items detected = Some result →
  (∀ n, n ∈ detected → n ∈ result)
  ∧ ∀ n votes, (n, votes) ∈ items → consensus self n votes = Some true → n ∈ result.
Proof.
  revert detected. induction items as [|[node_id votes] rest IH]; intros detected Hd;
    simpl in Hd.
  - simplify_eq. split; [done|]. by intros n v ?%elem_of_nil.
  - destruct (consensus self node_id votes) as [ok|] eqn:Hc; simpl in Hd; [|done].
    destruct (IH _ Hd) as [Hacc Hitems]. split.
    + intros n Hn. apply Hacc. destruct ok; [|done].
      apply elem_of_app. by left.
    + intros n v [Heq|Hin]%elem_of_cons Hcn; [|by eapply Hitems].
      simplify_eq. apply Hacc. apply elem_of_app. right. apply list_elem_of_here.
Qed.

Lemma detect_loop_NoDup self items detected result :
  detect_loop self items detected = Some result →
  NoDup (detected ++ items.*1) → NoDup result.
Proof.
  revert detected. induction items as [|[node_id votes] rest IH]; intros detected Hd Hnd;
    simpl in Hd.
  - simplify_eq. by rewrite app_nil_r in Hnd.
  - destruct (consensus self node_id votes) as [ok|]; simpl in Hd; [|done].
    apply (IH _ Hd). rewrite fmap_cons in Hnd. simpl in Hnd. destruct ok.
    + by rewrite <- app_assoc.
    + apply NoDup_app in Hnd as (Hd1 & Hdisj & Hd2).
      apply NoDup_cons in Hd2 as [_ Hd2].
      apply NoDup_app. split_and!; [done| |done].
      intros k Hk Hk'. apply (Hdisj k Hk). by apply list_elem_of_further.
Qed.

(** The three tests of the consensus, spelled out. *)
Lemma consensus_true_iff self node_id votes :
  consensus self node_id votes = Some true ↔
  ∃ r row max_pheromone node_behavior,
    np_index (length (ACOAlgorithm.pheromone_matrix self)) node_id = Some r
    ∧ ACOAlgorithm.pheromone_matrix self !! r = Some row
    ∧ np_max row = Some max_pheromone
    ∧ get_node_behavior (ACOAlgorithm.network self) node_id = Some node_behavior
    ∧ (vote_threshold self <= votes)%nat
    ∧ (pheromone_threshold <= max_pheromone)%Q
    ∧ (2 <= behavior_score node_behavior)%nat.
Proof.
  unfold consensus. split.
  - intros Hc. bind_cases Hc. simplify_eq.
    apply andb_prop in Hc as [Hc H3]. apply andb_prop in Hc as [H1 H2].
    eexists _, _, _, _. split_and!; [done..| | |].
    + by apply Nat.leb_le.
    + by apply Qle_bool_iff.
    + by apply Nat.leb_le.
  - intros (r & row & m & b & -> & Hrow & Hm & Hb & H1 & H2 & H3). simpl.
    rewrite Hrow. simpl. rewrite Hm. simpl. rewrite Hb. simpl.
    apply Nat.leb_le in H1. apply Qle_bool_iff in H2.
    unfold Qleb. rewrite H1, H2. simpl.
    destruct (behavior_score b) as [|[|k]]; [lia|lia|done].
Qed.

Lemma detect_attacks_spec self detected self' n :
  detect_attacks self = Some (detected, self') →
  n ∈ detected ↔
  n ∈ all_suspicious (ACOAlgorithm.ants self)
  ∧ ∃ r row max_pheromone node_behavior,
      np_index (length (ACOAlgorithm.pheromone_matrix self)) n = Some r
      ∧ ACOAlgorithm.pheromone_matrix self !! r = Some row
      ∧ np_max row = Some max_pheromone
      ∧ get_node_behavior (ACOAlgorithm.network self) n = Some node_behavior
      ∧ (vote_threshold self
         <= count_in n (all_suspicious (ACOAlgorithm.ants self)))%nat
      ∧ (pheromone_threshold <= max_pheromone)%Q
      ∧ (2 <= behavior_score node_behavior)%nat.
Proof.
  unfold detect_attacks. intros Hd.
  destruct (detect_loop _ _ _) as [result|] eqn:Hloop; simpl in Hd; [|done].
  simplify_eq. rewrite <- consensus_true_iff. split.
  - intros Hn.
    destruct (detect_loop_elem _ _ _ _ _ Hloop Hn) as [Hnil|(votes & Hv & Hc)];
      [by apply elem_of_nil in Hnil|].
    pose proof (count_votes_elem _ _ _ Hv) as ->. split; [|done].
    apply count_in_pos. apply consensus_true in Hc as (Hvotes & _).
    unfold vote_threshold in Hvotes. lia.
  - intros [Hin Hc].
    eapply (proj2 (detect_loop_complete _ _ _ _ Hloop) n); [|exact Hc].
    by apply count_votes_complete.
Qed.

(** A node is in the list returned by [detect_attacks] exactly when some
    ant holds it as suspicious and, with its number of entries in the
    suspicious lists as votes, it passes the three tests: votes at least the
    threshold, greatest pheromone of its row at least 7, behaviour score at
    least 2. *)
Theorem detect_attacks_iff self detected self' n :
  detect_attacks self = Some (detected, self') →
  n ∈ detected ↔
  n ∈ all_suspicious (ACOAlgorithm.ants self)
  ∧ ∃ r row max_pheromone node_behavior,
      np_index (length (ACOAlgorithm.pheromone_matrix self)) n = Some r
      ∧ ACOAlgorithm.pheromone_matrix self !! r = Some row
      ∧ np_max row = Some max_pheromone
      ∧ get_node_behavior (ACOAlgorithm.network self) n = Some node_behavior
      ∧ (vote_threshold self
         <= count_in n (all_suspicious (ACOAlgorithm.ants self)))%nat
      ∧ (pheromone_threshold <= max_pheromone)%Q
      ∧ (2 <= behavior_score node_behavior)%nat.
Proof. apply detect_attacks_spec. Qed.

(** The list returned by [detect_attacks] holds no node twice, however
    often the ants flagged it. *)
Theorem detect_attacks_NoDup self detected self' :
  detect_attacks self = Some (detected, self') → NoDup detected.
Proof.
  unfold detect_attacks. intros Hd.
  destruct (detect_loop _ _ _) as [result|] eqn:Hloop; simpl in Hd; [|done].
  simplify_eq. eapply detect_loop_NoDup; [exact Hloop|]. simpl.
  apply count_votes_NoDup.
Qed.

(** Detecting again on the colony that [detect_attacks] leaves gives the
    same list and the same colony. *)
Theorem detect_attacks_idempotent self detected self' :
  detect_attacks self = Some (detected, self') →
  detect_attacks self' = Some (detected, self').
Proof.
  intros Hd. assert (self' = with_detected detected self) as ->.
  { unfold detect_attacks in Hd. bind_cases Hd. by simplify_eq. }
  rewrite detect_attacks_with_detected, Hd. done.
Qed.

End Detection.

(** ** Runs *)

Lemma Qltb_lt a b : Qltb a b = true → (a < b)%Q.
Proof.
  unfold Qltb. rewrite negb_true_iff. intros Hb. apply Qnot_le_lt. intros Hle.
  apply Qle_bool_iff in Hle. congruence.
Qed.

Lemma is_suspicious_low_delivery (node_behavior : Behavior.t) (node : SensorNode.t) :
  is_suspicious node_behavior node = true →
  Qltb (Behavior.delivery_ratio node_behavior) 0.38 = true.
Proof.
  unfold is_suspicious, suspiciousness_score, hasattr_energy. simpl.
  destruct (Qltb (Behavior.delivery_ratio node_behavior) 0.38),
    ((35 <? Behavior.packets_sent node_behavior)
     && Qltb (Behavior.delivery_ratio node_behavior) 0.28),
    (Qltb (SensorNode.energy node) 40),
    (6 <? length (SensorNode.neighbors node))%nat;
    first [reflexivity | intros Hfalse; discriminate Hfalse].
Qed.

Section Runs.
Context {N : Type} `{!NetworkLike N}.
Implicit Types (self : ACOAlgorithm.t N) (ant : Ant.t) (network : N).

(** Every node returned by [run_aco] was flagged by the heuristic during
    the run: its delivery ratio is below 0.38, and its behaviour score is at
    least 2.  A node that delivers 38% of its packets or more is never
    reported. *)
Theorem run_aco_detected_low_delivery self starts choices iterations detected self' n :
  run_aco self starts choices iterations = Some (detected, self') →
  n ∈ detected →
  ∃ node_behavior node,
    get_node_behavior (ACOAlgorithm.network self) n = Some node_behavior
    ∧ nodes (ACOAlgorithm.network self) !! n = Some node
    ∧ is_suspicious node_behavior node = true
    ∧ (Behavior.delivery_ratio node_behavior < 0.38)%Q
    ∧ (2 <= behavior_score node_behavior)%nat.
Proof.
  intros Hrun Hn.
  destruct (run_aco_detected_flagged _ _ _ _ _ _ _ Hrun Hn)
    as (b & node & Hb & Hnode & Hflag).
  exists b, node. split_and!; [done..| |].
  - by apply Qltb_lt, (is_suspicious_low_delivery b node).
  - unfold run_aco in Hrun.
    destruct (run_colony _ _ _ _) as [colony|] eqn:Hcol; simpl in Hrun; [|done].
    apply (run_colony_ants_ind (λ _, True)) in Hcol as [Hnet _]; [|done..].
    apply (detect_attacks_spec _ _ _ n) in Hrun.
    apply Hrun in Hn as (_ & r & row & m & b' & _ & _ & _ & Hb' & _ & _ & Hscore).
    rewrite Hnet in Hb'. by simplify_eq.
Qed.

Lemma run_iterations_trail_length remaining self choices iteration self' bound :
  Forall (λ ant, length (Ant.visited_nodes ant) = bound) (ACOAlgorithm.ants self) →
  run_iterations self choices iteration remaining = Some self' →
  Forall (λ ant, length (Ant.visited_nodes ant) = (bound + remaining)%nat)
    (ACOAlgorithm.ants self').
Proof.
  revert self iteration bound.
  induction remaining as [|k IH]; intros self it bound Hb Hrun; simpl in Hrun.
  - simplify_eq. eapply Forall_impl; [exact Hb|]. intros a Ha. simpl in Ha. lia.
  - destruct (iteration_step _ _) as [self1|] eqn:H1; simpl in Hrun; [|done].
    apply iteration_step_inv in H1 as (_ & _ & Hall).
    assert (Forall (λ ant, length (Ant.visited_nodes ant) = S bound)
              (ACOAlgorithm.ants self1)) as Hb1.
    { clear -Hb Hall.
      induction Hall as [|a a' l l' [r Hr] _ IHl]; [constructor|].
      inversion Hb; subst. constructor; [|by apply IHl].
      apply ant_movement_inv in Hr as (b & node & _ & _ & Hv & _).
      rewrite Hv, length_app. simpl. lia. }
    specialize (IH _ _ _ Hb1 Hrun).
    eapply Forall_impl; [exact IH|]. intros a Ha. simpl in Ha. lia.
Qed.

(** After the loop of [run_aco] the colony has [num_ants] ants; each has a
    trail of exactly [iterations] nodes, and its suspicious list is a
    subsequence of that trail. *)
Theorem run_colony_trails self starts choices iterations colony :
  run_colony self starts choices iterations = Some colony →
  length (ACOAlgorithm.ants colony) = ACOAlgorithm.num_ants self
  ∧ Forall (λ ant, length (Ant.visited_nodes ant) = iterations
                   ∧ Ant.suspicious_nodes ant `sublist_of` Ant.visited_nodes ant)
      (ACOAlgorithm.ants colony).
Proof.
  intros Hrun. pose proof (run_colony_sizes _ _ _ _ _ Hrun) as [Hlen _].
  split; [done|].
  assert (Forall (λ a, Ant.suspicious_nodes a `sublist_of` Ant.visited_nodes a)
            (ACOAlgorithm.ants colony)) as Hsublist.
  { eapply (run_colony_ants_ind
              (λ a, Ant.suspicious_nodes a `sublist_of` Ant.visited_nodes a));
      [| |exact Hrun].
    - intros a [-> ->] _. done.
    - intros s r a a' _ Hm Ha.
      apply ant_movement_inv in Hm as (b & node & _ & _ & -> & -> & _).
      destruct (is_suspicious b node).
      + by apply sublist_app.
      + by apply sublist_inserts_r. }
  unfold run_colony, create_ant_colony in Hrun.
  destruct (place_ants _ _ _ _) as [ants0|] eqn:Hp; simpl in Hrun; [|done].
  apply place_ants_spec in Hp as [_ Hfresh].
  apply (run_iterations_trail_length _ _ _ _ _ 0%nat) in Hrun.
  - apply Forall_and. split; [|done].
    eapply Forall_impl; [exact Hrun|]. done.
  - simpl. eapply Forall_impl; [exact Hfresh|]. by intros a [[-> _] _].
Qed.

Lemma run_iterations_no_ants remaining self choices iteration :
  ACOAlgorithm.ants self = [] →
  ∃ self', run_iterations self choices iteration remaining = Some self'
           ∧ ACOAlgorithm.ants self' = [].
Proof.
  revert self iteration. induction remaining as [|k IH]; intros self it Hnil.
  - by exists self.
  - simpl. unfold iteration_step. rewrite Hnil. simpl.
    unfold update_pheromones. simpl. apply IH. done.
Qed.

(** A colony without ants, and a run without iterations, detect nothing:
    with [num_ants = 0] the call of [run_aco] succeeds on every network and
    returns the empty list, and with [iterations = 0] whatever it returns is
    the empty list. *)
Theorem run_aco_nothing_to_vote self starts choices iterations :
  (ACOAlgorithm.num_ants self = 0%nat →
   ∃ self', run_aco self starts choices iterations = Some ([], self'))
  ∧ (∀ detected self',
       run_aco self starts choices 0 = Some (detected, self') → detected = []).
Proof.
  split.
  - intros Hzero. unfold run_aco, run_colony, create_ant_colony. rewrite Hzero.
    simpl.
    match goal with
    | |- ∃ _, run_iterations ?c _ _ _ ≫= _ = _ =>
        destruct (run_iterations_no_ants iterations c choices 0%nat eq_refl)
          as (colony & -> & Hnil)
    end.
    simpl. unfold detect_attacks. rewrite Hnil. simpl. by eexists.
  - intros detected self' Hrun. apply elem_of_nil_inv. intros n Hn.
    unfold run_aco in Hrun.
    destruct (run_colony _ _ _ _) as [colony|] eqn:Hcol; simpl in Hrun; [|done].
    apply run_colony_sizes in Hcol as [_ Hsizes].
    pose proof (detect_attacks_inv _ _ _ n Hrun Hn) as (_ & Hvotes & _).
    assert (0 < count_in n (all_suspicious (ACOAlgorithm.ants colony)))%nat as Hpos
      by (unfold vote_threshold in Hvotes; lia).
    apply count_in_pos, elem_of_all_suspicious in Hpos as (ant & Hant & Hsus).
    rewrite Forall_forall in Hsizes. specialize (Hsizes _ Hant).
    destruct (Ant.suspicious_nodes ant); [by apply elem_of_nil in Hsus|].
    simpl in Hsizes. lia.
Qed.

(** On a network without nodes a colony with at least one ant cannot be
    placed: [random.randint(0, -1)] raises, and so does [run_aco]. *)
Theorem run_aco_empty_network self starts choices iterations :
  num_nodes (ACOAlgorithm.network self) <= 0 →
  (1 <= ACOAlgorithm.num_ants self)%nat →
  run_aco self starts choices iterations = None.
Proof.
  intros Hnodes Hants. unfold run_aco, run_colony, create_ant_colony.
  destruct (ACOAlgorithm.num_ants self) as [|k]; [lia|]. simpl.
  unfold randint. rewrite (proj2 (Z.leb_gt _ _)) by lia. done.
Qed.

End Runs.

(** ** Runs that cannot fail *)

Lemma np_index_in_range len i :
  0 <= i < Z.of_nat len → np_index len i = Some (Z.to_nat i).
Proof.
  intros Hi. unfold np_index.
  rewrite (proj2 (Z.leb_le 0 i)), (proj2 (Z.ltb_lt i (Z.of_nat len))) by lia. done.
Qed.

Lemma matrix_get_in_range n matrix i j :
  matrix_square n matrix → 0 <= i < Z.of_nat n → 0 <= j < Z.of_nat n →
  is_Some (matrix_get matrix i j).
Proof.
  intros [Hlen Hrows] Hi Hj. unfold matrix_get.
  rewrite Hlen, np_index_in_range by done. simpl.
  destruct (lookup_lt_is_Some_2 matrix (Z.to_nat i)) as [row Hrow]; [lia|].
  rewrite Hrow. simpl.
  rewrite Forall_lookup in Hrows. rewrite (Hrows _ _ Hrow).
  rewrite np_index_in_range by done. simpl.
  apply lookup_lt_is_Some_2. rewrite (Hrows _ _ Hrow). lia.
Qed.

Lemma matrix_add_in_range n matrix i j amount :
  matrix_square n matrix → 0 <= i < Z.of_nat n → 0 <= j < Z.of_nat n →
  ∃ matrix', matrix_add matrix i j amount = Some matrix'
             ∧ matrix_square n matrix'.
Proof.
  intros [Hlen Hrows] Hi Hj. unfold matrix_add.
  rewrite Hlen, np_index_in_range by done. simpl.
  destruct (lookup_lt_is_Some_2 matrix (Z.to_nat i)) as [row Hrow]; [lia|].
  rewrite Hrow. simpl.
  pose proof Hrows as Hrows'. rewrite Forall_lookup in Hrows'.
  pose proof (Hrows' _ _ Hrow) as Hrowlen. rewrite Hrowlen.
  rewrite np_index_in_range by done. simpl.
  destruct (lookup_lt_is_Some_2 row (Z.to_nat j)) as [old Hold]; [lia|].
  rewrite Hold. simpl. eexists. split; [done|]. split.
  - by rewrite length_insert.
  - apply Forall_insert; [done|]. by rewrite length_insert.
Qed.

Lemma evaporate_square n matrix :
  matrix_square n matrix → matrix_square n (evaporate matrix).
Proof.
  intros [Hlen Hrows]. unfold evaporate. split; [by rewrite length_map|].
  apply Forall_fmap. eapply Forall_impl; [exact Hrows|].
  intros row Hrow. simpl. by rewrite length_map.
Qed.

Lemma fold_Qplus_pos l acc :
  Forall (λ q, (0 <= q)%Q) l → (0 <= acc)%Q →
  (0 < fold_left Qplus l acc)%Q →
  (0 < acc)%Q ∨ ∃ q, q ∈ l ∧ (0 < q)%Q.
Proof.
  revert acc. induction l as [|q l IH]; intros acc Hall Hacc Hsum; simpl in Hsum.
  - by left.
  - apply Forall_cons in Hall as [Hq Hall].
    destruct (IH (acc + q)%Q Hall) as [Hpos|(q' & Hin & Hq')]; [lra|done| |].
    + destruct (Qlt_le_dec 0 acc) as [?|Hacc0]; [by left|].
      right. exists q. split; [apply list_elem_of_here|lra].
    + right. exists q'. split; [by apply list_elem_of_further|done].
Qed.

Lemma Qdiv_nonneg p total : (0 <= p)%Q → (0 < total)%Q → (0 <= p / total)%Q.
Proof.
  intros Hp Ht. unfold Qdiv. apply Qmult_le_0_compat; [done|].
  apply Qinv_le_0_compat. lra.
Qed.

Lemma Qdiv_pos p total : (0 < p)%Q → (0 < total)%Q → (0 < p / total)%Q.
Proof.
  intros Hp Ht. unfold Qdiv. apply Qmult_lt_0_compat; [done|].
  by apply Qinv_lt_0_compat.
Qed.

(** [np.random.choice] returns when the weights are not negative, one of
    them is positive and there are as many weights as candidates. *)
Lemma np_random_choice_total a p r :
  length a = length p →
  Forall (λ q, (0 <= q)%Q) p →
  (∃ q, q ∈ p ∧ (0 < q)%Q) →
  is_Some (np_random_choice a p r).
Proof.
  intros Hlen Hall (q & Hq & Hpos). unfold np_random_choice.
  assert (forallb (λ q, Qleb 0 q) p = true) as ->.
  { apply forallb_forall. intros q' Hq'. apply Qle_bool_iff.
    rewrite Forall_forall in Hall. apply Hall. by apply list_elem_of_In. }
  apply lookup_lt_is_Some_2.
  apply list_elem_of_lookup_1 in Hq as [i Hi].
  destruct (lookup_lt_is_Some_2 a i) as [x Hx];
    [rewrite Hlen; by eapply lookup_lt_Some|].
  assert ((x, q) ∈ filter (λ e, Qltb 0 e.2 = true) (zip a p)) as Hin.
  { apply list_elem_of_filter. split.
    - simpl. unfold Qltb. apply negb_true_iff.
      destruct (Qle_bool q 0) eqn:E; [|done].
      apply Qle_bool_iff in E. lra.
    - apply list_elem_of_lookup_2 with i. rewrite lookup_zip_with, Hx. simpl.
      by rewrite Hi. }
  rewrite length_fmap.
  destruct (filter _ (zip a p)) as [|e rest]; [by apply elem_of_nil in Hin|].
  apply Nat.mod_upper_bound. done.
Qed.

Section Totality.
Context {N : Type} `{!NetworkLike N}.
Implicit Types (self : ACOAlgorithm.t N) (ant : Ant.t) (network : N).

Lemma transition_weights_total network matrix current candidates :
  well_formed network →
  matrix_square (Z.to_nat (num_nodes network)) matrix →
  matrix_nonneg matrix →
  0 <= current < num_nodes network →
  Forall (λ n, 0 <= n < num_nodes network) candidates →
  ∃ probabilities,
    transition_weights network matrix current candidates = Some probabilities
    ∧ length probabilities = length candidates
    ∧ Forall (λ q, (0 <= q)%Q) probabilities.
Proof.
  intros (Hkeys & Hbeh & _) Hsq Hnonneg Hcur Hcands.
  induction Hcands as [|c rest Hc _ IH]; simpl.
  - by exists [].
  - unfold transition_weight.
    destruct (matrix_get_in_range _ matrix current c Hsq) as [pher Hpher]; [lia..|].
    rewrite Hpher. simpl.
    destruct (Hbeh c) as [b Hb]; [by apply Hkeys|]. rewrite Hb. simpl.
    destruct IH as (ps & -> & Hlen & Hall). simpl. eexists. split; [done|].
    split; [simpl; by rewrite Hlen|]. constructor; [|done].
    assert (0 <= pher)%Q as Hp.
    { unfold matrix_nonneg, matrix_get in *. bind_cases Hpher.
      rewrite Forall_lookup in Hnonneg. specialize (Hnonneg _ _ E0).
      rewrite Forall_lookup in Hnonneg. by apply (Hnonneg _ _ Hpher). }
    unfold alpha, beta. simpl.
    destruct (Qltb (Behavior.delivery_ratio b) 0.4);
      (apply Qmult_le_0_compat; [done|]; by apply Qle_bool_iff).
Qed.

(** On a well-formed network, with a square matrix without negative entry,
    an ant that is on a node of the network is moved without error and
    stays on the network. *)
Lemma ant_movement_total self r ant :
  well_formed (ACOAlgorithm.network self) →
  matrix_square (Z.to_nat (num_nodes (ACOAlgorithm.network self)))
    (ACOAlgorithm.pheromone_matrix self) →
  matrix_nonneg (ACOAlgorithm.pheromone_matrix self) →
  ant_in_range (ACOAlgorithm.network self) ant →
  ∃ ant', ant_movement self r ant = Some ant'
          ∧ ant_in_range (ACOAlgorithm.network self) ant'.
Proof.
  intros Hwf Hsq Hnonneg (Hcur & Hvis & Hsus).
  pose proof Hwf as (Hkeys & Hbeh & Hnb).
  unfold ant_movement.
  destruct (proj1 (Hkeys _) Hcur) as [node Hnode].
  destruct (Hbeh _ (ex_intro _ node Hnode)) as [b Hb].
  rewrite Hb, Hnode. simpl.
  set (visited := Ant.visited_nodes ant ++ [Ant.current_node ant]).
  set (suspicious := if is_suspicious b node
                     then Ant.suspicious_nodes ant ++ [Ant.current_node ant]
                     else Ant.suspicious_nodes ant).
  assert (Forall (λ n, 0 <= n < num_nodes (ACOAlgorithm.network self)) visited)
    as Hvis' by (apply Forall_app; split; [done|by constructor]).
  assert (Forall (λ n, 0 <= n < num_nodes (ACOAlgorithm.network self)) suspicious)
    as Hsus'.
  { unfold suspicious. destruct (is_suspicious b node); [|done].
    apply Forall_app; split; [done|by constructor]. }
  assert (Forall (λ n, 0 <= n < num_nodes (ACOAlgorithm.network self))
            (available_nodes node visited)) as Havail.
  { apply Forall_forall. intros n Hn. apply available_nodes_neighbors in Hn.
    by apply (Hnb _ _ _ Hnode). }
  destruct (available_nodes node visited) as [|c cs] eqn:Ha.
  - eexists. split; [done|]. split; [simpl; lia|by split].
  - destruct (transition_weights_total _ _ (Ant.current_node ant) (c :: cs)
                Hwf Hsq Hnonneg Hcur Havail) as (ps & -> & Hlen & Hall).
    simpl. destruct (Qltb 0 (Qsum ps)) eqn:Hsum.
    + apply Qltb_lt in Hsum.
      destruct (np_random_choice_total (c :: cs)
                  (map (λ p, (p / Qsum ps)%Q) ps) r) as [next Hnext].
      * by rewrite length_map.
      * apply Forall_fmap. eapply Forall_impl; [exact Hall|].
        intros q Hq. simpl. by apply Qdiv_nonneg.
      * destruct (fold_Qplus_pos ps 0 Hall) as [?|(q & Hq & Hpos)]; [lra|done|lra|].
        exists (q / Qsum ps)%Q. split; [|by apply Qdiv_pos].
        apply list_elem_of_fmap. by exists q.
      * rewrite Hnext. simpl. eexists. split; [done|].
        split; [|by split]. simpl. apply np_random_choice_elem in Hnext.
        rewrite Forall_forall in Havail. by apply Havail.
    + eexists. split; [done|]. split; [simpl; lia|by split].
Qed.

Lemma move_ants_total self draws k ants :
  well_formed (ACOAlgorithm.network self) →
  matrix_square (Z.to_nat (num_nodes (ACOAlgorithm.network self)))
    (ACOAlgorithm.pheromone_matrix self) →
  matrix_nonneg (ACOAlgorithm.pheromone_matrix self) →
  Forall (ant_in_range (ACOAlgorithm.network self)) ants →
  ∃ ants', move_ants self draws k ants = Some ants'
           ∧ Forall (ant_in_range (ACOAlgorithm.network self)) ants'.
Proof.
  intros Hwf Hsq Hnonneg Hall. revert k.
  induction Hall as [|ant rest Hant _ IH]; intros k; simpl.
  - by exists [].
  - destruct (ant_movement_total self (draws k) ant Hwf Hsq Hnonneg Hant)
      as (ant' & -> & Hant').
    simpl. destruct (IH (S k)) as (rest' & -> & Hrest'). simpl.
    eexists. split; [done|]. by constructor.
Qed.

Lemma deposit_trail_total n matrix visited suspicious amount :
  matrix_square n matrix →
  Forall (λ k, 0 <= k < Z.of_nat n) visited →
  ∃ matrix', deposit_trail matrix visited suspicious amount = Some matrix'
             ∧ matrix_square n matrix'.
Proof.
  intros Hsq Hvis. revert matrix Hsq.
  induction Hvis as [|current rest Hc Hrest IH]; intros matrix Hsq.
  - by exists matrix.
  - destruct rest as [|next_node rest']; [by exists matrix|].
    cbn [deposit_trail]. apply Forall_cons in Hrest as Hn. destruct Hn as [Hn _].
    destruct (bool_decide (next_node ∈ suspicious)).
    + destruct (matrix_add_in_range n matrix current next_node
                  (inject_Z amount) Hsq Hc Hn) as (m1 & -> & Hsq1).
      simpl. by apply IH.
    + simpl. by apply IH.
Qed.

Lemma deposit_row_total n matrix node neighbors amount :
  matrix_square n matrix →
  0 <= node < Z.of_nat n →
  Forall (λ k, 0 <= k < Z.of_nat n) neighbors →
  ∃ matrix', deposit_row matrix node neighbors amount = Some matrix'
             ∧ matrix_square n matrix'.
Proof.
  intros Hsq Hnode Hnb. revert matrix Hsq.
  induction Hnb as [|neighbor rest Hk _ IH]; intros matrix Hsq; simpl.
  - by exists matrix.
  - destruct (matrix_add_in_range n matrix node neighbor
                (inject_Z amount * 0.5)%Q Hsq Hnode Hk) as (m1 & -> & Hsq1).
    simpl. by apply IH.
Qed.

Lemma deposit_neighbors_total network matrix suspicious amount :
  well_formed network →
  matrix_square (Z.to_nat (num_nodes network)) matrix →
  Forall (λ k, 0 <= k < num_nodes network) suspicious →
  ∃ matrix', deposit_neighbors network matrix suspicious amount = Some matrix'
             ∧ matrix_square (Z.to_nat (num_nodes network)) matrix'.
Proof.
  intros (Hkeys & _ & Hnb) Hsq Hsus. revert matrix Hsq.
  induction Hsus as [|node rest Hnode _ IH]; intros matrix Hsq; simpl.
  - by exists matrix.
  - destruct (proj1 (Hkeys _) Hnode) as [obj Hobj]. rewrite Hobj. simpl.
    destruct (deposit_row_total _ matrix node (SensorNode.neighbors obj) amount Hsq)
      as (m1 & -> & Hsq1); [lia| |].
    + apply Forall_forall. intros k Hk. specialize (Hnb _ _ _ Hobj Hk). lia.
    + simpl. by apply IH.
Qed.

Lemma deposit_ants_total network matrix ants :
  well_formed network →
  matrix_square (Z.to_nat (num_nodes network)) matrix →
  Forall (ant_in_range network) ants →
  ∃ matrix', deposit_ants network matrix ants = Some matrix'
             ∧ matrix_square (Z.to_nat (num_nodes network)) matrix'.
Proof.
  intros Hwf Hsq Hants. revert matrix Hsq.
  induction Hants as [|ant rest (Hcur & Hvis & Hsus) _ IH]; intros matrix Hsq; simpl.
  - by exists matrix.
  - assert (∃ m1, deposit_ant network matrix ant = Some m1
                  ∧ matrix_square (Z.to_nat (num_nodes network)) m1)
      as (m1 & -> & Hsq1).
    { unfold deposit_ant. destruct (Ant.suspicious_nodes ant) as [|s l] eqn:Hs;
        [by exists matrix|].
      destruct (deposit_trail_total _ matrix (Ant.visited_nodes ant) (s :: l)
                  (Q_deposit * Z.of_nat (length (s :: l))) Hsq)
        as (m2 & -> & Hsq2).
      { eapply Forall_impl; [exact Hvis|]. intros k Hk. simpl in Hk. lia. }
      exact (deposit_neighbors_total network m2 (s :: l) _ Hwf Hsq2 Hsus). }
    simpl. by apply IH.
Qed.

(** One pass of the loop cannot fail on a well-formed network and keeps
    what the next pass needs. *)
Lemma iteration_step_total self draws :
  well_formed (ACOAlgorithm.network self) →
  matrix_square (Z.to_nat (num_nodes (ACOAlgorithm.network self)))
    (ACOAlgorithm.pheromone_matrix self) →
  matrix_nonneg (ACOAlgorithm.pheromone_matrix self) →
  Forall (ant_in_range (ACOAlgorithm.network self)) (ACOAlgorithm.ants self) →
  ∃ self',
    iteration_step self draws = Some self'
    ∧ ACOAlgorithm.network self' = ACOAlgorithm.network self
    ∧ matrix_square (Z.to_nat (num_nodes (ACOAlgorithm.network self)))
        (ACOAlgorithm.pheromone_matrix self')
    ∧ matrix_nonneg (ACOAlgorithm.pheromone_matrix self')
    ∧ Forall (ant_in_range (ACOAlgorithm.network self)) (ACOAlgorithm.ants self').
Proof.
  intros Hwf Hsq Hnonneg Hants.
  destruct (move_ants_total self draws 0 _ Hwf Hsq Hnonneg Hants)
    as (ants1 & Hmove & Hants1).
  destruct (deposit_ants_total (ACOAlgorithm.network self)
              (evaporate (ACOAlgorithm.pheromone_matrix self)) ants1 Hwf
              (evaporate_square _ _ Hsq) Hants1) as (m1 & Hdep & Hsq1).
  assert (iteration_step self draws
          = Some {| ACOAlgorithm.network := ACOAlgorithm.network self;
                    ACOAlgorithm.num_ants := ACOAlgorithm.num_ants self;
                    ACOAlgorithm.ants := ants1;
                    ACOAlgorithm.pheromone_matrix := m1;
                    ACOAlgorithm.detected_attacks :=
                      ACOAlgorithm.detected_attacks self |}) as Hstep.
  { unfold iteration_step. rewrite Hmove. simpl. unfold update_pheromones. simpl.
    by rewrite Hdep. }
  eexists. split; [exact Hstep|]. split_and!; [done..| |done].
  by apply (iteration_step_nonneg _ _ _ Hstep).
Qed.

Lemma run_iterations_total remaining self choices iteration :
  well_formed (ACOAlgorithm.network self) →
  matrix_square (Z.to_nat (num_nodes (ACOAlgorithm.network self)))
    (ACOAlgorithm.pheromone_matrix self) →
  matrix_nonneg (ACOAlgorithm.pheromone_matrix self) →
  Forall (ant_in_range (ACOAlgorithm.network self)) (ACOAlgorithm.ants self) →
  ∃ self',
    run_iterations self choices iteration remaining = Some self'
    ∧ ACOAlgorithm.network self' = ACOAlgorithm.network self
    ∧ matrix_square (Z.to_nat (num_nodes (ACOAlgorithm.network self)))
        (ACOAlgorithm.pheromone_matrix self')
    ∧ Forall (ant_in_range (ACOAlgorithm.network self)) (ACOAlgorithm.ants self').
Proof.
  revert self iteration.
  induction remaining as [|k IH]; intros self it Hwf Hsq Hnonneg Hants.
  - by exists self.
  - simpl.
    destruct (iteration_step_total self (choices it) Hwf Hsq Hnonneg Hants)
      as (self1 & -> & Hnet & Hsq1 & Hnonneg1 & Hants1).
    simpl. rewrite <- Hnet in *. destruct (IH self1 (S it)) as (self' & Hrun & ?);
      [done..|].
    by exists self'.
Qed.

Lemma detect_loop_total self items detected :
  well_formed (ACOAlgorithm.network self) →
  matrix_square (Z.to_nat (num_nodes (ACOAlgorithm.network self)))
    (ACOAlgorithm.pheromone_matrix self) →
  Forall (λ item, 0 <= item.1 < num_nodes (ACOAlgorithm.network self)) items →
  is_Some (detect_loop self items detected).
Proof.
  intros (Hkeys & Hbeh & _) [Hlen Hrows] Hitems. revert detected.
  induction Hitems as [|[node_id votes] rest Hid _ IH]; intros detected; simpl.
  - done.
  - simpl in Hid.
    assert (is_Some (consensus self node_id votes)) as [ok ->]; [|apply IH].
    unfold consensus. rewrite Hlen, np_index_in_range by lia. simpl.
    destruct (lookup_lt_is_Some_2 (ACOAlgorithm.pheromone_matrix self)
                (Z.to_nat node_id)) as [row Hrow]; [lia|].
    rewrite Hrow. simpl.
    rewrite Forall_lookup in Hrows. specialize (Hrows _ _ Hrow).
    destruct row as [|q row]; [simpl in Hrows; lia|]. simpl.
    destruct (Hbeh node_id) as [b ->]; [by apply Hkeys|]. done.
Qed.

End Totality.

Lemma fold_vote_add_keys l vote_count k :
  k ∈ (fold_left vote_add l vote_count).*1 → k ∈ vote_count.*1 ∨ k ∈ l.
Proof.
  revert vote_count. induction l as [|m l IH]; intros vote_count Hk; simpl in Hk.
  - by left.
  - apply IH in Hk as [Hk|Hk]; [|right; by apply list_elem_of_further].
    rewrite vote_add_keys in Hk. case_bool_decide; [by left|].
    apply elem_of_app in Hk as [?|Hk]; [by left|].
    apply list_elem_of_singleton in Hk as ->. right. apply list_elem_of_here.
Qed.

Lemma place_ants_total {N} `{!NetworkLike N} (network : N) starts k count :
  1 <= num_nodes network →
  ∃ ants, place_ants network starts k count = Some ants
          ∧ Forall (ant_in_range network) ants.
Proof.
  intros Hn. revert k. induction count as [|c IH]; intros k; simpl.
  - by exists [].
  - destruct (randint 0 (num_nodes network - 1) (starts k)) as [s|] eqn:Hs.
    + simpl. destruct (IH (S k)) as (rest & -> & Hrest). simpl.
      eexists. split; [done|]. constructor; [|done].
      apply randint_range in Hs. split; [simpl; lia|by split].
    + unfold randint in Hs. rewrite (proj2 (Z.leb_le _ _)) in Hs by lia. done.
Qed.

Lemma run_aco_succeeds {N} `{!NetworkLike N} (self : ACOAlgorithm.t N)
    starts choices iterations :
  well_formed (ACOAlgorithm.network self) →
  1 <= num_nodes (ACOAlgorithm.network self) →
  matrix_square (Z.to_nat (num_nodes (ACOAlgorithm.network self)))
    (ACOAlgorithm.pheromone_matrix self) →
  matrix_nonneg (ACOAlgorithm.pheromone_matrix self) →
  ∃ detected self',
    run_aco self starts choices iterations = Some (detected, self')
    ∧ matrix_square (Z.to_nat (num_nodes (ACOAlgorithm.network self)))
        (ACOAlgorithm.pheromone_matrix self')
    ∧ matrix_nonneg (ACOAlgorithm.pheromone_matrix self')
    ∧ NoDup detected
    ∧ ∀ n, n ∈ detected → 0 <= n < num_nodes (ACOAlgorithm.network self).
Proof.
  intros Hwf Hn Hsq Hnonneg. unfold run_aco, run_colony, create_ant_colony.
  destruct (place_ants_total (ACOAlgorithm.network self) starts 0
              (ACOAlgorithm.num_ants self) Hn) as (ants0 & -> & Hants0).
  simpl.
  match goal with
  | |- ∃ _ _, run_iterations ?c _ _ _ ≫= _ = _ ∧ _ =>
      destruct (run_iterations_total iterations c choices 0%nat)
        as (colony & Hrun & Hnet & Hsq' & Hants);
      [done..|];
      pose proof (run_iterations_nonneg _ _ _ _ _ Hrun Hnonneg) as Hnonneg'
  end.
  rewrite Hrun. simpl in *. unfold detect_attacks.
  assert (∀ k, k ∈ (count_votes (all_suspicious (ACOAlgorithm.ants colony))).*1 →
               0 <= k < num_nodes (ACOAlgorithm.network self)) as Hvoted.
  { intros k Hk.
    apply fold_vote_add_keys in Hk as [Hk|Hk]; [by apply elem_of_nil in Hk|].
    apply elem_of_all_suspicious in Hk as (ant & Hant & Hsus).
    rewrite Forall_forall in Hants. destruct (Hants _ Hant) as (_ & _ & Hall).
    rewrite Forall_forall in Hall. by apply Hall. }
  destruct (detect_loop_total colony
              (count_votes (all_suspicious (ACOAlgorithm.ants colony))) [])
    as [detected Hdetect].
  - by rewrite Hnet.
  - by rewrite Hnet.
  - apply Forall_forall. intros [k v] Hkv. simpl. rewrite Hnet. apply Hvoted.
    apply list_elem_of_fmap. by exists (k, v).
  - rewrite Hdetect. simpl. eexists _, _. split_and!; [done..| |].
    + eapply detect_loop_NoDup; [exact Hdetect|]. simpl. apply count_votes_NoDup.
    + intros n Hin.
      destruct (detect_loop_elem _ _ _ _ _ Hdetect Hin) as [Hnil|(votes & Hv & _)];
        [by apply elem_of_nil in Hnil|].
      apply Hvoted. apply list_elem_of_fmap. by exists (n, votes).
Qed.

(** On a well-formed network with at least one node, started with a
    square matrix without negative entry (as the constructor builds it, or
    as an earlier run left it), [run_aco] raises no exception, whatever the
    random draws, the number of ants and the number of iterations. *)
Theorem run_aco_total {N} `{!NetworkLike N} (self : ACOAlgorithm.t N)
    starts choices iterations :
  well_formed (ACOAlgorithm.network self) →
  1 <= num_nodes (ACOAlgorithm.network self) →
  matrix_square (Z.to_nat (num_nodes (ACOAlgorithm.network self)))
    (ACOAlgorithm.pheromone_matrix self) →
  matrix_nonneg (ACOAlgorithm.pheromone_matrix self) →
  ∃ detected self',
    run_aco self starts choices iterations = Some (detected, self')
    ∧ matrix_square (Z.to_nat (num_nodes (ACOAlgorithm.network self)))
        (ACOAlgorithm.pheromone_matrix self')
    ∧ matrix_nonneg (ACOAlgorithm.pheromone_matrix self').
Proof.
  intros Hwf Hn Hsq Hnonneg.
  destruct (run_aco_succeeds self starts choices iterations Hwf Hn Hsq Hnonneg)
    as (detected & self' & Hrun & Hsq' & Hnonneg' & _).
  by exists detected, self'.
Qed.

(** The constructor of the colony builds what [run_aco_succeeds] asks for. *)
Lemma init_square {N} `{!NetworkLike N} (network : N) num_ants self :
  init network num_ants = Some self →
  ACOAlgorithm.network self = network
  ∧ matrix_square (Z.to_nat (num_nodes network)) (ACOAlgorithm.pheromone_matrix self)
  ∧ matrix_nonneg (ACOAlgorithm.pheromone_matrix self).
Proof.
  unfold init. case_match; [|done]. intros [= <-]. simpl. split_and!; [done| |].
  - split; [by rewrite length_replicate|].
    apply Forall_replicate. by rewrite length_replicate.
  - apply Forall_replicate, Forall_replicate. lra.
Qed.

(** ** Deposits only add *)






Section Deposits.
Context {N : Type} `{!NetworkLike N}.
Implicit Types (self : ACOAlgorithm.t N) (ant : Ant.t) (network : N).




End Deposits.

(** * Further properties of the network *)

(** ** [_create_network] *)

Lemma place_nodes_lookup_out placement i count nodes node_id :
  ¬ (Z.of_nat i <= node_id < Z.of_nat (i + count)) →
  WirelessSensorNetwork.place_nodes placement i count nodes !! node_id
  = nodes !! node_id.
Proof.
  revert i nodes. induction count as [|count IH]; intros i nodes Hout; simpl; [done|].
  destruct (placement i) as [[x y] energy]. rewrite IH by lia.
  apply lookup_insert_ne. lia.
Qed.

Lemma place_nodes_lookup_in placement i count nodes m :
  (i <= m < i + count)%nat →
  WirelessSensorNetwork.place_nodes placement i count nodes !! Z.of_nat m
  = Some (placed_node placement m).
Proof.
  revert i nodes. induction count as [|count IH]; intros i nodes Hin; simpl; [lia|].
  destruct (placement i) as [[x y] energy] eqn:Hp.
  destruct (decide (m = i)) as [->|Hne].
  - rewrite place_nodes_lookup_out by lia. rewrite lookup_insert_eq.
    unfold placed_node. by rewrite Hp.
  - apply IH. lia.
Qed.

Lemma link_row_total nodes i js :
  is_Some (nodes !! i) →
  Forall (λ j, is_Some (nodes !! j)) js →
  ∃ nodes', WirelessSensorNetwork.link_row nodes i js = Some nodes'
            ∧ ∀ k, is_Some (nodes' !! k) ↔ is_Some (nodes !! k).
Proof.
  intros Hi Hjs. revert nodes Hi Hjs.
  induction js as [|j rest IH]; intros nodes [node_i Hi] Hjs; simpl.
  - by exists nodes.
  - apply Forall_cons in Hjs as [[node_j Hj] Hrest]. rewrite Hi, Hj. simpl.
    set (nodes1 := if WirelessSensorNetwork.in_communication_range node_i node_j
                   then alter (WirelessSensorNetwork.add_neighbor i) j
                          (alter (WirelessSensorNetwork.add_neighbor j) i nodes)
                   else nodes).
    assert (∀ k, is_Some (nodes1 !! k) ↔ is_Some (nodes !! k)) as Hkeys.
    { intros k. unfold nodes1.
      destruct (WirelessSensorNetwork.in_communication_range node_i node_j); [|done].
      by rewrite !lookup_alter_is_Some. }
    destruct (IH nodes1) as (nodes' & -> & Hkeys').
    + apply Hkeys. by exists node_i.
    + eapply Forall_impl; [exact Hrest|]. intros k Hk. by apply Hkeys.
    + exists nodes'. split; [done|]. intros k. by rewrite Hkeys', Hkeys.
Qed.

Lemma link_rows_total nodes num_nodes rows :
  (∀ k, 0 <= k < num_nodes → is_Some (nodes !! k)) →
  Forall (λ i, 0 <= i < num_nodes) rows →
  ∃ nodes', WirelessSensorNetwork.link_rows nodes num_nodes rows = Some nodes'
            ∧ ∀ k, is_Some (nodes' !! k) ↔ is_Some (nodes !! k).
Proof.
  intros Hkeys Hrows. revert nodes Hkeys.
  induction Hrows as [|i rest Hi _ IH]; intros nodes Hkeys; simpl.
  - by exists nodes.
  - destruct (link_row_total nodes i (seqZ (i + 1) (num_nodes - (i + 1))))
      as (nodes1 & -> & Hkeys1).
    + by apply Hkeys.
    + apply Forall_forall. intros j Hj. apply elem_of_seqZ in Hj.
      apply Hkeys. lia.
    + simpl. destruct (IH nodes1) as (nodes' & -> & Hkeys').
      * intros k Hk. by apply Hkeys1, Hkeys.
      * exists nodes'. split; [done|]. intros k. by rewrite Hkeys', Hkeys1.
Qed.

(** [get_node_behavior] answers for every key of the node dictionary. *)
Lemma get_node_behavior_is_Some (self : WirelessSensorNetwork.t) node_id :
  is_Some (WirelessSensorNetwork.nodes self !! node_id) →
  is_Some (WirelessSensorNetwork.get_node_behavior self node_id).
Proof.
  intros [node Hnode]. unfold WirelessSensorNetwork.get_node_behavior.
  rewrite Hnode. done.
Qed.

Lemma create_network_succeeds self placement :
  WirelessSensorNetwork.nodes self = ∅ →
  ∃ network,
    WirelessSensorNetwork._create_network self placement = Some network
    ∧ WirelessSensorNetwork.num_nodes network = WirelessSensorNetwork.num_nodes self
    ∧ WirelessSensorNetwork.sinkhole_nodes network
      = WirelessSensorNetwork.sinkhole_nodes self
    ∧ well_formed network.
Proof.
  intros Hempty.
  set (n := WirelessSensorNetwork.num_nodes self).
  set (placed := WirelessSensorNetwork.place_nodes placement 0 (Z.to_nat n)
                   (WirelessSensorNetwork.nodes self)).
  assert (∀ k, 0 <= k < n ↔ is_Some (placed !! k)) as Hplaced.
  { intros k. split.
    - intros Hk. unfold placed. rewrite <- (Z2Nat.id k) by lia.
      rewrite place_nodes_lookup_in by lia. done.
    - intros [node Hnode]. unfold placed in Hnode.
      apply place_nodes_lookup in Hnode as [[Hrange _]|Hnode]; [lia|].
      by rewrite Hempty, lookup_empty in Hnode. }
  destruct (link_rows_total placed n (seqZ 0 n)) as (linked & Hlink & Hkeys).
  { intros k Hk. by apply Hplaced. }
  { apply Forall_forall. intros i Hi. apply elem_of_seqZ in Hi. lia. }
  assert (WirelessSensorNetwork._create_network self placement
          = Some {| WirelessSensorNetwork.num_nodes := n;
                    WirelessSensorNetwork.network_size :=
                      WirelessSensorNetwork.network_size self;
                    WirelessSensorNetwork.nodes := linked;
                    WirelessSensorNetwork.sinkhole_nodes :=
                      WirelessSensorNetwork.sinkhole_nodes self;
                    WirelessSensorNetwork.total_packets_sent :=
                      WirelessSensorNetwork.total_packets_sent self;
                    WirelessSensorNetwork.total_packets_received :=
                      WirelessSensorNetwork.total_packets_received self |})
    as Hcreate.
  { unfold WirelessSensorNetwork._create_network. fold n. fold placed.
    by rewrite Hlink. }
  eexists. split; [exact Hcreate|]. split_and!; [done..|].
  destruct (create_network_keys_in_range _ _ _ Hempty Hcreate) as [_ Hnb].
  split_and!; [| |done].
  - intros k. simpl. by rewrite Hkeys, <- Hplaced.
  - intros k. apply get_node_behavior_is_Some.
Qed.

Lemma in_communication_range_sym a b :
  WirelessSensorNetwork.in_communication_range a b
  = WirelessSensorNetwork.in_communication_range b a.
Proof.
  unfold WirelessSensorNetwork.in_communication_range.
  apply Qleb_comp; [|reflexivity]. simpl. ring.
Qed.

Lemma in_communication_range_places a a' b b' :
  SensorNode.x a = SensorNode.x a' → SensorNode.y a = SensorNode.y a' →
  SensorNode.x b = SensorNode.x b' → SensorNode.y b = SensorNode.y b' →
  WirelessSensorNetwork.in_communication_range a b
  = WirelessSensorNetwork.in_communication_range a' b'.
Proof.
  unfold WirelessSensorNetwork.in_communication_range. by intros -> -> -> ->.
Qed.

Lemma in_reach_sym placement a b : in_reach placement a b ↔ in_reach placement b a.
Proof. unfold in_reach. by rewrite in_communication_range_sym. Qed.

(** The two appends of one pair. *)
Lemma link_pair_lookup (nodes : gmap Z SensorNode.t) i j a :
  i ≠ j →
  alter (WirelessSensorNetwork.add_neighbor i) j
    (alter (WirelessSensorNetwork.add_neighbor j) i nodes) !! a
  = (λ node,
       if decide (a = i) then WirelessSensorNetwork.add_neighbor j node
       else if decide (a = j) then WirelessSensorNetwork.add_neighbor i node
       else node) <$> nodes !! a.
Proof.
  intros Hij. rewrite !lookup_alter.
  destruct (decide (j = a)) as [->|Hja].
  - rewrite (decide_False (P := i = a)) by done.
    destruct (nodes !! a); [|done]. simpl.
    rewrite decide_False by done. by rewrite decide_True.
  - destruct (decide (i = a)) as [->|Hia].
    + destruct (nodes !! a); [|done]. simpl. by rewrite decide_True.
    + destruct (nodes !! a); [|done]. simpl.
      rewrite decide_False by done. by rewrite decide_False.
Qed.

Lemma link_pair_neighbor_of (nodes : gmap Z SensorNode.t) i j a b :
  i ≠ j → is_Some (nodes !! i) → is_Some (nodes !! j) →
  neighbor_of
    (alter (WirelessSensorNetwork.add_neighbor i) j
       (alter (WirelessSensorNetwork.add_neighbor j) i nodes)) a b
  ↔ neighbor_of nodes a b ∨ (a = i ∧ b = j) ∨ (a = j ∧ b = i).
Proof.
  intros Hij [ni Hi] [nj Hj]. unfold neighbor_of.
  setoid_rewrite (link_pair_lookup nodes i j a Hij). split.
  - intros (node' & Hl & Hb).
    destruct (nodes !! a) as [node|] eqn:Ha; simpl in Hl; [|done]. simplify_eq.
    destruct (decide (a = i)) as [->|?]; [|destruct (decide (a = j)) as [->|?]].
    + simpl in Hb. apply elem_of_app in Hb as [Hb|Hb]; [left; by exists node|].
      apply list_elem_of_singleton in Hb. by right; left.
    + simpl in Hb. apply elem_of_app in Hb as [Hb|Hb]; [left; by exists node|].
      apply list_elem_of_singleton in Hb. by right; right.
    + left. by exists node.
  - intros [(node & Ha & Hb)|[[-> ->]|[-> ->]]].
    + rewrite Ha. simpl. eexists. split; [done|].
      destruct (decide (a = i)); [|destruct (decide (a = j))]; simpl;
        try (apply elem_of_app; by left); done.
    + rewrite Hi. simpl. eexists. split; [done|].
      rewrite decide_True by done. simpl. apply elem_of_app. right.
      apply list_elem_of_here.
    + rewrite Hj. simpl. eexists. split; [done|].
      rewrite decide_False by done. rewrite decide_True by done. simpl.
      apply elem_of_app. right. apply list_elem_of_here.
Qed.

Lemma link_pair_places placement (nodes : gmap Z SensorNode.t) i j :
  i ≠ j → places_kept placement nodes →
  places_kept placement
    (alter (WirelessSensorNetwork.add_neighbor i) j
       (alter (WirelessSensorNetwork.add_neighbor j) i nodes)).
Proof.
  intros Hij Hp a node' Hl. rewrite link_pair_lookup in Hl by done.
  destruct (nodes !! a) as [node|] eqn:Ha; simpl in Hl; [|done]. simplify_eq.
  specialize (Hp _ _ Ha).
  destruct (decide (a = i)); [|destruct (decide (a = j))]; exact Hp.
Qed.

Lemma link_row_neighbor_of placement nodes i js nodes' :
  WirelessSensorNetwork.link_row nodes i js = Some nodes' →
  i ∉ js → places_kept placement nodes →
  places_kept placement nodes'
  ∧ ∀ a b, neighbor_of nodes' a b ↔
           neighbor_of nodes a b
           ∨ (((a = i ∧ b ∈ js) ∨ (b = i ∧ a ∈ js)) ∧ in_reach placement a b).
Proof.
  revert nodes. induction js as [|j rest IH]; intros nodes Hl Hi Hp; simpl in Hl.
  - simplify_eq. split; [done|]. intros a b. split; [by left|].
    intros [?|[[[_ H]|[_ H]] _]]; [done|by apply elem_of_nil in H..].
  - apply not_elem_of_cons in Hi as [Hij Hi].
    destruct (nodes !! i) as [node_i|] eqn:Hni; simpl in Hl; [|done].
    destruct (nodes !! j) as [node_j|] eqn:Hnj; simpl in Hl; [|done].
    assert (WirelessSensorNetwork.in_communication_range node_i node_j = true
            ↔ in_reach placement i j) as Hreach.
    { unfold in_reach. destruct (Hp _ _ Hni) as (_ & Hxi & Hyi).
      destruct (Hp _ _ Hnj) as (_ & Hxj & Hyj).
      by rewrite (in_communication_range_places _ _ _ _ Hxi Hyi Hxj Hyj). }
    destruct (WirelessSensorNetwork.in_communication_range node_i node_j).
    + destruct (IH _ Hl Hi (link_pair_places placement nodes i j Hij Hp))
        as [Hp' Hnb].
      split; [done|]. intros a b. rewrite Hnb.
      rewrite link_pair_neighbor_of by done.
      assert (in_reach placement i j) as Hij' by (by apply Hreach).
      pose proof (proj1 (in_reach_sym placement i j) Hij') as Hji'.
      split.
      * intros [[?|[[-> ->]|[-> ->]]]|[[[-> Hb]|[-> Ha]] Hr]].
        -- by left.
        -- right. split; [left; split; [done|apply list_elem_of_here]|done].
        -- right. split; [right; split; [done|apply list_elem_of_here]|done].
        -- right. split; [left; split; [done|by apply list_elem_of_further]|done].
        -- right. split; [right; split; [done|by apply list_elem_of_further]|done].
      * intros [?|[[[-> Hb]|[-> Ha]] Hr]]; [by left; left| |].
        -- apply elem_of_cons in Hb as [->|Hb]; [left; right; by left|].
           right. split; [by left|done].
        -- apply elem_of_cons in Ha as [->|Ha]; [left; right; by right|].
           right. split; [by right|done].
    + destruct (IH _ Hl Hi Hp) as [Hp' Hnb]. split; [done|].
      intros a b. rewrite Hnb.
      assert (¬ in_reach placement i j) as Hij' by (intros H; by apply Hreach in H).
      assert (¬ in_reach placement j i) as Hji'
        by (intros H; by apply in_reach_sym in H).
      split.
      * intros [?|[[[-> Hb]|[-> Ha]] Hr]]; [by left| |].
        -- right. split; [left; split; [done|by apply list_elem_of_further]|done].
        -- right. split; [right; split; [done|by apply list_elem_of_further]|done].
      * intros [?|[[[-> Hb]|[-> Ha]] Hr]]; [by left| |].
        -- apply elem_of_cons in Hb as [->|Hb]; [done|].
           right. split; [by left|done].
        -- apply elem_of_cons in Ha as [->|Ha]; [done|].
           right. split; [by right|done].
Qed.

Lemma link_rows_neighbor_of placement nodes num_nodes rows nodes' :
  WirelessSensorNetwork.link_rows nodes num_nodes rows = Some nodes' →
  places_kept placement nodes →
  places_kept placement nodes'
  ∧ ∀ a b, neighbor_of nodes' a b ↔
           neighbor_of nodes a b
           ∨ ∃ i, i ∈ rows
                  ∧ ((a = i ∧ i < b < num_nodes) ∨ (b = i ∧ i < a < num_nodes))
                  ∧ in_reach placement a b.
Proof.
  revert nodes. induction rows as [|i rest IH]; intros nodes Hl Hp; simpl in Hl.
  - simplify_eq. split; [done|]. intros a b. split; [by left|].
    intros [?|(i & Hi & _)]; [done|by apply elem_of_nil in Hi].
  - destruct (WirelessSensorNetwork.link_row _ _ _) as [nodes1|] eqn:Hrow;
      simpl in Hl; [|done].
    destruct (link_row_neighbor_of placement _ _ _ _ Hrow) as [Hp1 Hnb1]; [|done|].
    { intros Hin. apply elem_of_seqZ in Hin. lia. }
    destruct (IH _ Hl Hp1) as [Hp' Hnb']. split; [done|].
    intros a b. rewrite Hnb', Hnb1. split.
    + intros [[?|[Hpair Hr]]|(k & Hk & Hpair & Hr)].
      * by left.
      * right. exists i. split; [apply list_elem_of_here|]. split; [|done].
        destruct Hpair as [[-> Hb]|[-> Ha]].
        -- left. split; [done|]. apply elem_of_seqZ in Hb. lia.
        -- right. split; [done|]. apply elem_of_seqZ in Ha. lia.
      * right. exists k. split; [by apply list_elem_of_further|done].
    + intros [?|(k & Hk & Hpair & Hr)]; [by left; left|].
      apply elem_of_cons in Hk as [->|Hk].
      * left. right. split; [|done].
        destruct Hpair as [[-> Hb]|[-> Ha]].
        -- left. split; [done|]. apply elem_of_seqZ. lia.
        -- right. split; [done|]. apply elem_of_seqZ. lia.
      * right. by exists k.
Qed.

(** In the network built by [_create_network], node [b] is in the
    neighbour list of node [a] exactly when both are nodes of the network,
    they are different and their places are within the communication range:
    the neighbour relation is symmetric and no node is its own neighbour. *)
Theorem create_network_neighbors self placement network a b :
  WirelessSensorNetwork.nodes self = ∅ →
  WirelessSensorNetwork._create_network self placement = Some network →
  (neighbor_of (WirelessSensorNetwork.nodes network) a b ↔
   0 <= a < WirelessSensorNetwork.num_nodes self
   ∧ 0 <= b < WirelessSensorNetwork.num_nodes self
   ∧ a ≠ b
   ∧ in_reach placement a b)
  ∧ (neighbor_of (WirelessSensorNetwork.nodes network) a b ↔
     neighbor_of (WirelessSensorNetwork.nodes network) b a)
  ∧ ¬ neighbor_of (WirelessSensorNetwork.nodes network) a a.
Proof.
  intros Hempty Hc.
  assert (∀ a b,
            neighbor_of (WirelessSensorNetwork.nodes network) a b ↔
            0 <= a < WirelessSensorNetwork.num_nodes self
            ∧ 0 <= b < WirelessSensorNetwork.num_nodes self
            ∧ a ≠ b
            ∧ in_reach placement a b) as Hiff.
  { clear a b. unfold WirelessSensorNetwork._create_network in Hc.
    set (n := WirelessSensorNetwork.num_nodes self) in *.
    destruct (WirelessSensorNetwork.link_rows _ _ _) as [linked|] eqn:Hl;
      simpl in Hc; [|done].
    simplify_eq. simpl.
    assert (∀ k node,
              WirelessSensorNetwork.place_nodes placement 0 (Z.to_nat n)
                (WirelessSensorNetwork.nodes self) !! k = Some node →
              0 <= k ∧ node = placed_node placement (Z.to_nat k)) as Hplaced.
    { intros k node Hk. pose proof Hk as Hk'.
      apply place_nodes_lookup in Hk' as [[Hrange _]|Hk'];
        [|by rewrite Hempty, lookup_empty in Hk'].
      split; [lia|]. rewrite <- (Z2Nat.id k) in Hk by lia.
      rewrite place_nodes_lookup_in in Hk by lia. by simplify_eq. }
    destruct (link_rows_neighbor_of placement _ _ _ _ Hl) as [_ Hnb].
    { intros k node Hk. destruct (Hplaced _ _ Hk) as [? ->]. done. }
    intros a b. rewrite Hnb. split.
    - intros [(node & Hk & Hb)|(i & Hi & Hpair & Hr)].
      + destruct (Hplaced _ _ Hk) as [_ ->]. unfold placed_node in Hb.
        destruct (placement (Z.to_nat a)) as [[? ?] ?]. simpl in Hb.
        by apply elem_of_nil in Hb.
      + apply elem_of_seqZ in Hi. split_and!; [lia..|done].
    - intros (Ha & Hb & Hab & Hr). right.
      destruct (Z.lt_ge_cases a b).
      + exists a. split; [apply elem_of_seqZ; lia|]. split; [|done]. left. lia.
      + exists b. split; [apply elem_of_seqZ; lia|]. split; [|done]. right. lia. }
  split_and!; [apply Hiff| |].
  - rewrite !Hiff. split; intros (Ha & Hb & Hab & Hr);
      repeat split; first [lia | congruence | by apply in_reach_sym].
  - rewrite Hiff. by intros (_ & _ & Hne & _).
Qed.

(** The second loop of [_create_network] only appends to neighbour lists. *)
Lemma link_pair_pristine (nodes : gmap Z SensorNode.t) i j :
  pristine nodes →
  pristine (alter (WirelessSensorNetwork.add_neighbor i) j
              (alter (WirelessSensorNetwork.add_neighbor j) i nodes)).
Proof.
  intros Hp a node' Hl. rewrite !lookup_alter in Hl.
  destruct (decide (j = a)) as [->|Hja]; destruct (decide (i = a)) as [->|Hia];
    destruct (nodes !! a) as [node|] eqn:Ha; simpl in Hl; simplify_eq;
    apply (Hp _ _ Ha).
Qed.

Lemma link_row_pristine nodes i js nodes' :
  WirelessSensorNetwork.link_row nodes i js = Some nodes' →
  pristine nodes → pristine nodes'.
Proof.
  revert nodes. induction js as [|j rest IH]; intros nodes Hl Hp; simpl in Hl.
  - by simplify_eq.
  - destruct (nodes !! i) as [node_i|]; simpl in Hl; [|done].
    destruct (nodes !! j) as [node_j|]; simpl in Hl; [|done].
    apply IH in Hl; [done|].
    destruct (WirelessSensorNetwork.in_communication_range node_i node_j); [|done].
    by apply link_pair_pristine.
Qed.

Lemma link_rows_pristine nodes num_nodes rows nodes' :
  WirelessSensorNetwork.link_rows nodes num_nodes rows = Some nodes' →
  pristine nodes → pristine nodes'.
Proof.
  revert nodes. induction rows as [|i rest IH]; intros nodes Hl Hp; simpl in Hl.
  - by simplify_eq.
  - destruct (WirelessSensorNetwork.link_row _ _ _) as [nodes1|] eqn:Hrow;
      simpl in Hl; [|done].
    eapply IH; [done|]. by eapply link_row_pristine.
Qed.

Lemma create_network_pristine self placement network :
  WirelessSensorNetwork.nodes self = ∅ →
  WirelessSensorNetwork._create_network self placement = Some network →
  pristine (WirelessSensorNetwork.nodes network)
  ∧ WirelessSensorNetwork.total_packets_sent network
    = WirelessSensorNetwork.total_packets_sent self
  ∧ WirelessSensorNetwork.total_packets_received network
    = WirelessSensorNetwork.total_packets_received self.
Proof.
  intros Hempty Hc. unfold WirelessSensorNetwork._create_network in Hc.
  destruct (WirelessSensorNetwork.link_rows _ _ _) as [linked|] eqn:Hl;
    simpl in Hc; [|done].
  simplify_eq. simpl. split; [|done].
  eapply link_rows_pristine; [done|].
  intros k node Hk. pose proof Hk as Hk'.
  apply place_nodes_lookup in Hk' as [[Hrange _]|Hk'];
    [|by rewrite Hempty, lookup_empty in Hk'].
  rewrite <- (Z2Nat.id k) in Hk by lia.
  rewrite place_nodes_lookup_in in Hk by lia. simplify_eq.
  unfold placed_node. destruct (placement (Z.to_nat k)) as [[? ?] ?]. simpl.
  split_and!; [lia|done..].
Qed.

(** On an empty node dictionary [_create_network] raises no exception and
    builds a well-formed network: its keys are exactly [range(num_nodes)]
    and its neighbour lists hold node ids.  Every node is stored under its
    own id, unflagged and with both packet counters at zero. *)
Theorem create_network_well_formed self placement :
  WirelessSensorNetwork.nodes self = ∅ →
  ∃ network,
    WirelessSensorNetwork._create_network self placement = Some network
    ∧ WirelessSensorNetwork.num_nodes network = WirelessSensorNetwork.num_nodes self
    ∧ WirelessSensorNetwork.sinkhole_nodes network
      = WirelessSensorNetwork.sinkhole_nodes self
    ∧ well_formed network
    ∧ pristine (WirelessSensorNetwork.nodes network).
Proof.
  intros Hempty.
  destruct (create_network_succeeds self placement Hempty)
    as (network & Hcreate & Hn & Hsink & Hwf).
  exists network. split_and!; [done..|].
  by destruct (create_network_pristine _ _ _ Hempty Hcreate).
Qed.

(** ** [_inject_sinkhole_attacks] *)

Lemma random_random_range r : (0 <= random_random r < 1)%Q.
Proof.
  unfold random_random, Qle, Qlt. simpl.
  pose proof (Z.mod_pos_bound (Z.of_nat r) (2 ^ 53)). lia.
Qed.

Lemma uniform_range lo hi r : (lo <= hi)%Q → (lo <= uniform lo hi r <= hi)%Q.
Proof.
  intros Hle. unfold uniform. pose proof (random_random_range r) as [H0 H1].
  assert (0 <= (hi - lo) * random_random r)%Q
    by (apply Qmult_le_0_compat; [lra|done]).
  assert (0 <= (hi - lo) * (1 - random_random r))%Q
    by (apply Qmult_le_0_compat; lra).
  split; lra.
Qed.

Lemma randint_total lo hi r : lo <= hi → is_Some (randint lo hi r).
Proof.
  intros Hle. unfold randint. rewrite (proj2 (Z.leb_le _ _)) by done. done.
Qed.

Lemma randint_None lo hi r : hi < lo → randint lo hi r = None.
Proof.
  intros Hlt. unfold randint. by rewrite (proj2 (Z.leb_gt _ _)).
Qed.

Lemma random_sample_spec population k picks i sample :
  random_sample population k picks i = Some sample →
  length sample = k ∧ ∃ rest, population ≡ₚ sample ++ rest.
Proof.
  revert population i sample.
  induction k as [|k IH]; intros population i sample H; simpl in H.
  - simplify_eq. split; [done|]. by exists population.
  - destruct (population !! _) as [element|] eqn:Hel; simpl in H; [|done].
    destruct (random_sample _ _ _ _) as [rest|] eqn:Hrest; simpl in H; [|done].
    simplify_eq. apply IH in Hrest as [Hlen (others & Hperm)].
    split; [simpl; by rewrite Hlen|]. exists others. simpl. rewrite <- Hperm.
    by apply delete_Permutation.
Qed.

Lemma random_sample_total population k picks i :
  (k <= length population)%nat → is_Some (random_sample population k picks i).
Proof.
  revert population i. induction k as [|k IH]; intros population i Hk; simpl; [done|].
  destruct (lookup_lt_is_Some_2 population (picks i `mod` length population)%nat)
    as [element Hel].
  { apply Nat.mod_upper_bound. lia. }
  rewrite Hel. simpl.
  destruct (IH (delete (picks i `mod` length population)%nat population) (S i))
    as [rest Hrest].
  { rewrite length_delete by done. lia. }
  rewrite Hrest. done.
Qed.

Lemma random_sample_range population k picks i sample :
  random_sample population k picks i = Some sample →
  (k <= length population)%nat
  ∧ (NoDup population → NoDup sample)
  ∧ ∀ n, n ∈ sample → n ∈ population.
Proof.
  intros H. apply random_sample_spec in H as [Hlen (rest & Hperm)]. split_and!.
  - rewrite Hperm, length_app. lia.
  - rewrite Hperm. intros Hnd. by apply NoDup_app in Hnd as [? _].
  - intros n Hn. rewrite Hperm. apply elem_of_app. by left.
Qed.

Lemma attack_nodes_outcome sinkhole_nodes nodes draws k nodes' :
  NetworkSimulation.attack_nodes nodes sinkhole_nodes draws k = Some nodes' →
  attack_outcome sinkhole_nodes nodes nodes'.
Proof.
  revert nodes k.
  induction sinkhole_nodes as [|s rest IH]; intros nodes k H;
    cbn [NetworkSimulation.attack_nodes] in H.
  - simplify_eq. intros a. destruct (nodes' !! a); constructor.
    by rewrite decide_False by apply not_elem_of_nil.
  - destruct (nodes !! s) as [node|] eqn:Hs; cbn [mbind option_bind] in H; [|done].
    destruct (draws k) as [[d1 d2] d3].
    destruct (randint 80 120 d1) as [sent|] eqn:Hsent;
      cbn [mbind option_bind] in H; [|done].
    destruct (randint 5 25 d2) as [received|] eqn:Hreceived;
      cbn [mbind option_bind] in H; [|done].
    apply IH in H. intros a. specialize (H a).
    apply randint_range in Hsent, Hreceived.
    pose proof (uniform_range 20 40 d3) as Henergy.
    destruct (decide (a = s)) as [->|Has].
    + rewrite lookup_insert_eq in H. rewrite Hs.
      inversion H as [node1 node' Hrel Hnode1 Hnode'|]; subst node1.
      constructor. rewrite decide_True by apply list_elem_of_here.
      destruct (decide (s ∈ rest)).
      * destruct Hrel as (? & ? & ? & ? & ? & ? & ? & ?). simpl in *.
        unfold attacked. tauto.
      * subst node'. assert (20 <= 40)%Q as Hle by lra. apply Henergy in Hle.
        unfold attacked. simpl. tauto.
    + rewrite lookup_insert_ne in H by done.
      destruct H as [node0 node0' Hrel|]; constructor.
      destruct (decide (a ∈ rest)) as [Hin|Hout].
      * rewrite decide_True by (by apply list_elem_of_further). done.
      * rewrite decide_False; [done|].
        intros Hin. apply elem_of_cons in Hin as [?|?]; done.
Qed.

Lemma attack_nodes_total sinkhole_nodes nodes draws k :
  Forall (λ s, is_Some (nodes !! s)) sinkhole_nodes →
  is_Some (NetworkSimulation.attack_nodes nodes sinkhole_nodes draws k).
Proof.
  revert nodes k.
  induction sinkhole_nodes as [|s rest IH]; intros nodes k Hkeys;
    cbn [NetworkSimulation.attack_nodes]; [done|].
  apply Forall_cons in Hkeys as [[node Hs] Hrest]. rewrite Hs.
  cbn [mbind option_bind]. destruct (draws k) as [[d1 d2] d3].
  destruct (randint_total 80 120 d1) as [sent ->]; [lia|].
  destruct (randint_total 5 25 d2) as [received ->]; [lia|].
  cbn [mbind option_bind].
  apply IH. eapply Forall_impl; [exact Hrest|]. intros a Ha. simpl in Ha.
  by apply lookup_insert_is_Some'; right.
Qed.

Lemma attack_outcome_keys sinkhole_nodes nodes nodes' a :
  attack_outcome sinkhole_nodes nodes nodes' →
  is_Some (nodes' !! a) ↔ is_Some (nodes !! a).
Proof.
  intros H. specialize (H a). destruct H; split; intros [? ?]; by simplify_eq.
Qed.

Lemma attack_well_formed (self network : WirelessSensorNetwork.t) :
  WirelessSensorNetwork.num_nodes network = WirelessSensorNetwork.num_nodes self →
  attack_outcome (WirelessSensorNetwork.sinkhole_nodes network)
    (WirelessSensorNetwork.nodes self) (WirelessSensorNetwork.nodes network) →
  well_formed self → well_formed network.
Proof.
  intros Hn Hout (Hkeys & _ & Hnb). split_and!.
  - intros a. simpl. rewrite Hn. rewrite (attack_outcome_keys _ _ _ a Hout).
    apply Hkeys.
  - intros a. apply get_node_behavior_is_Some.
  - intros a node' n Ha Hin. simpl in *. rewrite Hn. specialize (Hout a).
    rewrite Ha in Hout. inversion Hout as [node ? Hrel Hnode|]; subst.
    symmetry in Hnode. apply (Hnb a node n Hnode).
    destruct (decide (a ∈ WirelessSensorNetwork.sinkhole_nodes network)).
    + destruct Hrel as (_ & _ & _ & <- & _). done.
    + by subst.
Qed.

Lemma inject_sinkhole_attacks_inv self count_draw picks draws network :
  NetworkSimulation._inject_sinkhole_attacks self count_draw picks draws
  = Some network →
  WirelessSensorNetwork.num_nodes network = WirelessSensorNetwork.num_nodes self
  ∧ WirelessSensorNetwork.total_packets_sent network
    = WirelessSensorNetwork.total_packets_sent self
  ∧ WirelessSensorNetwork.total_packets_received network
    = WirelessSensorNetwork.total_packets_received self
  ∧ randint 5 10 count_draw
    = Some (Z.of_nat (length (WirelessSensorNetwork.sinkhole_nodes network)))
  ∧ Z.of_nat (length (WirelessSensorNetwork.sinkhole_nodes network))
    <= WirelessSensorNetwork.num_nodes self
  ∧ NoDup (WirelessSensorNetwork.sinkhole_nodes network)
  ∧ sinkholes_in_range network
  ∧ attack_outcome (WirelessSensorNetwork.sinkhole_nodes network)
      (WirelessSensorNetwork.nodes self) (WirelessSensorNetwork.nodes network).
Proof.
  unfold NetworkSimulation._inject_sinkhole_attacks. intros H.
  destruct (randint 5 10 count_draw) as [num_attacks|] eqn:Hcount;
    simpl in H; [|done].
  destruct (random_sample _ _ _ _) as [sinkhole_nodes|] eqn:Hsample;
    simpl in H; [|done].
  destruct (NetworkSimulation.attack_nodes _ _ _ _) as [nodes'|] eqn:Hattack;
    simpl in H; [|done].
  simplify_eq. simpl.
  pose proof (randint_range _ _ _ _ Hcount) as Hrange.
  pose proof (random_sample_spec _ _ _ _ _ Hsample) as [Hlen _].
  apply random_sample_range in Hsample as (Hle & Hnd & Hin).
  rewrite length_seqZ in Hle.
  split_and!; try done.
  - rewrite Hlen, Z2Nat.id by lia. done.
  - lia.
  - apply Hnd, NoDup_seqZ.
  - apply Forall_forall. intros s Hs. apply Hin, elem_of_seqZ in Hs. simpl. lia.
  - by eapply attack_nodes_outcome.
Qed.

Lemma inject_sinkhole_attacks_total self count_draw picks draws num_attacks :
  well_formed self →
  randint 5 10 count_draw = Some num_attacks →
  num_attacks <= WirelessSensorNetwork.num_nodes self →
  is_Some (NetworkSimulation._inject_sinkhole_attacks self count_draw picks draws).
Proof.
  intros (Hkeys & _ & _) Hcount Hle.
  unfold NetworkSimulation._inject_sinkhole_attacks. rewrite Hcount. simpl.
  apply randint_range in Hcount.
  destruct (random_sample_total (seqZ 0 (WirelessSensorNetwork.num_nodes self))
              (Z.to_nat num_attacks) picks 0) as [sinkhole_nodes Hsample].
  { rewrite length_seqZ. lia. }
  rewrite Hsample. simpl.
  destruct (attack_nodes_total sinkhole_nodes (WirelessSensorNetwork.nodes self)
              draws 0) as [nodes' Hattack].
  { apply Forall_forall. intros s Hs.
    apply random_sample_range in Hsample as (_ & _ & Hin).
    apply Hin, elem_of_seqZ in Hs. apply Hkeys. simpl. lia. }
  rewrite Hattack. done.
Qed.

(** [_inject_sinkhole_attacks] names between 5 and 10 different nodes of the
    network, sets the flag of each and draws its counters and its energy in
    the ranges of the attack, and leaves every other node, the neighbour
    lists and the totals as they were. *)
Theorem inject_sinkhole_attacks_outcome self count_draw picks draws network :
  NetworkSimulation._inject_sinkhole_attacks self count_draw picks draws
  = Some network →
  (5 <= length (WirelessSensorNetwork.sinkhole_nodes network) <= 10)%nat
  ∧ NoDup (WirelessSensorNetwork.sinkhole_nodes network)
  ∧ sinkholes_in_range network
  ∧ attack_outcome (WirelessSensorNetwork.sinkhole_nodes network)
      (WirelessSensorNetwork.nodes self) (WirelessSensorNetwork.nodes network)
  ∧ WirelessSensorNetwork.num_nodes network = WirelessSensorNetwork.num_nodes self
  ∧ WirelessSensorNetwork.total_packets_sent network
    = WirelessSensorNetwork.total_packets_sent self
  ∧ WirelessSensorNetwork.total_packets_received network
    = WirelessSensorNetwork.total_packets_received self.
Proof.
  intros H.
  apply inject_sinkhole_attacks_inv in H
    as (Hn & Hsent & Hreceived & Hcount & _ & Hnd & Hrange & Hout).
  apply randint_range in Hcount. split_and!; try done; lia.
Qed.

(** On a well-formed network, [_inject_sinkhole_attacks] raises an exception
    exactly when the number of attacks it draws exceeds the number of nodes:
    always below 5 nodes, never from 10 nodes on. *)
Theorem inject_sinkhole_attacks_raises self count_draw picks draws :
  well_formed self →
  ∃ num_attacks,
    randint 5 10 count_draw = Some num_attacks
    ∧ 5 <= num_attacks <= 10
    ∧ (NetworkSimulation._inject_sinkhole_attacks self count_draw picks draws = None
       ↔ WirelessSensorNetwork.num_nodes self < num_attacks).
Proof.
  intros Hwf. destruct (randint_total 5 10 count_draw) as [num_attacks Hcount]; [lia|].
  exists num_attacks. split; [done|]. split; [by apply randint_range in Hcount|].
  split.
  - intros Hnone.
    destruct (decide (num_attacks <= WirelessSensorNetwork.num_nodes self))
      as [Hle|]; [|lia].
    destruct (inject_sinkhole_attacks_total self count_draw picks draws
                num_attacks Hwf Hcount Hle) as [network Hsome].
    by rewrite Hnone in Hsome.
  - intros Hlt.
    destruct (NetworkSimulation._inject_sinkhole_attacks self count_draw picks draws)
      as [network|] eqn:H; [|done].
    apply inject_sinkhole_attacks_inv in H as (_ & _ & _ & Hcount' & Hle & _).
    rewrite Hcount in Hcount'. simplify_eq. lia.
Qed.

(** ** [simulate_traffic] *)

Lemma counters_grew_refl node : counters_grew node node.
Proof. unfold counters_grew. split_and!; done. Qed.

Lemma counters_grew_trans n1 n2 n3 :
  counters_grew n1 n2 → counters_grew n2 n3 → counters_grew n1 n3.
Proof.
  unfold counters_grew. intros (? & ? & ? & ? & ? & ? & ? & ?)
    (? & ? & ? & ? & ? & ? & ? & ?).
  split_and!; first [congruence | lia].
Qed.

Lemma insert_counters_grew (nodes : gmap Z SensorNode.t) a node node' id :
  nodes !! a = Some node → counters_grew node node' →
  option_Forall2 counters_grew (nodes !! id) (<[a:=node']> nodes !! id).
Proof.
  intros Ha Hgrew. destruct (decide (id = a)) as [->|Hne].
  - rewrite lookup_insert_eq, Ha. by constructor.
  - rewrite lookup_insert_ne by done.
    destruct (nodes !! id); constructor. apply counters_grew_refl.
Qed.

Lemma nodes_grew_trans (m1 m2 m3 : gmap Z SensorNode.t) :
  (∀ id, option_Forall2 counters_grew (m1 !! id) (m2 !! id)) →
  (∀ id, option_Forall2 counters_grew (m2 !! id) (m3 !! id)) →
  ∀ id, option_Forall2 counters_grew (m1 !! id) (m3 !! id).
Proof.
  intros H12 H23 id. specialize (H12 id). specialize (H23 id).
  destruct H12 as [n1 n2 H12|]; inversion H23 as [? n3 H23'|]; constructor.
  by eapply counters_grew_trans.
Qed.

Lemma traffic_frame_refl self : traffic_frame self self.
Proof.
  split_and!; try done; [|lia..].
  intros id. destruct (_ !! id); constructor. apply counters_grew_refl.
Qed.

Lemma traffic_frame_trans s1 s2 s3 :
  traffic_frame s1 s2 → traffic_frame s2 s3 → traffic_frame s1 s3.
Proof.
  intros (Hn & Hsize & Hsink & Hnodes & Htot) (Hn' & Hsize' & Hsink' & Hnodes' & Htot').
  split_and!; [congruence..| |lia|lia].
  by eapply nodes_grew_trans.
Qed.

Lemma add_sent_grew k node : 0 <= k → counters_grew node (NetworkSimulation.add_sent k node).
Proof. intros Hk. unfold counters_grew. simpl. split_and!; first [done | lia]. Qed.

Lemma add_received_grew node : counters_grew node (NetworkSimulation.add_received node).
Proof. unfold counters_grew. simpl. split_and!; first [done | lia]. Qed.

Lemma traffic_round_frame self draw self' :
  NetworkSimulation.traffic_round self draw = Some self' → traffic_frame self self'.
Proof.
  destruct draw as [[d1 d2] d3]. unfold NetworkSimulation.traffic_round.
  intros H.
  destruct (randint 0 _ d1) as [source|]; cbn [mbind option_bind] in H; [|done].
  destruct (randint 0 _ d2) as [destination|]; cbn [mbind option_bind] in H; [|done].
  case_bool_decide as Hne; [|simplify_eq; apply traffic_frame_refl].
  destruct (WirelessSensorNetwork.nodes self !! source) as [source_node|] eqn:Hsource;
    cbn [mbind option_bind] in H; [|done].
  assert (0 <= 1) as H01 by lia.
  pose proof (λ id, insert_counters_grew _ _ _ _ id Hsource
                      (add_sent_grew 1 source_node H01)) as Hsent.
  match type of H with
  | (if ?delivered then _ else _) = _ => destruct delivered
  end.
  - destruct (_ !! destination) as [destination_node|] eqn:Hdestination;
      cbn [mbind option_bind] in H; [|done].
    simplify_eq. split_and!; try done; simpl; [|lia..].
    eapply nodes_grew_trans; [exact Hsent|].
    intros id. apply (insert_counters_grew _ _ _ _ id Hdestination).
    apply add_received_grew.
  - simplify_eq. split_and!; try done; simpl; lia.
Qed.

Lemma traffic_rounds_frame remaining self rounds i self' :
  NetworkSimulation.traffic_rounds self rounds i remaining = Some self' →
  traffic_frame self self'.
Proof.
  revert self i. induction remaining as [|remaining IH]; intros self i H;
    cbn [NetworkSimulation.traffic_rounds] in H.
  - simplify_eq. apply traffic_frame_refl.
  - destruct (NetworkSimulation.traffic_round self (rounds i)) as [self1|] eqn:Hround;
      cbn [mbind option_bind] in H; [|done].
    eapply traffic_frame_trans; [by eapply traffic_round_frame|by eapply IH].
Qed.

Lemma extra_traffic_frame sinkhole_nodes self extras k self' :
  NetworkSimulation.extra_traffic self sinkhole_nodes extras k = Some self' →
  traffic_frame self self'
  ∧ WirelessSensorNetwork.total_packets_received self'
    = WirelessSensorNetwork.total_packets_received self
  ∧ 20 * Z.of_nat (length sinkhole_nodes)
    <= WirelessSensorNetwork.total_packets_sent self'
       - WirelessSensorNetwork.total_packets_sent self
    <= 50 * Z.of_nat (length sinkhole_nodes).
Proof.
  revert self k. induction sinkhole_nodes as [|s rest IH]; intros self k H;
    cbn [NetworkSimulation.extra_traffic] in H.
  - simplify_eq. split; [apply traffic_frame_refl|]. simpl. lia.
  - destruct (randint 20 50 (extras k)) as [extra_packets|] eqn:Hextra;
      cbn [mbind option_bind] in H; [|done].
    destruct (WirelessSensorNetwork.nodes self !! s) as [node|] eqn:Hs;
      cbn [mbind option_bind] in H; [|done].
    apply randint_range in Hextra.
    apply IH in H as (Hframe & Hreceived & Hsent). simpl in Hreceived, Hsent.
    split_and!; [|done|rewrite length_cons; lia..].
    eapply traffic_frame_trans; [|exact Hframe].
    split_and!; try done; simpl; [|lia..].
    intros id. apply (insert_counters_grew _ _ _ _ id Hs).
    apply add_sent_grew. lia.
Qed.

Lemma option_Forall2_is_Some {A B} (R : A → B → Prop) mx my :
  option_Forall2 R mx my → is_Some mx ↔ is_Some my.
Proof. intros []; split; intros [? ?]; by simplify_eq. Qed.

Lemma traffic_frame_well_formed self self' :
  traffic_frame self self' → well_formed self → well_formed self'.
Proof.
  intros (Hn & _ & _ & Hnodes & _) (Hkeys & _ & Hnb). split_and!.
  - intros a. simpl. rewrite Hn. rewrite (Hkeys a).
    apply (option_Forall2_is_Some _ _ _ (Hnodes a)).
  - intros a. apply get_node_behavior_is_Some.
  - intros a node' n Ha Hin. simpl in *. rewrite Hn. specialize (Hnodes a).
    rewrite Ha in Hnodes. inversion Hnodes as [node ? Hrel Hnode|]; subst.
    symmetry in Hnode. apply (Hnb a node n Hnode).
    destruct Hrel as (_ & _ & _ & _ & _ & <- & _). done.
Qed.

Lemma traffic_frame_sinkholes self self' :
  traffic_frame self self' → sinkholes_in_range self → sinkholes_in_range self'.
Proof.
  intros (Hn & _ & Hsink & _). unfold sinkholes_in_range. by rewrite Hn, Hsink.
Qed.

Lemma traffic_round_total self draw :
  well_formed self → 1 <= WirelessSensorNetwork.num_nodes self →
  is_Some (NetworkSimulation.traffic_round self draw).
Proof.
  intros (Hkeys & _) Hn. destruct draw as [[d1 d2] d3].
  unfold NetworkSimulation.traffic_round.
  destruct (randint_total 0 (WirelessSensorNetwork.num_nodes self - 1) d1)
    as [source Hsource]; [lia|].
  destruct (randint_total 0 (WirelessSensorNetwork.num_nodes self - 1) d2)
    as [destination Hdestination]; [lia|].
  rewrite Hsource, Hdestination. cbn [mbind option_bind].
  apply randint_range in Hsource, Hdestination.
  case_bool_decide as Hne; [|done].
  destruct (proj1 (Hkeys source)) as [source_node Hs]; [simpl; lia|].
  destruct (proj1 (Hkeys destination)) as [destination_node Hd]; [simpl; lia|].
  simpl in Hs, Hd. rewrite Hs. cbn [mbind option_bind].
  rewrite lookup_insert_ne by done. rewrite Hd. cbn [mbind option_bind].
  by destruct (if SensorNode.is_malicious source_node then _ else _).
Qed.

Lemma traffic_rounds_total remaining self rounds i :
  well_formed self → 1 <= WirelessSensorNetwork.num_nodes self →
  is_Some (NetworkSimulation.traffic_rounds self rounds i remaining).
Proof.
  revert self i. induction remaining as [|remaining IH]; intros self i Hwf Hn;
    cbn [NetworkSimulation.traffic_rounds]; [done|].
  destruct (traffic_round_total self (rounds i) Hwf Hn) as [self1 Hround].
  rewrite Hround. cbn [mbind option_bind].
  pose proof (traffic_round_frame _ _ _ Hround) as Hframe.
  apply IH; [by eapply traffic_frame_well_formed|].
  destruct Hframe as (-> & _). done.
Qed.

Lemma extra_traffic_total sinkhole_nodes self extras k :
  well_formed self →
  Forall (λ s, 0 <= s < WirelessSensorNetwork.num_nodes self) sinkhole_nodes →
  is_Some (NetworkSimulation.extra_traffic self sinkhole_nodes extras k).
Proof.
  revert self k. induction sinkhole_nodes as [|s rest IH]; intros self k Hwf Hrange;
    cbn [NetworkSimulation.extra_traffic]; [done|].
  apply Forall_cons in Hrange as [Hs Hrest].
  destruct (randint_total 20 50 (extras k)) as [extra_packets Hextra]; [lia|].
  rewrite Hextra. cbn [mbind option_bind]. apply randint_range in Hextra.
  destruct (proj1 (proj1 Hwf s)) as [node Hnode]; [done|]. simpl in Hnode.
  rewrite Hnode. cbn [mbind option_bind].
  match goal with
  | |- is_Some (NetworkSimulation.extra_traffic ?next _ _ _) =>
      assert (traffic_frame self next) as Hframe
  end.
  { split_and!; try done; simpl; [|lia..].
    intros id. apply (insert_counters_grew _ _ _ _ id Hnode).
    apply add_sent_grew. lia. }
  apply IH; [by eapply traffic_frame_well_formed|done].
Qed.

Lemma traffic_rounds_bound remaining self rounds i self' :
  NetworkSimulation.traffic_rounds self rounds i remaining = Some self' →
  WirelessSensorNetwork.total_packets_sent self'
  - WirelessSensorNetwork.total_packets_sent self <= Z.of_nat remaining.
Proof.
  revert self i. induction remaining as [|remaining IH]; intros self i H;
    cbn [NetworkSimulation.traffic_rounds] in H.
  - simplify_eq. lia.
  - destruct (NetworkSimulation.traffic_round self (rounds i)) as [self1|] eqn:Hround;
      cbn [mbind option_bind] in H; [|done].
    apply IH in H.
    assert (WirelessSensorNetwork.total_packets_sent self1
            - WirelessSensorNetwork.total_packets_sent self <= 1); [|lia].
    clear H. destruct (rounds i) as [[d1 d2] d3].
    unfold NetworkSimulation.traffic_round in Hround.
    destruct (randint 0 _ d1) as [source|]; cbn [mbind option_bind] in Hround; [|done].
    destruct (randint 0 _ d2) as [destination|];
      cbn [mbind option_bind] in Hround; [|done].
    case_bool_decide; [|simplify_eq; lia].
    destruct (WirelessSensorNetwork.nodes self !! source) as [source_node|];
      cbn [mbind option_bind] in Hround; [|done].
    match type of Hround with
    | (if ?delivered then _ else _) = _ => destruct delivered
    end.
    + destruct (_ !! destination); cbn [mbind option_bind] in Hround; [|done].
      simplify_eq. simpl. lia.
    + simplify_eq. simpl. lia.
Qed.

(** *** The totals and the counters *)

Lemma counter_sum_insert counter (nodes : gmap Z SensorNode.t) a node node' :
  nodes !! a = Some node →
  counter_sum counter (<[a:=node']> nodes)
  = counter_sum counter nodes - counter node + counter node'.
Proof.
  intros Ha.
  rewrite <- (insert_delete_id nodes a node Ha) at 2.
  rewrite <- (insert_delete_eq nodes a node'). unfold counter_sum.
  rewrite !map_fold_insert_L; [lia|..]; try apply lookup_delete_eq; intros; lia.
Qed.

Lemma accounted_refl self : accounted self self.
Proof. unfold accounted. lia. Qed.

Lemma accounted_trans s1 s2 s3 : accounted s1 s2 → accounted s2 s3 → accounted s1 s3.
Proof. unfold accounted. lia. Qed.

Lemma traffic_round_accounted self draw self' :
  NetworkSimulation.traffic_round self draw = Some self' → accounted self self'.
Proof.
  destruct draw as [[d1 d2] d3]. unfold NetworkSimulation.traffic_round.
  intros H.
  destruct (randint 0 _ d1) as [source|]; cbn [mbind option_bind] in H; [|done].
  destruct (randint 0 _ d2) as [destination|]; cbn [mbind option_bind] in H; [|done].
  case_bool_decide as Hne; [|simplify_eq; apply accounted_refl].
  destruct (WirelessSensorNetwork.nodes self !! source) as [source_node|] eqn:Hsource;
    cbn [mbind option_bind] in H; [|done].
  match type of H with
  | (if ?delivered then _ else _) = _ => destruct delivered
  end.
  - destruct (_ !! destination) as [destination_node|] eqn:Hdestination;
      cbn [mbind option_bind] in H; [|done].
    simplify_eq. unfold accounted. simpl.
    rewrite !(counter_sum_insert _ _ _ _ _ Hdestination).
    rewrite !(counter_sum_insert _ _ _ _ _ Hsource). simpl. lia.
  - simplify_eq. unfold accounted. simpl.
    rewrite !(counter_sum_insert _ _ _ _ _ Hsource). simpl. lia.
Qed.

Lemma traffic_rounds_accounted remaining self rounds i self' :
  NetworkSimulation.traffic_rounds self rounds i remaining = Some self' →
  accounted self self'.
Proof.
  revert self i. induction remaining as [|remaining IH]; intros self i H;
    cbn [NetworkSimulation.traffic_rounds] in H.
  - simplify_eq. apply accounted_refl.
  - destruct (NetworkSimulation.traffic_round self (rounds i)) as [self1|] eqn:Hround;
      cbn [mbind option_bind] in H; [|done].
    eapply accounted_trans; [by eapply traffic_round_accounted|by eapply IH].
Qed.

Lemma extra_traffic_accounted sinkhole_nodes self extras k self' :
  NetworkSimulation.extra_traffic self sinkhole_nodes extras k = Some self' →
  accounted self self'.
Proof.
  revert self k. induction sinkhole_nodes as [|s rest IH]; intros self k H;
    cbn [NetworkSimulation.extra_traffic] in H.
  - simplify_eq. apply accounted_refl.
  - destruct (randint 20 50 (extras k)) as [extra_packets|];
      cbn [mbind option_bind] in H; [|done].
    destruct (WirelessSensorNetwork.nodes self !! s) as [node|] eqn:Hs;
      cbn [mbind option_bind] in H; [|done].
    apply IH in H. eapply accounted_trans; [|exact H].
    unfold accounted. simpl.
    rewrite !(counter_sum_insert _ _ _ _ _ Hs). simpl. lia.
Qed.

Lemma simulate_traffic_inv self rounds extras self' :
  NetworkSimulation.simulate_traffic self rounds extras = Some self' →
  traffic_frame self self'
  ∧ WirelessSensorNetwork.total_packets_received self'
    - WirelessSensorNetwork.total_packets_received self <= 2000
  ∧ 20 * Z.of_nat (length (WirelessSensorNetwork.sinkhole_nodes self))
    <= WirelessSensorNetwork.total_packets_sent self'
       - WirelessSensorNetwork.total_packets_sent self
    <= 2000 + 50 * Z.of_nat (length (WirelessSensorNetwork.sinkhole_nodes self))
  ∧ 20 * Z.of_nat (length (WirelessSensorNetwork.sinkhole_nodes self))
    <= (WirelessSensorNetwork.total_packets_sent self'
        - WirelessSensorNetwork.total_packets_sent self)
       - (WirelessSensorNetwork.total_packets_received self'
          - WirelessSensorNetwork.total_packets_received self).
Proof.
  unfold NetworkSimulation.simulate_traffic. intros H.
  destruct (NetworkSimulation.traffic_rounds self rounds 0 2000) as [self1|] eqn:Hrounds;
    cbn [mbind option_bind] in H; [|done].
  pose proof (traffic_rounds_bound _ _ _ _ _ Hrounds) as Hbound.
  apply traffic_rounds_frame in Hrounds as Hframe1.
  apply extra_traffic_frame in H as (Hframe2 & Hreceived & Hsent).
  split; [by eapply traffic_frame_trans|].
  destruct Hframe1 as (_ & _ & Hsink & _ & Htot). rewrite Hsink in Hsent.
  change (Z.of_nat 2000) with 2000 in Hbound. lia.
Qed.

(** [simulate_traffic] leaves the nodes, their places, labels, energies and
    neighbour lists, the node count and the sinkhole list as they are; no
    packet counter and no total decreases, at most 2000 packets are
    received, and the packets sent are the 20 to 50 extra ones of each
    sinkhole, which nobody receives, and at most 2000 others. *)
Theorem simulate_traffic_frame self rounds extras self' :
  NetworkSimulation.simulate_traffic self rounds extras = Some self' →
  traffic_frame self self'
  ∧ WirelessSensorNetwork.total_packets_received self'
    - WirelessSensorNetwork.total_packets_received self <= 2000
  ∧ 20 * Z.of_nat (length (WirelessSensorNetwork.sinkhole_nodes self))
    <= WirelessSensorNetwork.total_packets_sent self'
       - WirelessSensorNetwork.total_packets_sent self
    <= 2000 + 50 * Z.of_nat (length (WirelessSensorNetwork.sinkhole_nodes self))
  ∧ 20 * Z.of_nat (length (WirelessSensorNetwork.sinkhole_nodes self))
    <= (WirelessSensorNetwork.total_packets_sent self'
        - WirelessSensorNetwork.total_packets_sent self)
       - (WirelessSensorNetwork.total_packets_received self'
          - WirelessSensorNetwork.total_packets_received self).
Proof. apply simulate_traffic_inv. Qed.

(** Over [simulate_traffic] the two totals of the network move by exactly as
    much as the packet counters of all its nodes taken together. *)
Theorem simulate_traffic_accounting self rounds extras self' :
  NetworkSimulation.simulate_traffic self rounds extras = Some self' →
  accounted self self'.
Proof.
  unfold NetworkSimulation.simulate_traffic. intros H.
  destruct (NetworkSimulation.traffic_rounds self rounds 0 2000) as [self1|] eqn:Hrounds;
    cbn [mbind option_bind] in H; [|done].
  eapply accounted_trans;
    [by eapply traffic_rounds_accounted|by eapply extra_traffic_accounted].
Qed.

Lemma simulate_traffic_succeeds self rounds extras :
  well_formed self → 1 <= WirelessSensorNetwork.num_nodes self →
  sinkholes_in_range self →
  ∃ self', NetworkSimulation.simulate_traffic self rounds extras = Some self'
           ∧ well_formed self' ∧ sinkholes_in_range self'.
Proof.
  intros Hwf Hn Hsink. unfold NetworkSimulation.simulate_traffic.
  destruct (traffic_rounds_total 2000 self rounds 0 Hwf Hn) as [self1 Hrounds].
  rewrite Hrounds. cbn [mbind option_bind].
  pose proof (traffic_rounds_frame _ _ _ _ _ Hrounds) as Hframe1.
  pose proof (traffic_frame_well_formed _ _ Hframe1 Hwf) as Hwf1.
  pose proof (traffic_frame_sinkholes _ _ Hframe1 Hsink) as Hsink1.
  destruct (extra_traffic_total (WirelessSensorNetwork.sinkhole_nodes self1)
              self1 extras 0 Hwf1 Hsink1) as [self' Hextra].
  exists self'. split; [done|].
  apply extra_traffic_frame in Hextra as (Hframe2 & _).
  split; [by eapply traffic_frame_well_formed|by eapply traffic_frame_sinkholes].
Qed.

(** On a well-formed network with at least one node whose sinkholes are all
    nodes of it, [simulate_traffic] raises no exception, whatever the random
    draws, and leaves such a network again. *)
Theorem simulate_traffic_total self rounds extras :
  well_formed self → 1 <= WirelessSensorNetwork.num_nodes self →
  sinkholes_in_range self →
  ∃ self', NetworkSimulation.simulate_traffic self rounds extras = Some self'
           ∧ well_formed self' ∧ sinkholes_in_range self'.
Proof. apply simulate_traffic_succeeds. Qed.

Lemma traffic_rounds_no_nodes remaining self rounds i :
  WirelessSensorNetwork.num_nodes self <= 0 →
  NetworkSimulation.traffic_rounds self rounds i (S remaining) = None.
Proof.
  intros Hn. cbn [NetworkSimulation.traffic_rounds].
  assert (NetworkSimulation.traffic_round self (rounds i) = None) as ->; [|done].
  unfold NetworkSimulation.traffic_round. destruct (rounds i) as [[d1 d2] d3].
  by rewrite (randint_None _ _ d1) by lia.
Qed.

(** On a network without nodes [simulate_traffic] raises an exception: the
    first [random.randint(0, num_nodes - 1)] has an empty range. *)
Theorem simulate_traffic_no_nodes self rounds extras :
  WirelessSensorNetwork.num_nodes self <= 0 →
  NetworkSimulation.simulate_traffic self rounds extras = None.
Proof.
  intros Hn. unfold NetworkSimulation.simulate_traffic.
  by rewrite (traffic_rounds_no_nodes 1999 self rounds 0 Hn).
Qed.

(** ** [WirelessSensorNetwork.__init__] *)

Lemma network_init_inv num_nodes network_size placement count_draw picks draws network :
  NetworkSimulation.init num_nodes network_size placement count_draw picks draws
  = Some network →
  WirelessSensorNetwork.num_nodes network = num_nodes
  ∧ well_formed network
  ∧ sinkholes_in_range network
  ∧ NoDup (WirelessSensorNetwork.sinkhole_nodes network)
  ∧ (5 <= length (WirelessSensorNetwork.sinkhole_nodes network) <= 10)%nat
  ∧ WirelessSensorNetwork.total_packets_sent network = 0
  ∧ WirelessSensorNetwork.total_packets_received network = 0
  ∧ ∀ a node,
      WirelessSensorNetwork.nodes network !! a = Some node →
      SensorNode.node_id node = a
      ∧ (SensorNode.is_malicious node = true
         ↔ a ∈ WirelessSensorNetwork.sinkhole_nodes network)
      ∧ (a ∈ WirelessSensorNetwork.sinkhole_nodes network →
         80 <= SensorNode.packets_sent node <= 120
         ∧ 5 <= SensorNode.packets_received node <= 25
         ∧ (20 <= SensorNode.energy node <= 40)%Q)
      ∧ (a ∉ WirelessSensorNetwork.sinkhole_nodes network →
         SensorNode.packets_sent node = 0 ∧ SensorNode.packets_received node = 0).
Proof.
  unfold NetworkSimulation.init. intros H.
  match type of H with
  | WirelessSensorNetwork._create_network ?self0 _ ≫= _ = _ =>
      destruct (create_network_succeeds self0 placement eq_refl)
        as (created & Hcreate & Hn & _ & Hwf);
      destruct (create_network_pristine self0 placement created eq_refl Hcreate)
        as (Hpristine & Hsent & Hreceived)
  end.
  rewrite Hcreate in H. cbn [mbind option_bind] in H. simpl in Hn, Hsent, Hreceived.
  pose proof (inject_sinkhole_attacks_inv _ _ _ _ _ H)
    as (Hn' & Hsent' & Hreceived' & Hcount & _ & Hnd & Hrange & Hout).
  apply randint_range in Hcount.
  split_and!; [congruence|by eapply attack_well_formed|done|done|lia|lia|
               congruence|congruence|].
  intros a node' Ha. specialize (Hout a). rewrite Ha in Hout.
  inversion Hout as [node ? Hrel Hnode|]; subst. symmetry in Hnode.
  destruct (Hpristine _ _ Hnode) as (Hid & Hflag & Hs & Hr).
  destruct (decide (a ∈ WirelessSensorNetwork.sinkhole_nodes network)) as [Hin|Hnotin].
  - destruct Hrel as (Hid' & _ & _ & _ & Hflag' & Hs' & Hr' & He').
    split_and!; [congruence|done|done|done].
  - subst node'. split_and!; [done| |done|done].
    rewrite Hflag. split; [done|]. intros Hin. by destruct Hnotin.
Qed.

Lemma network_init_succeeds num_nodes network_size placement count_draw picks draws
    num_attacks :
  randint 5 10 count_draw = Some num_attacks →
  num_attacks <= num_nodes →
  is_Some (NetworkSimulation.init num_nodes network_size placement count_draw picks
             draws).
Proof.
  intros Hcount Hle. unfold NetworkSimulation.init.
  match goal with
  | |- is_Some (WirelessSensorNetwork._create_network ?self0 _ ≫= _) =>
      destruct (create_network_succeeds self0 placement eq_refl)
        as (created & Hcreate & Hn & _ & Hwf)
  end.
  rewrite Hcreate. cbn [mbind option_bind]. simpl in Hn.
  eapply inject_sinkhole_attacks_total; [done..|]. by rewrite Hn.
Qed.

(** In the network that the constructor returns the list [sinkhole_nodes]
    and the labels agree: a node is flagged exactly when it is in the list.
    The list holds 5 to 10 different nodes of the network; a sinkhole has
    counters and energy in the ranges of the attack, every other node has
    both counters at zero; both totals are zero and the network is
    well-formed. *)
Theorem network_init_ground_truth num_nodes network_size placement count_draw picks
    draws network :
  NetworkSimulation.init num_nodes network_size placement count_draw picks draws
  = Some network →
  WirelessSensorNetwork.num_nodes network = num_nodes
  ∧ well_formed network
  ∧ sinkholes_in_range network
  ∧ NoDup (WirelessSensorNetwork.sinkhole_nodes network)
  ∧ (5 <= length (WirelessSensorNetwork.sinkhole_nodes network) <= 10)%nat
  ∧ WirelessSensorNetwork.total_packets_sent network = 0
  ∧ WirelessSensorNetwork.total_packets_received network = 0
  ∧ ∀ a node,
      WirelessSensorNetwork.nodes network !! a = Some node →
      SensorNode.node_id node = a
      ∧ (SensorNode.is_malicious node = true
         ↔ a ∈ WirelessSensorNetwork.sinkhole_nodes network)
      ∧ (a ∈ WirelessSensorNetwork.sinkhole_nodes network →
         80 <= SensorNode.packets_sent node <= 120
         ∧ 5 <= SensorNode.packets_received node <= 25
         ∧ (20 <= SensorNode.energy node <= 40)%Q)
      ∧ (a ∉ WirelessSensorNetwork.sinkhole_nodes network →
         SensorNode.packets_sent node = 0 ∧ SensorNode.packets_received node = 0).
Proof. apply network_init_inv. Qed.

(** The constructor raises an exception exactly when the number of attacks
    it draws, between 5 and 10, exceeds [num_nodes]: always for fewer than 5
    nodes (also for none, or a negative count), never from 10 nodes on. *)
Theorem network_init_raises num_nodes network_size placement count_draw picks draws :
  ∃ num_attacks,
    randint 5 10 count_draw = Some num_attacks
    ∧ 5 <= num_attacks <= 10
    ∧ (NetworkSimulation.init num_nodes network_size placement count_draw picks draws
       = None
       ↔ num_nodes < num_attacks).
Proof.
  destruct (randint_total 5 10 count_draw) as [num_attacks Hcount]; [lia|].
  exists num_attacks. split; [done|]. split; [by apply randint_range in Hcount|].
  split.
  - intros Hnone.
    destruct (decide (num_attacks <= num_nodes)) as [Hle|]; [|lia].
    destruct (network_init_succeeds num_nodes network_size placement count_draw
                picks draws num_attacks Hcount Hle) as [network Hsome].
    by rewrite Hnone in Hsome.
  - intros Hlt.
    destruct (NetworkSimulation.init num_nodes network_size placement count_draw
                picks draws) as [network|] eqn:H; [|done].
    unfold NetworkSimulation.init in H.
    destruct (WirelessSensorNetwork._create_network _ _) as [created|] eqn:Hcreate;
      cbn [mbind option_bind] in H; [|done].
    apply inject_sinkhole_attacks_inv in H as (_ & _ & _ & Hcount' & Hle & _).
    unfold WirelessSensorNetwork._create_network in Hcreate.
    destruct (WirelessSensorNetwork.link_rows _ _ _); simpl in Hcreate; [|done].
    simplify_eq. simpl in Hle. lia.
Qed.

(** ** The evaluator *)

Lemma filter_split_length (sinkhole_nodes detected : list Z) :
  (length (filter (λ node, node ∈ sinkhole_nodes) detected)
   + length (filter (λ node, node ∉ sinkhole_nodes) detected)
   = length detected)%nat.
Proof.
  induction detected as [|n rest IH]; [done|]. rewrite !filter_cons.
  destruct (decide (n ∈ sinkhole_nodes)) as [Hin|Hout].
  - rewrite (decide_False (P := n ∉ sinkhole_nodes)) by (intros Hn; by apply Hn).
    simpl. lia.
  - rewrite (decide_True (P := n ∉ sinkhole_nodes)) by done. simpl. lia.
Qed.

Lemma true_detections_le (sinkhole_nodes detected : list Z) :
  NoDup detected →
  (length (filter (λ node, node ∈ sinkhole_nodes) detected) <= length sinkhole_nodes)%nat.
Proof.
  intros Hnd. apply submseteq_length, NoDup_submseteq; [by apply NoDup_filter|].
  intros n Hn. by apply list_elem_of_filter in Hn as [? _].
Qed.

Lemma percentage_bounds (a b : Z) :
  0 <= a <= b → 0 < b → (0 <= inject_Z a / inject_Z b * 100 <= 100)%Q.
Proof.
  intros Hab Hb.
  assert (0 <= inject_Z a)%Q as Ha by (change 0%Q with (inject_Z 0); rewrite <- Zle_Qle; lia).
  assert (0 < inject_Z b)%Q as Hb' by (change 0%Q with (inject_Z 0); rewrite <- Zlt_Qlt; lia).
  assert (inject_Z a <= inject_Z b)%Q as Hle by (rewrite <- Zle_Qle; lia).
  pose proof (Qdiv_nonneg _ _ Ha Hb') as Hlow.
  assert (inject_Z a / inject_Z b <= 1)%Q as Hhigh
    by (apply Qle_shift_div_r; [done|lra]).
  split; lra.
Qed.

(** Every detected node is counted once, as a true detection or as a false
    alarm; the false-alarm rate lies between 0 and 100 and the detection
    rate is not negative; without detections the false-alarm rate is 0,
    without sinkholes the detection rate is 0. *)
Theorem evaluator_counts network detected_attacks :
  let self := PerformanceEvaluator.init network detected_attacks in
  (PerformanceEvaluator.true_detections self + PerformanceEvaluator.false_alarms self
   = length detected_attacks)%nat
  ∧ (0 <= PerformanceEvaluator.calculate_false_alarm_rate self <= 100)%Q
  ∧ (0 <= PerformanceEvaluator.calculate_detection_rate self)%Q
  ∧ (detected_attacks = [] → PerformanceEvaluator.calculate_false_alarm_rate self = 0%Q)
  ∧ (WirelessSensorNetwork.sinkhole_nodes network = [] →
     PerformanceEvaluator.calculate_detection_rate self = 0%Q).
Proof.
  intros self.
  pose proof (filter_split_length (WirelessSensorNetwork.sinkhole_nodes network)
                detected_attacks) as Hsplit.
  refine (conj _ (conj _ (conj _ (conj _ _)))).
  - exact Hsplit.
  - unfold PerformanceEvaluator.calculate_false_alarm_rate. simpl.
    destruct (length detected_attacks =? 0)%nat eqn:Hzero; [lra|].
    apply Nat.eqb_neq in Hzero. unfold PerformanceEvaluator.Qnat.
    apply percentage_bounds; lia.
  - unfold PerformanceEvaluator.calculate_detection_rate. simpl.
    destruct (length (WirelessSensorNetwork.sinkhole_nodes network) =? 0)%nat
      eqn:Hzero; [lra|].
    apply Nat.eqb_neq in Hzero. unfold PerformanceEvaluator.Qnat.
    apply Qmult_le_0_compat; [|lra]. apply Qdiv_nonneg.
    + change 0%Q with (inject_Z 0). rewrite <- Zle_Qle. lia.
    + change 0%Q with (inject_Z 0). rewrite <- Zlt_Qlt. lia.
  - intros ->. reflexivity.
  - intros Hnone. unfold PerformanceEvaluator.calculate_detection_rate. simpl.
    by rewrite Hnone.
Qed.

(** When no node is detected twice, as in the lists that [run_aco] returns,
    the true detections are at most the sinkholes and the detection rate is
    at most 100. *)
Theorem evaluator_detection_rate_bounded network detected_attacks :
  NoDup detected_attacks →
  let self := PerformanceEvaluator.init network detected_attacks in
  (PerformanceEvaluator.true_detections self
   <= length (WirelessSensorNetwork.sinkhole_nodes network))%nat
  ∧ (0 <= PerformanceEvaluator.calculate_detection_rate self <= 100)%Q.
Proof.
  intros Hnd self.
  pose proof (true_detections_le (WirelessSensorNetwork.sinkhole_nodes network)
                detected_attacks Hnd) as Hle.
  split; [exact Hle|].
  unfold PerformanceEvaluator.calculate_detection_rate. simpl.
  destruct (length (WirelessSensorNetwork.sinkhole_nodes network) =? 0)%nat
    eqn:Hzero; [lra|].
  apply Nat.eqb_neq in Hzero. unfold PerformanceEvaluator.Qnat.
  apply percentage_bounds; lia.
Qed.

Lemma delivery_bounds network detected_attacks :
  0 <= WirelessSensorNetwork.total_packets_received network
    <= WirelessSensorNetwork.total_packets_sent network →
  let self := PerformanceEvaluator.init network detected_attacks in
  (0 <= PerformanceEvaluator.calculate_packet_delivery_ratio self <= 100)%Q
  ∧ (0 <= PerformanceEvaluator.calculate_message_drop self <= 100)%Q.
Proof.
  intros Htot self.
  unfold PerformanceEvaluator.calculate_packet_delivery_ratio,
    PerformanceEvaluator.calculate_message_drop. simpl.
  destruct (WirelessSensorNetwork.total_packets_sent network =? 0) eqn:Hzero;
    [split; lra|].
  apply Z.eqb_neq in Hzero. split; apply percentage_bounds; lia.
Qed.

(** When the network has received between 0 and as many packets as it has
    sent, the packet delivery ratio and the message drop lie between 0 and
    100; when nothing was sent, both are 0. *)
Theorem evaluator_delivery_bounded network detected_attacks :
  0 <= WirelessSensorNetwork.total_packets_received network
    <= WirelessSensorNetwork.total_packets_sent network →
  let self := PerformanceEvaluator.init network detected_attacks in
  (0 <= PerformanceEvaluator.calculate_packet_delivery_ratio self <= 100)%Q
  ∧ (0 <= PerformanceEvaluator.calculate_message_drop self <= 100)%Q
  ∧ (WirelessSensorNetwork.total_packets_sent network = 0 →
     PerformanceEvaluator.calculate_packet_delivery_ratio self = 0%Q
     ∧ PerformanceEvaluator.calculate_message_drop self = 0%Q).
Proof.
  intros Htot self.
  destruct (delivery_bounds network detected_attacks Htot) as [Hratio Hdrop].
  refine (conj Hratio (conj Hdrop _)).
  intros Hzero.
  unfold PerformanceEvaluator.calculate_packet_delivery_ratio,
    PerformanceEvaluator.calculate_message_drop. simpl. by rewrite Hzero.
Qed.

Lemma evaluator_bounds network detected_attacks :
  NoDup detected_attacks →
  let metrics :=
    PerformanceEvaluator.get_all_metrics
      (PerformanceEvaluator.init network detected_attacks) in
  (PerformanceEvaluator.metric_true_detections metrics
   + PerformanceEvaluator.metric_false_alarms metrics
   = PerformanceEvaluator.metric_detected_attacks metrics)%nat
  ∧ (PerformanceEvaluator.metric_true_detections metrics
     <= PerformanceEvaluator.total_attacks metrics)%nat
  ∧ (0 <= PerformanceEvaluator.detection_rate metrics <= 100)%Q
  ∧ (0 <= PerformanceEvaluator.false_alarm_rate metrics <= 100)%Q.
Proof.
  intros Hnd metrics.
  pose proof (filter_split_length (WirelessSensorNetwork.sinkhole_nodes network)
                detected_attacks) as Hsplit.
  pose proof (true_detections_le (WirelessSensorNetwork.sinkhole_nodes network)
                detected_attacks Hnd) as Hle.
  refine (conj Hsplit (conj Hle (conj _ _))).
  - unfold metrics. simpl. unfold PerformanceEvaluator.calculate_detection_rate. simpl.
    destruct (length (WirelessSensorNetwork.sinkhole_nodes network) =? 0)%nat
      eqn:Hzero; [lra|].
    apply Nat.eqb_neq in Hzero. unfold PerformanceEvaluator.Qnat.
    apply percentage_bounds; lia.
  - unfold metrics. simpl. unfold PerformanceEvaluator.calculate_false_alarm_rate. simpl.
    destruct (length detected_attacks =? 0)%nat eqn:Hzero; [lra|].
    apply Nat.eqb_neq in Hzero. unfold PerformanceEvaluator.Qnat.
    apply percentage_bounds; lia.
Qed.

Lemma percentage_strict (a b : Z) :
  0 <= a < b → (inject_Z a / inject_Z b * 100 < 100)%Q.
Proof.
  intros Hab.
  assert (0 < inject_Z b)%Q as Hb by (change 0%Q with (inject_Z 0); rewrite <- Zlt_Qlt; lia).
  assert (inject_Z a < inject_Z b)%Q as Hlt by (rewrite <- Zlt_Qlt; lia).
  assert (inject_Z a / inject_Z b < 1)%Q as Hhigh
    by (apply Qlt_shift_div_r; [done|lra]).
  lra.
Qed.

Lemma percentage_positive (a b : Z) :
  0 < a → 0 < b → (0 < inject_Z a / inject_Z b * 100)%Q.
Proof.
  intros Ha Hb.
  assert (0 < inject_Z a)%Q by (change 0%Q with (inject_Z 0); rewrite <- Zlt_Qlt; lia).
  assert (0 < inject_Z b)%Q by (change 0%Q with (inject_Z 0); rewrite <- Zlt_Qlt; lia).
  pose proof (Qdiv_pos _ _ H H0). lra.
Qed.

Lemma delivery_strict network detected_attacks :
  0 <= WirelessSensorNetwork.total_packets_received network
    < WirelessSensorNetwork.total_packets_sent network →
  let metrics :=
    PerformanceEvaluator.get_all_metrics
      (PerformanceEvaluator.init network detected_attacks) in
  (0 <= PerformanceEvaluator.packet_delivery_ratio metrics < 100)%Q
  ∧ (0 < PerformanceEvaluator.message_drop metrics <= 100)%Q.
Proof.
  intros Htot metrics. unfold metrics. simpl.
  unfold PerformanceEvaluator.calculate_packet_delivery_ratio,
    PerformanceEvaluator.calculate_message_drop. simpl.
  destruct (WirelessSensorNetwork.total_packets_sent network =? 0) eqn:Hzero;
    [apply Z.eqb_eq in Hzero; lia|].
  split; split.
  - apply percentage_bounds; lia.
  - apply percentage_strict; lia.
  - apply percentage_positive; lia.
  - apply percentage_bounds; lia.
Qed.

(** ** [main] *)

(** [main] raises no exception up to the metrics it prints, whatever the
    random draws.  It evaluates a well-formed network of 100 nodes with 5 to
    10 sinkholes; the detected nodes are nodes of the network, none of them
    twice; every detected node counts once, as a true detection or as a
    false alarm; the four rates lie between 0 and 100, and the packet
    delivery ratio stays below 100 because nobody receives the extra
    packets of the sinkholes. *)
Theorem main_total draws :
  ∃ network detected_attacks metrics,
    main draws = Some (network, detected_attacks, metrics)
    ∧ WirelessSensorNetwork.num_nodes network = 100
    ∧ well_formed network
    ∧ NoDup detected_attacks
    ∧ (∀ n, n ∈ detected_attacks → 0 <= n < 100)
    ∧ (5 <= PerformanceEvaluator.total_attacks metrics <= 10)%nat
    ∧ PerformanceEvaluator.metric_detected_attacks metrics = length detected_attacks
    ∧ (PerformanceEvaluator.metric_true_detections metrics
       + PerformanceEvaluator.metric_false_alarms metrics
       = PerformanceEvaluator.metric_detected_attacks metrics)%nat
    ∧ (PerformanceEvaluator.metric_true_detections metrics
       <= PerformanceEvaluator.total_attacks metrics)%nat
    ∧ (0 <= PerformanceEvaluator.detection_rate metrics <= 100)%Q
    ∧ (0 <= PerformanceEvaluator.false_alarm_rate metrics <= 100)%Q
    ∧ (0 <= PerformanceEvaluator.packet_delivery_ratio metrics < 100)%Q
    ∧ (0 < PerformanceEvaluator.message_drop metrics <= 100)%Q.
Proof.
  unfold main.
  destruct (randint_total 5 10 (attack_count draws)) as [num_attacks Hcount]; [lia|].
  pose proof (randint_range _ _ _ _ Hcount) as Hrange.
  destruct (network_init_succeeds 100 (100, 100) (placement draws) (attack_count draws)
              (attack_picks draws) (attack_draws draws) num_attacks Hcount)
    as [built Hinit]; [lia|].
  rewrite Hinit. cbn [mbind option_bind].
  apply network_init_inv in Hinit
    as (Hn & Hwf & Hsink & Hnd & Hlen & Hsent & Hreceived & _).
  destruct (simulate_traffic_succeeds built (traffic_draws draws) (extra_draws draws))
    as (network & Htraffic & Hwf' & Hsink'); [done|lia|done|].
  rewrite Htraffic. cbn [mbind option_bind].
  apply simulate_traffic_inv in Htraffic
    as ((Hn' & _ & Hsinks & _ & Htot) & Hmost & Hsent' & Hlost).
  rewrite Hn in Hn'.
  destruct (init network 20) as [aco|] eqn:Haco;
    [|unfold init in Haco; simpl in Haco; rewrite Hn' in Haco; done].
  cbn [mbind option_bind].
  apply init_square in Haco as (Hnet & Hsq & Hnonneg).
  destruct (run_aco_succeeds aco (ant_starts draws) (ant_choices draws) 50)
    as (detected & self' & Hrun & _ & _ & Hdistinct & Hin).
  { by rewrite Hnet. }
  { rewrite Hnet. simpl. lia. }
  { by rewrite Hnet. }
  { done. }
  rewrite Hrun. cbn [mbind option_bind fst].
  rewrite Hnet in Hin. simpl in Hin. rewrite Hn' in Hin.
  assert (0 <= WirelessSensorNetwork.total_packets_received network
          < WirelessSensorNetwork.total_packets_sent network) as Htotals by lia.
  destruct (evaluator_bounds network detected Hdistinct) as (Hsplit & Hle & Hrate & Halarm).
  destruct (delivery_strict network detected Htotals) as [Hratio Hdrop].
  eexists _, _, _. split; [reflexivity|].
  refine (conj Hn' (conj Hwf' (conj Hdistinct (conj Hin (conj _ (conj eq_refl
            (conj Hsplit (conj Hle (conj Hrate (conj Halarm (conj Hratio Hdrop))))))))))).
  simpl. rewrite Hsinks. exact Hlen.
Qed.

(** * Further properties of one move *)

Lemma last_n_last {A} (n : nat) (l : list A) x : (0 < n)%nat → x ∈ last_n n (l ++ [x]).
Proof.
  intros Hn. unfold last_n. rewrite length_app. simpl.
  apply list_elem_of_lookup. exists (length l - (length l + 1 - n))%nat.
  rewrite lookup_drop.
  replace (length l + 1 - n + (length l - (length l + 1 - n)))%nat
    with (length l + 0)%nat by lia.
  by rewrite lookup_app_r, Nat.add_0_r, Nat.sub_diag by lia.
Qed.

Section Movement.
Context {N : Type} `{!NetworkLike N}.
Implicit Types (self : ACOAlgorithm.t N) (ant : Ant.t) (network : N).

(** [ant_movement] appends the node the ant is on to its trail.  Then the
    ant either stays, or steps to a neighbour of that node that is not
    among the last three nodes of the trail: never onto the node it just
    evaluated, and never back onto one of the two nodes before it. *)
Theorem ant_movement_step self r ant ant' :
  ant_movement self r ant = Some ant' →
  ∃ node,
    nodes (ACOAlgorithm.network self) !! Ant.current_node ant = Some node
    ∧ Ant.visited_nodes ant' = Ant.visited_nodes ant ++ [Ant.current_node ant]
    ∧ (Ant.current_node ant' = Ant.current_node ant
       ∨ (Ant.current_node ant' ∈ SensorNode.neighbors node
          ∧ Ant.current_node ant' ≠ Ant.current_node ant
          ∧ Ant.current_node ant' ∉ last_n 2 (Ant.visited_nodes ant))).
Proof.
  intros Hm.
  apply ant_movement_inv in Hm as (b & node & _ & Hnode & Hvisited & _ & Hnext).
  exists node. split; [done|]. split; [done|].
  destruct Hnext as [?|Hnext]; [by left|]. right.
  rewrite Hvisited in Hnext. unfold available_nodes in Hnext.
  apply list_elem_of_filter in Hnext as [Hout Hin]. split; [done|].
  split.
  - intros Heq. apply Hout. rewrite Heq. apply last_n_last. lia.
  - intros Hlast. apply Hout. unfold last_n in *.
    rewrite length_app. simpl.
    apply list_elem_of_lookup in Hlast as [i Hi]. rewrite lookup_drop in Hi.
    apply list_elem_of_lookup.
    exists (length (Ant.visited_nodes ant) - 2
            + i - (length (Ant.visited_nodes ant) + 1 - 3))%nat.
    rewrite lookup_drop.
    pose proof (lookup_lt_Some _ _ _ Hi) as Hlt.
    replace (length (Ant.visited_nodes ant) + 1 - 3
             + (length (Ant.visited_nodes ant) - 2
                + i - (length (Ant.visited_nodes ant) + 1 - 3)))%nat
      with (length (Ant.visited_nodes ant) - 2 + i)%nat by lia.
    by rewrite lookup_app_l by lia.
Qed.

End Movement.

(** * The sample networks *)

Lemma well_formed_intro (w : WirelessSensorNetwork.t) :
  Forall (λ node_id, is_Some (WirelessSensorNetwork.nodes w !! node_id))
    (seqZ 0 (WirelessSensorNetwork.num_nodes w)) →
  map_Forall
    (λ node_id node,
       0 <= node_id < WirelessSensorNetwork.num_nodes w
       ∧ Forall (λ n, 0 <= n < WirelessSensorNetwork.num_nodes w)
           (SensorNode.neighbors node))
    (WirelessSensorNetwork.nodes w) →
  well_formed w.
Proof.
  intros Hkeys Hnodes. split_and!.
  - intros node_id. split.
    + intros Hrange. rewrite Forall_forall in Hkeys. apply Hkeys.
      apply elem_of_seqZ. simpl in Hrange. lia.
    + intros [node Hnode]. by destruct (Hnodes _ _ Hnode).
  - intros node_id. apply get_node_behavior_is_Some.
  - intros node_id node n Hnode Hin. destruct (Hnodes _ _ Hnode) as [_ Hall].
    rewrite Forall_forall in Hall. by apply Hall.
Qed.

Lemma scattered_network_well_formed : well_formed scattered_network.
Proof. apply well_formed_intro; apply (bool_decide_unpack _); vm_compute; exact I. Qed.

Lemma relay_network_well_formed : well_formed relay_network.
Proof. apply well_formed_intro; apply (bool_decide_unpack _); vm_compute; exact I. Qed.

(** * The further properties on the sample networks *)

(** The colony of one ant on [scattered_network] after two iterations on
    the sinkhole 0, and what [detect_attacks] returns on it. *)
Ltac sample_detection colony detected self' Hrun Hdetect :=
  destruct (run_colony (scattered_colony 1) always_zero no_choice 2)
    as [colony|] eqn:Hrun; [|vm_compute in Hrun; discriminate Hrun];
  destruct (detect_attacks colony) as [[detected self']|] eqn:Hdetect;
    [|exfalso; vm_compute in Hrun; injection Hrun as <-;
      vm_compute in Hdetect; discriminate Hdetect].

Lemma detect_attacks_iff_witness :
  ∃ colony detected self',
    run_colony (scattered_colony 1) always_zero no_choice 2 = Some colony
    ∧ detect_attacks colony = Some (detected, self')
    ∧ (0 ∈ detected ↔
       0 ∈ all_suspicious (ACOAlgorithm.ants colony)
       ∧ ∃ r row max_pheromone node_behavior,
           np_index (length (ACOAlgorithm.pheromone_matrix colony)) 0 = Some r
           ∧ ACOAlgorithm.pheromone_matrix colony !! r = Some row
           ∧ np_max row = Some max_pheromone
           ∧ get_node_behavior (ACOAlgorithm.network colony) 0 = Some node_behavior
           ∧ (vote_threshold colony
              <= count_in 0 (all_suspicious (ACOAlgorithm.ants colony)))%nat
           ∧ (pheromone_threshold <= max_pheromone)%Q
           ∧ (2 <= behavior_score node_behavior)%nat).
Proof.
  sample_detection colony detected self' Hrun Hdetect.
  exists colony, detected, self'. split; [reflexivity|]. split; [exact Hdetect|].
  exact (detect_attacks_iff colony detected self' 0 Hdetect).
Defined.

Lemma detect_attacks_NoDup_witness :
  ∃ colony detected self',
    run_colony (scattered_colony 1) always_zero no_choice 2 = Some colony
    ∧ detect_attacks colony = Some (detected, self')
    ∧ NoDup detected.
Proof.
  sample_detection colony detected self' Hrun Hdetect.
  exists colony, detected, self'. split; [reflexivity|]. split; [exact Hdetect|].
  exact (detect_attacks_NoDup colony detected self' Hdetect).
Defined.

Lemma detect_attacks_idempotent_witness :
  ∃ colony detected self',
    run_colony (scattered_colony 1) always_zero no_choice 2 = Some colony
    ∧ detect_attacks colony = Some (detected, self')
    ∧ detect_attacks self' = Some (detected, self').
Proof.
  sample_detection colony detected self' Hrun Hdetect.
  exists colony, detected, self'. split; [reflexivity|]. split; [exact Hdetect|].
  exact (detect_attacks_idempotent colony detected self' Hdetect).
Defined.

Lemma run_aco_detected_low_delivery_witness :
  ∃ detected self',
    run_aco (scattered_colony 1) always_zero no_choice 2 = Some (detected, self')
    ∧ 0 ∈ detected
    ∧ ∃ node_behavior node,
        get_node_behavior (ACOAlgorithm.network (scattered_colony 1)) 0
        = Some node_behavior
        ∧ nodes (ACOAlgorithm.network (scattered_colony 1)) !! 0 = Some node
        ∧ is_suspicious node_behavior node = true
        ∧ (Behavior.delivery_ratio node_behavior < 0.38)%Q
        ∧ (2 <= behavior_score node_behavior)%nat.
Proof.
  destruct (run_aco (scattered_colony 1) always_zero no_choice 2)
    as [[detected self']|] eqn:Hrun; [|vm_compute in Hrun; discriminate Hrun].
  assert (0 ∈ detected) as Hin.
  { pose proof Hrun as Hrun'. vm_compute in Hrun'. injection Hrun' as <- _.
    apply list_elem_of_here. }
  exists detected, self'. split; [reflexivity|]. split; [exact Hin|].
  exact (run_aco_detected_low_delivery (scattered_colony 1) always_zero no_choice 2
           detected self' 0 Hrun Hin).
Defined.

Lemma run_colony_trails_witness :
  ∃ colony,
    run_colony (relay_colony 1) always_five no_choice 3 = Some colony
    ∧ length (ACOAlgorithm.ants colony) = ACOAlgorithm.num_ants (relay_colony 1)
    ∧ Forall (λ ant, length (Ant.visited_nodes ant) = 3%nat
                     ∧ Ant.suspicious_nodes ant `sublist_of` Ant.visited_nodes ant)
        (ACOAlgorithm.ants colony).
Proof.
  destruct (run_colony (relay_colony 1) always_five no_choice 3)
    as [colony|] eqn:Hrun; [|vm_compute in Hrun; discriminate Hrun].
  exists colony. split; [reflexivity|].
  exact (run_colony_trails (relay_colony 1) always_five no_choice 3 colony Hrun).
Defined.

Lemma run_aco_empty_network_witness :
  run_aco
    {| ACOAlgorithm.network := empty_network 0;
       ACOAlgorithm.num_ants := 1;
       ACOAlgorithm.ants := [];
       ACOAlgorithm.pheromone_matrix := [];
       ACOAlgorithm.detected_attacks := [] |}
    always_zero no_choice 2
  = None.
Proof.
  apply (run_aco_empty_network
           {| ACOAlgorithm.network := empty_network 0;
              ACOAlgorithm.num_ants := 1;
              ACOAlgorithm.ants := [];
              ACOAlgorithm.pheromone_matrix := [];
              ACOAlgorithm.detected_attacks := [] |}).
  - simpl. lia.
  - simpl. lia.
Defined.

Lemma run_aco_total_witness :
  ∃ detected self',
    run_aco (scattered_colony 1) always_zero no_choice 2 = Some (detected, self')
    ∧ matrix_square
        (Z.to_nat (num_nodes (ACOAlgorithm.network (scattered_colony 1))))
        (ACOAlgorithm.pheromone_matrix self')
    ∧ matrix_nonneg (ACOAlgorithm.pheromone_matrix self').
Proof.
  assert (init scattered_network 1 = Some (scattered_colony 1)) as Hinit
    by (vm_compute; reflexivity).
  apply init_square in Hinit as (_ & Hsquare & Hnonneg).
  apply (run_aco_total (scattered_colony 1) always_zero no_choice 2).
  - exact scattered_network_well_formed.
  - simpl. lia.
  - exact Hsquare.
  - exact Hnonneg.
Defined.


Lemma ant_movement_step_witness :
  ∃ ant' node,
    ant_movement (relay_colony 1) 0 (Ant.mk 6 [5] []) = Some ant'
    ∧ nodes (ACOAlgorithm.network (relay_colony 1)) !! Ant.current_node (Ant.mk 6 [5] [])
      = Some node
    ∧ Ant.visited_nodes ant'
      = Ant.visited_nodes (Ant.mk 6 [5] []) ++ [Ant.current_node (Ant.mk 6 [5] [])]
    ∧ (Ant.current_node ant' = Ant.current_node (Ant.mk 6 [5] [])
       ∨ (Ant.current_node ant' ∈ SensorNode.neighbors node
          ∧ Ant.current_node ant' ≠ Ant.current_node (Ant.mk 6 [5] [])
          ∧ Ant.current_node ant' ∉ last_n 2 (Ant.visited_nodes (Ant.mk 6 [5] [])))).
Proof.
  destruct (ant_movement (relay_colony 1) 0 (Ant.mk 6 [5] [])) as [ant'|] eqn:Hmove;
    [|vm_compute in Hmove; discriminate Hmove].
  destruct (ant_movement_step (relay_colony 1) 0%nat (Ant.mk 6 [5] []) ant' Hmove)
    as (node & Hstep).
  exists ant', node. split; [reflexivity|]. exact Hstep.
Defined.

Lemma create_network_well_formed_witness :
  ∃ network,
    WirelessSensorNetwork._create_network (empty_network 10) row_placement
    = Some network
    ∧ WirelessSensorNetwork.num_nodes network
      = WirelessSensorNetwork.num_nodes (empty_network 10)
    ∧ WirelessSensorNetwork.sinkhole_nodes network
      = WirelessSensorNetwork.sinkhole_nodes (empty_network 10)
    ∧ well_formed network
    ∧ pristine (WirelessSensorNetwork.nodes network).
Proof.
  apply (create_network_well_formed (empty_network 10) row_placement). reflexivity.
Defined.

Lemma create_network_neighbors_witness :
  ∃ network,
    WirelessSensorNetwork._create_network (empty_network 10) row_placement
    = Some network
    ∧ (neighbor_of (WirelessSensorNetwork.nodes network) 1 3 ↔
       0 <= 1 < WirelessSensorNetwork.num_nodes (empty_network 10)
       ∧ 0 <= 3 < WirelessSensorNetwork.num_nodes (empty_network 10)
       ∧ 1 ≠ 3
       ∧ in_reach row_placement 1 3)
    ∧ (neighbor_of (WirelessSensorNetwork.nodes network) 1 3 ↔
       neighbor_of (WirelessSensorNetwork.nodes network) 3 1)
    ∧ ¬ neighbor_of (WirelessSensorNetwork.nodes network) 1 1.
Proof.
  destruct (WirelessSensorNetwork._create_network (empty_network 10) row_placement)
    as [network|] eqn:Hcreate; [|vm_compute in Hcreate; discriminate Hcreate].
  exists network. split; [reflexivity|].
  exact (create_network_neighbors (empty_network 10) row_placement network 1 3
           eq_refl Hcreate).
Defined.

Lemma inject_sinkhole_attacks_outcome_witness :
  ∃ network,
    NetworkSimulation._inject_sinkhole_attacks scattered_network 0 always_zero
      (λ _, (0, 0, 0)%nat)
    = Some network
    ∧ (5 <= length (WirelessSensorNetwork.sinkhole_nodes network) <= 10)%nat
    ∧ NoDup (WirelessSensorNetwork.sinkhole_nodes network)
    ∧ sinkholes_in_range network
    ∧ attack_outcome (WirelessSensorNetwork.sinkhole_nodes network)
        (WirelessSensorNetwork.nodes scattered_network)
        (WirelessSensorNetwork.nodes network)
    ∧ WirelessSensorNetwork.num_nodes network
      = WirelessSensorNetwork.num_nodes scattered_network
    ∧ WirelessSensorNetwork.total_packets_sent network
      = WirelessSensorNetwork.total_packets_sent scattered_network
    ∧ WirelessSensorNetwork.total_packets_received network
      = WirelessSensorNetwork.total_packets_received scattered_network.
Proof.
  destruct (NetworkSimulation._inject_sinkhole_attacks scattered_network 0 always_zero
              (λ _, (0, 0, 0)%nat)) as [network|] eqn:Hinject;
    [|vm_compute in Hinject; discriminate Hinject].
  exists network. split; [reflexivity|].
  exact (inject_sinkhole_attacks_outcome scattered_network 0 always_zero
           (λ _, (0, 0, 0)%nat) network Hinject).
Defined.

Lemma inject_sinkhole_attacks_raises_witness :
  ∃ num_attacks,
    randint 5 10 0 = Some num_attacks
    ∧ 5 <= num_attacks <= 10
    ∧ (NetworkSimulation._inject_sinkhole_attacks scattered_network 0 always_zero
         (λ _, (0, 0, 0)%nat) = None
       ↔ WirelessSensorNetwork.num_nodes scattered_network < num_attacks).
Proof.
  exact (inject_sinkhole_attacks_raises scattered_network 0 always_zero
           (λ _, (0, 0, 0)%nat) scattered_network_well_formed).
Defined.

Lemma network_init_ground_truth_witness :
  ∃ network,
    NetworkSimulation.init 10 (100, 100) row_placement 0 always_zero
      (λ _, (0, 0, 0)%nat)
    = Some network
    ∧ WirelessSensorNetwork.num_nodes network = 10
    ∧ well_formed network
    ∧ sinkholes_in_range network
    ∧ NoDup (WirelessSensorNetwork.sinkhole_nodes network)
    ∧ (5 <= length (WirelessSensorNetwork.sinkhole_nodes network) <= 10)%nat
    ∧ WirelessSensorNetwork.total_packets_sent network = 0
    ∧ WirelessSensorNetwork.total_packets_received network = 0
    ∧ ∀ a node,
        WirelessSensorNetwork.nodes network !! a = Some node →
        SensorNode.node_id node = a
        ∧ (SensorNode.is_malicious node = true
           ↔ a ∈ WirelessSensorNetwork.sinkhole_nodes network)
        ∧ (a ∈ WirelessSensorNetwork.sinkhole_nodes network →
           80 <= SensorNode.packets_sent node <= 120
           ∧ 5 <= SensorNode.packets_received node <= 25
           ∧ (20 <= SensorNode.energy node <= 40)%Q)
        ∧ (a ∉ WirelessSensorNetwork.sinkhole_nodes network →
           SensorNode.packets_sent node = 0 ∧ SensorNode.packets_received node = 0).
Proof.
  destruct (NetworkSimulation.init 10 (100, 100) row_placement 0 always_zero
              (λ _, (0, 0, 0)%nat)) as [network|] eqn:Hinit;
    [|vm_compute in Hinit; discriminate Hinit].
  exists network. split; [reflexivity|].
  exact (network_init_ground_truth 10 (100, 100) row_placement 0 always_zero
           (λ _, (0, 0, 0)%nat) network Hinit).
Defined.

Lemma simulate_traffic_frame_witness :
  ∃ self',
    NetworkSimulation.simulate_traffic scattered_network
      (λ i, (i, S i, i)) (λ _, 0%nat)
    = Some self'
    ∧ traffic_frame scattered_network self'
    ∧ WirelessSensorNetwork.total_packets_received self'
      - WirelessSensorNetwork.total_packets_received scattered_network <= 2000
    ∧ 20 * Z.of_nat (length (WirelessSensorNetwork.sinkhole_nodes scattered_network))
      <= WirelessSensorNetwork.total_packets_sent self'
         - WirelessSensorNetwork.total_packets_sent scattered_network
      <= 2000
         + 50 * Z.of_nat (length (WirelessSensorNetwork.sinkhole_nodes scattered_network))
    ∧ 20 * Z.of_nat (length (WirelessSensorNetwork.sinkhole_nodes scattered_network))
      <= (WirelessSensorNetwork.total_packets_sent self'
          - WirelessSensorNetwork.total_packets_sent scattered_network)
         - (WirelessSensorNetwork.total_packets_received self'
            - WirelessSensorNetwork.total_packets_received scattered_network).
Proof.
  destruct (simulate_traffic_succeeds scattered_network (λ i, (i, S i, i))
              (λ _, 0%nat) scattered_network_well_formed)
    as (self' & Htraffic & _).
  - simpl. lia.
  - apply (bool_decide_unpack _). vm_compute. exact I.
  - exists self'. split; [exact Htraffic|].
    exact (simulate_traffic_frame scattered_network (λ i, (i, S i, i)) (λ _, 0%nat)
             self' Htraffic).
Defined.

Lemma simulate_traffic_accounting_witness :
  ∃ self',
    NetworkSimulation.simulate_traffic relay_network
      (λ i, (i, S i, i)) (λ _, 0%nat)
    = Some self'
    ∧ accounted relay_network self'.
Proof.
  destruct (simulate_traffic_succeeds relay_network (λ i, (i, S i, i))
              (λ _, 0%nat) relay_network_well_formed)
    as (self' & Htraffic & _).
  - simpl. lia.
  - apply (bool_decide_unpack _). vm_compute. exact I.
  - exists self'. split; [exact Htraffic|].
    exact (simulate_traffic_accounting relay_network (λ i, (i, S i, i)) (λ _, 0%nat)
             self' Htraffic).
Defined.

Lemma simulate_traffic_total_witness :
  ∃ self',
    NetworkSimulation.simulate_traffic scattered_network
      (λ i, (i, S i, i)) (λ _, 0%nat)
    = Some self'
    ∧ well_formed self' ∧ sinkholes_in_range self'.
Proof.
  apply (simulate_traffic_total scattered_network (λ i, (i, S i, i)) (λ _, 0%nat)).
  - exact scattered_network_well_formed.
  - simpl. lia.
  - apply (bool_decide_unpack _). vm_compute. exact I.
Defined.

Lemma simulate_traffic_no_nodes_witness :
  NetworkSimulation.simulate_traffic (empty_network 0) (λ i, (i, S i, i)) (λ _, 0%nat)
  = None.
Proof.
  apply (simulate_traffic_no_nodes (empty_network 0)). simpl. lia.
Defined.

Lemma evaluator_detection_rate_bounded_witness :
  (PerformanceEvaluator.true_detections
     (PerformanceEvaluator.init scattered_network [0%Z; 5%Z])
   <= length (WirelessSensorNetwork.sinkhole_nodes scattered_network))%nat
  ∧ (0 <= PerformanceEvaluator.calculate_detection_rate
            (PerformanceEvaluator.init scattered_network [0%Z; 5%Z]) <= 100)%Q.
Proof.
  apply (evaluator_detection_rate_bounded scattered_network [0%Z; 5%Z]).
  apply (bool_decide_unpack _). vm_compute. exact I.
Defined.

Lemma evaluator_delivery_bounded_witness :
  (0 <= PerformanceEvaluator.calculate_packet_delivery_ratio
          (PerformanceEvaluator.init relay_network []) <= 100)%Q
  ∧ (0 <= PerformanceEvaluator.calculate_message_drop
            (PerformanceEvaluator.init relay_network []) <= 100)%Q
  ∧ (WirelessSensorNetwork.total_packets_sent relay_network = 0 →
     PerformanceEvaluator.calculate_packet_delivery_ratio
       (PerformanceEvaluator.init relay_network []) = 0%Q
     ∧ PerformanceEvaluator.calculate_message_drop
         (PerformanceEvaluator.init relay_network []) = 0%Q).
Proof.
  apply (evaluator_delivery_bounded relay_network []). simpl. lia.
Defined.
